(** * Evidence aggregation and quality scoring of the Aspartame research agent

    A shallow embedding of [src/academic_tools.py] and [src/agent.py]:
    the study classifier, the paper quality scorer, the evidence grader,
    the confidence formula, and the retrieval pipeline with its
    degrade-to-empty error handling.

    Modelling conventions.
    - A Python [float] is an IEEE-754 binary64 number: the kernel's
      primitive [float], whose operations round to nearest-even as
      CPython's do.  A decimal literal such as [0.3] denotes the nearest
      binary64 number in both languages.
    - A Python [str] is a [string]; texts are taken over ASCII, and
      [str.lower] is ASCII lower-casing.
    - A Python [int] is a [Z].
    - The [.text] of an XML element is a text or [None] (an element
      without text, or one that starts with a child element), and a value
      of the JSON reply of the web search is a string or [null] (other
      JSON types are outside the model); the attributes and dictionary
      values filled from them hold [None] where the source stores it, and
      the operations that raise on [None] raise.
    - The calls to the language model are outside the model; the replies
      that carry the search queries are inputs of the pipeline. *)

From Stdlib Require Import ZArith List Bool String Ascii Lia Sorted Permutation.
From Stdlib Require Import Floats QArith.
Import ListNotations.

Set Warnings "-inexact-float".

Local Open Scope string_scope.
Local Open Scope list_scope.
Local Open Scope float_scope.

(** ** Binary64 numbers as Python uses them *)

Module PyFloat.

(** [float(n)] for a length or a small count.  The conversion is exact
    below [2^53]; a CPython sequence has fewer than [2^63] items. *)
Definition of_nat (n : nat) : float :=
  of_uint63 (Uint63.of_Z (Z.of_nat n)).

(** [min(a, b)]: the builtin keeps its first argument unless the second
    compares strictly below it. *)
Definition min (a b : float) : float :=
  if b <? a then b else a.

(** [sum(xs)] over floats, adding left to right from the integer [0]
    (CPython up to 3.11). *)
Definition sum (xs : list float) : float :=
  fold_left (fun acc x => acc + x) xs 0.

(** [sum(xs)] as CPython 3.12 and later computes it: the first item is
    added to the integer [0], the others are accumulated with
    Neumaier's compensation, which is added at the end when it is
    finite and not zero. *)
Fixpoint neumaier (xs : list float) (f c : float) : float * float :=
  match xs with
  | [] => (f, c)
  | x :: rest =>
      let t := f + x in
      let c' := if abs x <=? abs f
                then c + ((f - t) + x)
                else c + ((x - t) + f) in
      neumaier rest t c'
  end.

Definition is_finite (x : float) : bool :=
  (abs x <? infinity).

Definition sum_compensated (xs : list float) : float :=
  match xs with
  | [] => 0
  | x :: rest =>
      let '(f, c) := neumaier rest (0 + x) 0 in
      if (negb (c =? 0)) && is_finite c then f + c else f
  end.

(** The rational number a finite float stands for: its mantissa times a
    power of two ([0] for a zero; infinities and NaN stand for no number
    and are sent to [0] as well). *)
Definition exact (x : float) : Q :=
  match Prim2SF x with
  | S754_finite s m e =>
      ((if s then -1 else 1) * (Z.pos m # 1) * Qpower 2 e)%Q
  | _ => 0%Q
  end.

End PyFloat.

(** ** Python strings *)

Module PyStr.

Definition code (c : ascii) : nat := nat_of_ascii c.

(** [str.lower] on one ASCII character. *)
Definition lower_ascii (c : ascii) : ascii :=
  if (65 <=? code c)%nat && (code c <=? 90)%nat
  then ascii_of_nat (code c + 32)
  else c.

Fixpoint lower (s : string) : string :=
  match s with
  | EmptyString => EmptyString
  | String c rest => String (lower_ascii c) (lower rest)
  end.

(** [needle in hay]: substring test. *)
Fixpoint contains (needle hay : string) {struct hay} : bool :=
  if String.prefix needle hay then true
  else match hay with
       | EmptyString => false
       | String _ rest => contains needle rest
       end.

(** [any(term in text for term in terms)]. *)
Definition any_in (terms : list string) (text : string) : bool :=
  existsb (fun term => contains term text) terms.

(** The characters [str.strip], [str.split] and [int] treat as white
    space, within ASCII. *)
Definition is_space (c : ascii) : bool :=
  ((9 <=? code c)%nat && (code c <=? 13)%nat)
  || ((28 <=? code c)%nat && (code c <=? 32)%nat).

Fixpoint lstrip_with (drop : ascii -> bool) (cs : list ascii) : list ascii :=
  match cs with
  | [] => []
  | c :: rest => if drop c then lstrip_with drop rest else cs
  end.

Definition strip_with (drop : ascii -> bool) (s : string) : string :=
  string_of_list_ascii
    (rev (lstrip_with drop (rev (lstrip_with drop (list_ascii_of_string s))))).

(** [s.strip()], and [s.strip(q)] for [q] the double-quote character
    (code 34). *)
Definition strip (s : string) : string := strip_with is_space s.
Definition strip_quotes (s : string) : string :=
  strip_with (fun c => (code c =? 34)%nat) s.

(** [s.split(sep)] for a one-character separator: never empty. *)
Fixpoint split_on (sep : ascii) (s : string) : list string :=
  match s with
  | EmptyString => [EmptyString]
  | String c rest =>
      if Ascii.eqb c sep then EmptyString :: split_on sep rest
      else match split_on sep rest with
           | [] => [String c EmptyString]
           | w :: ws => String c w :: ws
           end
  end.

(** [s.split()]: the maximal runs of characters that are not white space. *)
Fixpoint words_from (cs : list ascii) (cur : list ascii) : list string :=
  let flush := match cur with
               | [] => []
               | _ => [string_of_list_ascii (rev cur)]
               end in
  match cs with
  | [] => flush
  | c :: rest =>
      if is_space c then flush ++ words_from rest []
      else words_from rest (c :: cur)
  end.

Definition split (s : string) : list string :=
  words_from (list_ascii_of_string s) [].

(** [s[-4:]]. *)
Definition last4 (s : string) : string :=
  substring (String.length s - 4) 4 s.

(** [s[:n]]. *)
Definition take (n : nat) (s : string) : string := substring 0 n s.

(** [int(s)] in base ten; [None] stands for [ValueError].  White space
    around the literal is dropped, one sign is allowed, and digits may
    be separated by single underscores. *)
Definition is_digit (c : ascii) : bool :=
  (48 <=? code c)%nat && (code c <=? 57)%nat.

Fixpoint digits (cs : list ascii) (acc : Z) (after_digit : bool) : option Z :=
  match cs with
  | [] => if after_digit then Some acc else None
  | c :: rest =>
      if is_digit c
      then digits rest (10 * acc + Z.of_nat (code c - 48))%Z true
      else if Ascii.eqb c "_"%char && after_digit
           then digits rest acc false
           else None
  end.

Definition int (s : string) : option Z :=
  match list_ascii_of_string (strip s) with
  | "+"%char :: ds => digits ds 0%Z false
  | "-"%char :: ds => option_map Z.opp (digits ds 0%Z false)
  | ds => digits ds 0%Z false
  end.

End PyStr.

(** ** Data model ([academic_tools.py], [agent.py]) *)

(** A value that is a text or Python's [None]: the [.text] of an XML
    element, or a string of a JSON reply. *)
Definition text_or_none : Type := option string.

(** What an f-string writes for such a value. *)
Definition format_text (t : text_or_none) : string :=
  match t with
  | Some s => s
  | None => "None"
  end.

(** The dataclass [AcademicPaper], with the values its attributes hold
    when a searcher returns the object.  [title], [abstract],
    [publication_date] and [url] are filled from element texts and may be
    [None], and so may an item of [authors].  [journal] is a text: the
    scoring step of the primary source raises on an object whose journal
    is [None] (see [parsed_paper]), and the secondary source writes a
    literal. *)
Record AcademicPaper : Type := mkAcademicPaper {
  title : text_or_none;
  authors : list text_or_none;
  abstract : text_or_none;
  publication_date : text_or_none;
  journal : string;
  pmid : text_or_none;
  doi : text_or_none;
  url : text_or_none;
  study_type : string;
  sample_size : option Z;
  peer_reviewed : bool;
  impact_factor : option float;
  conflicts_disclosed : bool;
  funding_source : string;
  quality_score : float
}.

(** [paper.quality_score = q]. *)
Definition set_quality_score (paper : AcademicPaper) (q : float) : AcademicPaper :=
  {| title := title paper; authors := authors paper;
     abstract := abstract paper;
     publication_date := publication_date paper;
     journal := journal paper; pmid := pmid paper; doi := doi paper;
     url := url paper; study_type := study_type paper;
     sample_size := sample_size paper;
     peer_reviewed := peer_reviewed paper;
     impact_factor := impact_factor paper;
     conflicts_disclosed := conflicts_disclosed paper;
     funding_source := funding_source paper;
     quality_score := q |}.

(** The object [_parse_paper_xml] builds, before it is scored.  Its
    [journal] is the text of the Journal/Title element, which is [None]
    for an element without text: then the object is
    [PaperWithoutJournal paper], with the other attributes as in [paper]
    (whose own [journal] is not read). *)
Inductive parsed_paper : Type :=
  | Paper (paper : AcademicPaper)
  | PaperWithoutJournal (paper : AcademicPaper).

Definition attributes (p : parsed_paper) : AcademicPaper :=
  match p with
  | Paper paper | PaperWithoutJournal paper => paper
  end.

(** A dictionary with string keys, in insertion order; [d.get(k, default)]. *)
Fixpoint dict_get {V : Type} (d : list (string * V)) (k : string) (default : V) : V :=
  match d with
  | [] => default
  | (k', v) :: rest => if String.eqb k' k then v else dict_get rest k default
  end.

(** ** Effects: requests, exceptions, and the log of issued requests *)

(** The exceptions the retrieval code can meet. *)
Inductive exn : Type :=
  | RequestException   (* raised by [requests.get] / [requests.post]:
                          timeout, connection error, ... *)
  | ParseError         (* [xml.etree.ElementTree.ParseError] *)
  | JSONDecodeError    (* raised by [response.json()] *)
  | IndexError         (* a list index out of range *)
  | AttributeError     (* a method looked up on [None] *)
  | TypeError.         (* [None] sliced, joined or searched *)

(** The four requests of the program, with the parameters that vary. *)
Inductive request : Type :=
  | esearch (term : string) (retmax : Z) (email : string)
      (* GET {base_url}/esearch.fcgi, timeout 10 *)
  | efetch (id : string) (email : string)
      (* GET {base_url}/efetch.fcgi, timeout 15 *)
  | arxiv_query (search_query : string) (max_results : Z)
      (* GET http://export.arxiv.org/api/query, timeout 10 *)
  | tavily_post (api_key : string) (query : string).
      (* POST https://api.tavily.com/search, timeout 10 *)

(** What [_parse_paper_xml] reads in one [PubmedArticle] element.  For
    an element a [find] looks up: [None] when there is no such element,
    [Some t] when there is one and [t] is its [.text] (itself [None] for
    an element without text).  For a [findall]: the items it yields. *)
Record article : Type := mkArticle {
  a_pmid : option text_or_none;                 (* .//PMID *)
  a_title : option text_or_none;                (* .//ArticleTitle *)
  a_abstract : option text_or_none;             (* .//AbstractText *)
  a_authors : list (option text_or_none * option text_or_none);
                                                (* LastName, ForeName *)
  a_journal : option text_or_none;              (* .//Journal/Title *)
  a_year : option text_or_none;                 (* .//PubDate/Year *)
  a_month : option text_or_none;                (* .//PubDate/Month *)
  a_article_ids : list (option string * text_or_none);
                                                (* IdType attribute, text *)
  a_grants : list (option text_or_none);        (* Agency of each Grant *)
  a_abstract_labels : list (option string)      (* Label of each AbstractText *)
}.

(** What [_parse_arxiv_response] reads in one [atom:entry], in the same
    way. *)
Record arxiv_entry : Type := mkEntry {
  e_title : option text_or_none;
  e_summary : option text_or_none;
  e_authors : list (option text_or_none);       (* atom:name of each author *)
  e_published : option text_or_none;
  e_id : option text_or_none
}.

(** A parsed XML document, seen through the three [findall] queries the
    program makes on a root element. *)
Record xml_root : Type := mkRoot {
  ids : list text_or_none;                      (* the text of each .//Id *)
  articles : list article;                      (* .//PubmedArticle *)
  entries : list arxiv_entry                    (* atom:entry *)
}.

(** One item and the whole of a Tavily reply.  For a key: [None] when it
    is absent, [Some v] when it is there with the string or [null] [v]. *)
Record tavily_item : Type := mkItem {
  r_title : option text_or_none;
  r_url : option text_or_none;
  r_content : option text_or_none
}.

Record tavily_reply : Type := mkReply {
  results : option (list tavily_item)
}.

(** A response: its status code, and what parsing its body gives.
    [xml = None] when [ET.fromstring] raises, [json = None] when
    [response.json()] raises. *)
Record response : Type := mkResponse {
  status_code : Z;
  xml : option xml_root;
  json : option tavily_reply
}.

(** Everything outside the program.  [server log rq] is the answer to
    request [rq] after the requests of [log]; [None] when the call raises.
    [re_sample_size] is the regular-expression scan of
    [_extract_sample_size] over a non-empty abstract. *)
Record world : Type := mkWorld {
  server : list request -> request -> option response;
  current_year : Z;
  pubmed_email : string;
  tavily_key : option string;
  re_sample_size : string -> option Z
}.

Inductive outcome (A : Type) : Type :=
  | Returns (a : A)
  | Raises (e : exn).
Arguments Returns {A} a.
Arguments Raises {A} e.

(** A computation reads and extends the log of issued requests, and
    returns or raises. *)
Definition M (A : Type) : Type := list request -> outcome A * list request.

Definition ret {A : Type} (a : A) : M A := fun log => (Returns a, log).

Definition bind {A B : Type} (m : M A) (k : A -> M B) : M B :=
  fun log =>
    match m log with
    | (Returns a, log') => k a log'
    | (Raises e, log') => (Raises e, log')
    end.

Definition raise {A : Type} (e : exn) : M A := fun log => (Raises e, log).

(** [try: body except ...: handler]. *)
Definition try_except {A : Type} (body : M A) (handler : exn -> M A) : M A :=
  fun log =>
    match body log with
    | (Returns a, log') => (Returns a, log')
    | (Raises e, log') => handler e log'
    end.

Notation "x <- m ;; k" := (bind m (fun x => k))
  (at level 61, m at next level, right associativity).

(** [requests.get(...)] / [requests.post(...)]. *)
Definition send (w : world) (rq : request) : M response :=
  fun log =>
    match server w log rq with
    | Some r => (Returns r, log ++ [rq])
    | None => (Raises RequestException, log ++ [rq])
    end.

(** [ET.fromstring(response.content)] and [response.json()]. *)
Definition fromstring (r : response) : M xml_root :=
  match xml r with
  | Some root => ret root
  | None => raise ParseError
  end.

Definition response_json (r : response) : M tavily_reply :=
  match json r with
  | Some v => ret v
  | None => raise JSONDecodeError
  end.

(** [for x in xs: acc.extend(f(x))], from an empty [acc]. *)
Fixpoint extend_each {A B : Type} (f : A -> M (list B)) (xs : list A) : M (list B) :=
  match xs with
  | [] => ret []
  | x :: rest =>
      ys <- f x ;;
      zs <- extend_each f rest ;;
      ret (ys ++ zs)
  end.

(** A step that issues no request: it only returns or raises. *)
Definition lift {A : Type} (o : outcome A) : M A := fun log => (o, log).

Definition and_then {A B : Type} (o : outcome A) (k : A -> outcome B) : outcome B :=
  match o with
  | Returns a => k a
  | Raises e => Raises e
  end.

Notation "x <~ o ;; k" := (and_then o (fun x => k))
  (at level 61, o at next level, right associativity).

(** [[f(x) for x in xs]], and a loop that appends [f(x)] for each [x]:
    the first exception ends it, and the items built so far are lost. *)
Fixpoint for_each {A B : Type} (f : A -> outcome B) (xs : list A) : outcome (list B) :=
  match xs with
  | [] => Returns []
  | x :: rest =>
      y <~ f x ;;
      ys <~ for_each f rest ;;
      Returns (y :: ys)
  end.

(** [t.strip()] and [t[:n]] for a value that may be [None]. *)
Definition strip_text (t : text_or_none) : outcome string :=
  match t with
  | Some s => Returns (PyStr.strip s)
  | None => Raises AttributeError
  end.

Definition slice_text (n : nat) (t : text_or_none) : outcome string :=
  match t with
  | Some s => Returns (PyStr.take n s)
  | None => Raises TypeError
  end.

(** [sep.join(items)]: a TypeError when an item is [None]. *)
Definition join_texts (sep : string) (items : list text_or_none) : outcome string :=
  items <~ for_each (fun item => match item with
                                 | Some s => Returns s
                                 | None => Raises TypeError
                                 end) items ;;
  Returns (String.concat sep items).

Definition is_empty {A : Type} (l : list A) : bool :=
  match l with
  | [] => true
  | _ :: _ => false
  end.

(** [d.get(k, default)] for a key that may be absent, and
    [x if x is not None else default]. *)
Definition option_default {A : Type} (o : option A) (d : A) : A :=
  match o with
  | Some a => a
  | None => d
  end.

(** ** [class PubMedSearcher] *)

Module PubMedSearcher.

(** [_classify_study_type]: an [if]/[elif] chain over the lower-cased
    title and abstract. *)
Definition _classify_study_type (title abstract : string) : string :=
  let text := PyStr.lower (title ++ " " ++ abstract)%string in
  if PyStr.any_in ["meta-analysis"; "meta analysis"; "systematic review"] text
  then "meta-analysis"
  else if PyStr.any_in ["randomized controlled trial"; "rct"; "randomized"] text
  then "rct"
  else if PyStr.any_in ["cohort study"; "longitudinal"; "prospective"] text
  then "cohort"
  else if PyStr.any_in ["case-control"; "case control"] text
  then "case-control"
  else if PyStr.any_in ["cross-sectional"; "survey"] text
  then "cross-sectional"
  else if PyStr.any_in ["review"; "narrative review"] text
  then "review"
  else "observational".

(** [_assess_paper_quality] and its tables. *)

Definition type_scores : list (string * float) :=
  [ ("meta-analysis", 1.0); ("rct", 0.9); ("cohort", 0.7);
    ("case-control", 0.6); ("cross-sectional", 0.4); ("review", 0.3);
    ("observational", 0.5) ].

Definition high_impact_journals : list string :=
  [ "new england journal of medicine"; "lancet"; "jama"; "bmj";
    "nature"; "science"; "cochrane" ].

(** The sample-size bonus: [None] and [0] are falsy, and only the highest
    band that applies is added. *)
Definition add_sample_size (sample_size : option Z) (score : float) : float :=
  match sample_size with
  | None => score
  | Some n =>
      if (n =? 0)%Z then score
      else if (1000 <=? n)%Z then score + 0.3
      else if (100 <=? n)%Z then score + 0.2
      else if (50 <=? n)%Z then score + 0.1
      else score
  end.

Definition journal_is_high_impact (journal : string) : bool :=
  existsb (fun j => PyStr.contains (PyStr.lower j) (PyStr.lower journal))
          high_impact_journals.

(** The recency test; [current_year] is [datetime.now().year].  [None]
    and the empty text are falsy.  The [ValueError] of [int] is caught and
    leaves the score as it is. *)
Definition is_recent (current_year : Z) (publication_date : text_or_none) : bool :=
  match publication_date with
  | None => false
  | Some date =>
      if negb (String.eqb date "") && (4 <=? String.length date)%nat
      then match PyStr.int (PyStr.last4 date) with
           | Some year => (current_year - year <=? 5)%Z
           | None => false
           end
      else false
  end.

(** The value of [score] when the final [min(1.0, score)] is reached. *)
Definition score_before_clamp (current_year : Z) (paper : AcademicPaper) : float :=
  let score := 0.0 in
  let score := score + dict_get type_scores (study_type paper) 0.3 * 0.4 in
  let score := add_sample_size (sample_size paper) score in
  let score := if journal_is_high_impact (journal paper)
               then score + 0.2 else score in
  let score := if is_recent current_year (publication_date paper)
               then score + 0.1 else score in
  let score := if conflicts_disclosed paper then score + 0.05 else score in
  score.

Definition _assess_paper_quality (current_year : Z) (paper : AcademicPaper) : float :=
  PyFloat.min 1.0 (score_before_clamp current_year paper).

(** [_extract_sample_size]: nothing for an abstract that is [None] or
    empty, else the pattern scan. *)
Definition _extract_sample_size (w : world) (abstract : text_or_none) : option Z :=
  match abstract with
  | None => None
  | Some abstract =>
      if String.eqb abstract "" then None else re_sample_size w abstract
  end.

Definition _extract_funding (a : article) : string :=
  if is_empty (a_grants a) then ""
  else
    let agencies :=
      flat_map (fun agency =>
                  match agency with
                  | Some (Some text) => if String.eqb text "" then [] else [text]
                  | _ => []
                  end) (a_grants a) in
    if is_empty agencies then "Grant funded" else String.concat ", " agencies.

Definition _check_conflicts_disclosed (a : article) : bool :=
  existsb (fun label =>
             match label with
             | Some l => negb (String.eqb l "")
                         && PyStr.contains "conflict" (PyStr.lower l)
             | None => false
             end) (a_abstract_labels a).

(** [_parse_paper_xml]; the object it builds leaves [impact_factor] and
    [quality_score] at the defaults of the dataclass.  A text that is
    [None] is stored as it is; the two f-strings (an author's name, a
    month before the year) write it as the text None, and so does the
    f-string of [_classify_study_type], whose arguments are passed
    formatted.  Nothing in the body raises, so an object is always
    returned. *)
Definition _parse_paper_xml (w : world) (a : article) : option parsed_paper :=
  let pmid := option_default (a_pmid a) None in
  let title := option_default (a_title a) (Some "No title") in
  let abstract := option_default (a_abstract a) (Some "") in
  let authors :=
    flat_map (fun author =>
                match author with
                | (Some last_name, Some first_name) =>
                    [Some (format_text first_name ++ " "
                           ++ format_text last_name)%string]
                | _ => []
                end) (a_authors a) in
  let journal := option_default (a_journal a) (Some "Unknown Journal") in
  let pub_date :=
    match a_year a, a_month a with
    | None, _ => Some ""
    | Some year, None => year
    | Some year, Some month =>
        Some (format_text month ++ " " ++ format_text year)%string
    end in
  let doi :=
    match filter (fun id => match fst id with
                            | Some ty => String.eqb ty "doi"
                            | None => false
                            end) (a_article_ids a) with
    | id :: _ => snd id
    | [] => None
    end in
  let url :=
    match pmid with
    | Some id => if String.eqb id "" then ""
                 else ("https://pubmed.ncbi.nlm.nih.gov/" ++ id ++ "/")%string
    | None => ""
    end in
  let paper (journal : string) :=
    {| title := title; authors := authors; abstract := abstract;
       publication_date := pub_date; journal := journal;
       pmid := pmid; doi := doi; url := Some url;
       study_type := _classify_study_type (format_text title)
                                          (format_text abstract);
       sample_size := _extract_sample_size w abstract;
       peer_reviewed := true;
       impact_factor := None;
       conflicts_disclosed := _check_conflicts_disclosed a;
       funding_source := _extract_funding a;
       quality_score := 0.0 |} in
  Some (match journal with
        | Some journal => Paper (paper journal)
        | None => PaperWithoutJournal (paper "")
        end).

(** [_search_pmids]: the texts of the Id elements, [None] among them for
    an Id without text. *)
Definition _search_pmids (w : world) (query : string) (max_results : Z)
  : M (list text_or_none) :=
  try_except
    (response <- send w (esearch query max_results (pubmed_email w)) ;;
     if negb (status_code response =? 200)%Z then ret []
     else
       root <- fromstring response ;;
       ret (ids root))
    (fun _ => ret []).

(** [_fetch_paper_details]: the parameters of the request, and with them
    [",".join(pmids)], are built before the [try].  In the loop over the
    articles, the progress message that slices the title comes after the
    [append] and inside the inner [try], so a title that is [None]
    changes nothing. *)
Definition _fetch_paper_details (w : world) (pmids : list text_or_none)
  : M (list parsed_paper) :=
  if is_empty pmids then ret []
  else
    id <- lift (join_texts "," pmids) ;;
    try_except
      (response <- send w (efetch id (pubmed_email w)) ;;
       if negb (status_code response =? 200)%Z then ret []
       else
         root <- fromstring response ;;
         ret (flat_map (fun a => match _parse_paper_xml w a with
                                 | Some paper => [paper]
                                 | None => []
                                 end) (articles root)))
      (fun _ => ret []).

(** [paper.quality_score = self._assess_paper_quality(paper)] for a
    parsed object: [paper.journal.lower()] raises AttributeError when the
    journal is [None]. *)
Definition assess_and_store (w : world) (p : parsed_paper) : outcome AcademicPaper :=
  match p with
  | Paper paper =>
      Returns (set_quality_score paper
                 (_assess_paper_quality (current_year w) paper))
  | PaperWithoutJournal _ => Raises AttributeError
  end.

(** [sorted(papers, key=lambda p: p.quality_score, reverse=True)]: a stable
    sort, so papers of equal score keep their order. *)
Fixpoint insert_by_quality (x : AcademicPaper) (l : list AcademicPaper)
  : list AcademicPaper :=
  match l with
  | [] => [x]
  | y :: rest =>
      if quality_score x <? quality_score y
      then y :: insert_by_quality x rest
      else x :: l
  end.

Definition sorted_by_quality_desc (papers : list AcademicPaper)
  : list AcademicPaper :=
  fold_right insert_by_quality [] papers.

(** [query.split()[0] if query.split() else query]. *)
Definition simple_query (query : string) : string :=
  match PyStr.split query with
  | first :: _ => first
  | [] => query
  end.

Definition search_papers (w : world) (query : string) (max_results : Z)
  : M (list AcademicPaper) :=
  try_except
    (pmids <- _search_pmids w query max_results ;;
     pmids <- (if is_empty pmids
               then _search_pmids w (simple_query query) max_results
               else ret pmids) ;;
     if is_empty pmids then ret []
     else
       papers <- _fetch_paper_details w pmids ;;
       papers <- lift (for_each (assess_and_store w) papers) ;;
       ret (sorted_by_quality_desc papers))
    (fun _ => ret []).

End PubMedSearcher.

(** ** [class ArXivSearcher] *)

Module ArXivSearcher.

(** The body of the loop of [_parse_arxiv_response] for one entry.
    [title_elem.text.strip()] and [summary_elem.text.strip()] raise
    AttributeError, and [published_elem.text[:10]] raises TypeError, when
    the element is there without a text. *)
Definition entry_paper (e : arxiv_entry) : outcome AcademicPaper :=
  title <~ match e_title e with
           | Some t => strip_text t
           | None => Returns "No title"
           end ;;
  abstract <~ match e_summary e with
              | Some t => strip_text t
              | None => Returns ""
              end ;;
  let authors := flat_map (fun name => match name with
                                       | Some n => [n]
                                       | None => []
                                       end) (e_authors e) in
  pub_date <~ match e_published e with
              | Some t => slice_text 10 t
              | None => Returns ""
              end ;;
  let url := option_default (e_id e) (Some "") in
  Returns {| title := Some title; authors := authors;
             abstract := Some abstract;
             publication_date := Some pub_date;
             journal := "arXiv preprint";
             pmid := None; doi := None;
             url := url;
             study_type := "preprint";
             sample_size := None;
             peer_reviewed := false;
             impact_factor := None;
             conflicts_disclosed := false;
             funding_source := "";
             quality_score := 0.3 |}.

(** [_parse_arxiv_response]: only [ET.ParseError] is caught here, and the
    list built so far (empty, as parsing comes first) is returned; an
    exception of the loop leaves the function. *)
Definition _parse_arxiv_response (r : response) : M (list AcademicPaper) :=
  try_except
    (root <- fromstring r ;;
     lift (for_each entry_paper (entries root)))
    (fun e => match e with
              | ParseError => ret []
              | _ => raise e
              end).

Definition search_papers (w : world) (query : string) (max_results : Z)
  : M (list AcademicPaper) :=
  try_except
    (response <- send w (arxiv_query ("all:" ++ query)%string max_results) ;;
     if negb (status_code response =? 200)%Z then ret []
     else _parse_arxiv_response response)
    (fun _ => ret []).

End ArXivSearcher.

(** ** [agent.py]: the dictionaries of the research state *)

(** The dictionary [academic_search] builds for a paper.  The two keys the
    grader and the confidence formula read with [.get] are optional here:
    for [study_type] and [quality_score], [None] is an absent key.  The
    other values are those of the paper's attributes. *)
Module PaperDict.
Record t : Type := mk {
  title : text_or_none;
  authors : list text_or_none;
  abstract : text_or_none;
  journal : string;
  publication_date : text_or_none;
  url : text_or_none;
  study_type : option string;
  sample_size : option Z;
  quality_score : option float;
  peer_reviewed : bool;
  pmid : option string
}.
End PaperDict.

(** The dictionary [_tavily_search] builds for a web result;
    [credibility_score] is read with [.get], and [None] is an absent key
    there.  [title] and [content] are values of the reply and may be
    [None]; [url] is a text, as the two URL classifiers raise on [None]. *)
Module WebSource.
Record t : Type := mk {
  title : text_or_none;
  url : string;
  content : text_or_none;
  source_type : string;
  credibility_score : option float
}.
End WebSource.

(** The fields of [ResearchState] that the retrieval and scoring steps
    write; the others are free text of the language model. *)
Record ResearchState : Type := mkState {
  academic_papers : list PaperDict.t;
  web_sources : list WebSource.t;
  evidence_grade : string;
  confidence_score : float
}.

(** ** [class AspartameAgent] *)

Module AspartameAgent.

(** [x in xs] for a list of strings, and [xs.count(x)]. *)
Definition list_in (x : string) (xs : list string) : bool :=
  existsb (String.eqb x) xs.

Definition list_count (x : string) (xs : list string) : nat :=
  List.length (filter (String.eqb x) xs).

Definition _assess_evidence_grade (academic_papers : list PaperDict.t) : string :=
  if is_empty academic_papers
  then "Very Low - No academic studies found"
  else
    let study_types :=
      map (fun paper => option_default (PaperDict.study_type paper) "unknown")
          academic_papers in
    if list_in "meta-analysis" study_types then
      let high_quality :=
        filter (fun p => 0.8 <? option_default (PaperDict.quality_score p) 0)
               academic_papers in
      if (2 <=? List.length high_quality)%nat
      then "High - Multiple high-quality meta-analyses"
      else "Moderate - Meta-analysis available but limited quality"
    else if list_in "rct" study_types then
      let rct_count := list_count "rct" study_types in
      if (3 <=? rct_count)%nat
      then "Moderate - Multiple randomized controlled trials"
      else "Low - Limited randomized controlled trials"
    else if existsb (fun t => list_in t study_types) ["cohort"; "case-control"]
    then "Low - Observational studies only"
    else "Very Low - Limited study evidence".

(** [len(set(xs))] for the values [p.get('study_type')]. *)
Definition key_eq_dec (x y : option string) : {x = y} + {x <> y}.
Proof. decide equality; apply string_dec. Defined.

Definition distinct_count (xs : list (option string)) : nat :=
  List.length (nodup key_eq_dec xs).

(** [_calculate_confidence], for a given implementation of the builtin
    [sum].  Both divisors are lengths of non-empty lists. *)
Definition _calculate_confidence_with (py_sum : list float -> float)
    (academic_papers : list PaperDict.t) (web_sources : list WebSource.t)
  : float :=
  if is_empty academic_papers && is_empty web_sources then 0.2
  else
    let academic_confidence :=
      if is_empty academic_papers then 0.0
      else
        let avg_quality :=
          py_sum (map (fun p => option_default (PaperDict.quality_score p) 0)
                      academic_papers)
          / PyFloat.of_nat (List.length academic_papers) in
        let study_diversity :=
          PyFloat.of_nat (distinct_count (map PaperDict.study_type academic_papers))
          / 5 in
        avg_quality * 0.8 + study_diversity * 0.2 in
    let web_confidence :=
      if is_empty web_sources then 0.0
      else
        let avg_credibility :=
          py_sum (map (fun s => option_default (WebSource.credibility_score s) 0.5)
                      web_sources)
          / PyFloat.of_nat (List.length web_sources) in
        avg_credibility * 0.5 in
    let total_confidence := academic_confidence * 0.7 + web_confidence * 0.3 in
    PyFloat.min 0.95 total_confidence.

Definition _calculate_confidence := _calculate_confidence_with PyFloat.sum.

Definition _classify_source (url : string) : string :=
  if PyStr.contains "pubmed" url || PyStr.contains "ncbi" url then "academic"
  else if PyStr.any_in ["mayoclinic"; "nih.gov"; "cdc.gov"] url
  then "medical_authority"
  else if PyStr.any_in ["webmd"; "healthline"] url then "medical_site"
  else "news".

Definition _score_credibility (url : string) : float :=
  if PyStr.contains "pubmed" url || PyStr.contains "ncbi" url then 0.95
  else if PyStr.any_in ["nih.gov"; "cdc.gov"] url then 0.9
  else if PyStr.contains "mayoclinic" url then 0.85
  else if PyStr.any_in ["webmd"; "healthline"] url then 0.7
  else 0.5.

(** The dictionary built for one result.  [r.get("url", "")] is [None]
    for a [null] url, and then ["pubmed" in url] raises TypeError in
    [_classify_source]. *)
Definition processed_result (r : tavily_item) : outcome WebSource.t :=
  match option_default (r_url r) (Some "") with
  | Some url =>
      Returns {| WebSource.title := option_default (r_title r) (Some "");
                 WebSource.url := url;
                 WebSource.content := option_default (r_content r) (Some "");
                 WebSource.source_type := _classify_source url;
                 WebSource.credibility_score := Some (_score_credibility url) |}
  | None => Raises TypeError
  end.

Definition _tavily_search (w : world) (query : string) : M (list WebSource.t) :=
  match tavily_key w with
  | None => ret []
  | Some key =>
      if String.eqb key "" then ret []
      else
        try_except
          (response <- send w (tavily_post key (query ++ " health medical")%string) ;;
           if (status_code response =? 200)%Z then
             reply <- response_json response ;;
             let results := option_default (results reply) [] in
             if is_empty results then ret []
             else lift (for_each processed_result results)
           else ret [])
          (fun _ => ret [])
  end.

Definition paper_dict (paper : AcademicPaper) : PaperDict.t :=
  {| PaperDict.title := title paper;
     PaperDict.authors := authors paper;
     PaperDict.abstract := abstract paper;
     PaperDict.journal := journal paper;
     PaperDict.publication_date := publication_date paper;
     PaperDict.url := url paper;
     PaperDict.study_type := Some (study_type paper);
     PaperDict.sample_size := sample_size paper;
     PaperDict.quality_score := Some (quality_score paper);
     PaperDict.peer_reviewed := peer_reviewed paper;
     PaperDict.pmid := pmid paper |}.

(** [search_queries[0]]. *)
Definition first_item (xs : list string) : M string :=
  match xs with
  | x :: _ => ret x
  | [] => raise IndexError
  end.

(** The first loop of [academic_search]: the primary source is searched
    with each of the first two queries.  [llm_reply] is the text the
    language model returned for the query-generation prompt. *)
Definition primary_retrieval (w : world) (llm_reply : string)
  : M (list AcademicPaper) :=
  let search_queries := PyStr.split_on "|" llm_reply in
  extend_each
    (fun query =>
       let clean_query := PyStr.strip_quotes (PyStr.strip query) in
       PubMedSearcher.search_papers w clean_query 3)
    (firstn 2 search_queries).

(** The retrieval of [academic_search], before the conversion to
    dictionaries: the loop above, then the secondary source when fewer
    than three papers were collected. *)
Definition collect_academic_papers (w : world) (llm_reply : string)
  : M (list AcademicPaper) :=
  let search_queries := PyStr.split_on "|" llm_reply in
  academic_papers <- primary_retrieval w llm_reply ;;
  if (List.length academic_papers <? 3)%nat then
    query0 <- first_item search_queries ;;
    arxiv_papers <- ArXivSearcher.search_papers w (PyStr.strip query0) 2 ;;
    ret (academic_papers ++ arxiv_papers)
  else ret academic_papers.

Definition academic_search (w : world) (llm_reply : string)
  : M (list PaperDict.t) :=
  academic_papers <- collect_academic_papers w llm_reply ;;
  ret (map paper_dict academic_papers).

Definition web_search (w : world) (llm_reply : string) : M (list WebSource.t) :=
  let search_queries := PyStr.split_on "|" llm_reply in
  extend_each
    (fun query =>
       let clean_query := PyStr.strip_quotes (PyStr.strip query) in
       _tavily_search w clean_query)
    (firstn 2 search_queries).

(** [content_analysis]: the prompt quotes the first three papers and the
    first three web sources, with [paper['abstract'][:300]] and
    [src['content'][:300]]; slicing [None] raises TypeError, and nothing
    catches it.  The grade is computed after the prompt is built. *)
Definition content_analysis (papers : list PaperDict.t) (sources : list WebSource.t)
  : M string :=
  _ <- lift (for_each (fun paper => slice_text 300 (PaperDict.abstract paper))
                      (firstn 3 papers)) ;;
  _ <- lift (for_each (fun src => slice_text 300 (WebSource.content src))
                      (firstn 3 sources)) ;;
  ret (_assess_evidence_grade papers).

(** [research]: the graph runs [academic_search], [web_search],
    [content_analysis] (which grades) and [medical_summary] (which computes
    the confidence) in this order.  The calls to the language model are
    outside the model; the two replies that carry search queries are
    inputs. *)
Definition research (w : world) (academic_reply web_reply : string)
  : M ResearchState :=
  papers <- academic_search w academic_reply ;;
  sources <- web_search w web_reply ;;
  grade <- content_analysis papers sources ;;
  ret {| academic_papers := papers;
         web_sources := sources;
         evidence_grade := grade;
         confidence_score := _calculate_confidence papers sources |}.

End AspartameAgent.

(** ** [app.py]: the banner of the evidence grade *)

Module App.

(** The double-quote character, as a string. *)
Definition dq : string := String (ascii_of_nat 34) EmptyString.

(** The three f-strings of [format_evidence_grade] are one text with
    three colours: the background, the border and the text colour. *)
Definition evidence_banner (background border color grade : string) : string :=
  ("<div style=" ++ dq ++ "background: " ++ background
   ++ "; border: 1px solid " ++ border
   ++ "; border-radius: 6px; padding: 0.75rem; margin: 0.5rem 0;" ++ dq
   ++ "><strong style=" ++ dq ++ "color: " ++ color ++ ";" ++ dq
   ++ ">Evidence Quality:</strong> <span style=" ++ dq ++ "color: " ++ color
   ++ ";" ++ dq ++ ">" ++ grade ++ "</span></div>")%string.

Definition format_evidence_grade (grade : string) : string :=
  if PyStr.contains "High" grade
  then evidence_banner "#d4edda" "#c3e6cb" "#155724" grade
  else if PyStr.contains "Moderate" grade
  then evidence_banner "#fff3cd" "#ffeaa7" "#856404" grade
  else evidence_banner "#f8d7da" "#f5c6cb" "#721c24" grade.

End App.

(** * Vocabulary of the statements *)

(** [x] compares with itself: it is not a NaN. *)
Definition comparable (x : float) : Prop := (x <=? x) = true.

(** ** The scorer as a table

    The score depends on the record through five finite choices: the
    weight of the study type, the sample-size band and three flags. *)

Definition band (sample_size : option Z) : nat :=
  match sample_size with
  | None => 0
  | Some n =>
      if (n =? 0)%Z then 0
      else if (1000 <=? n)%Z then 3
      else if (100 <=? n)%Z then 2
      else if (50 <=? n)%Z then 1
      else 0
  end%nat.

Definition add_band (b : nat) (score : float) : float :=
  match b with
  | O => score
  | 1%nat => score + 0.1
  | 2%nat => score + 0.2
  | _ => score + 0.3
  end.

Definition score_table (weight : float) (b : nat) (high_impact recent disclosed : bool)
  : float :=
  let score := 0.0 + weight * 0.4 in
  let score := add_band b score in
  let score := if high_impact then score + 0.2 else score in
  let score := if recent then score + 0.1 else score in
  if disclosed then score + 0.05 else score.

Definition type_weights : list float := [1.0; 0.9; 0.7; 0.6; 0.4; 0.3; 0.5].

(** Two records that agree on every attribute but [sample_size]. *)
Definition same_except_sample_size (p1 p2 : AcademicPaper) : Prop :=
  title p1 = title p2 /\ authors p1 = authors p2
  /\ abstract p1 = abstract p2
  /\ publication_date p1 = publication_date p2
  /\ journal p1 = journal p2 /\ pmid p1 = pmid p2 /\ doi p1 = doi p2
  /\ url p1 = url p2 /\ study_type p1 = study_type p2
  /\ peer_reviewed p1 = peer_reviewed p2
  /\ impact_factor p1 = impact_factor p2
  /\ conflicts_disclosed p1 = conflicts_disclosed p2
  /\ funding_source p1 = funding_source p2
  /\ quality_score p1 = quality_score p2.

(** A record with no bonus but the one of its sample size. *)
Definition plain_paper (study_type : string) (sample_size : option Z) : AcademicPaper :=
  {| title := Some "No title"; authors := []; abstract := Some "";
     publication_date := Some ""; journal := "Unknown Journal";
     pmid := None; doi := None; url := Some "";
     study_type := study_type; sample_size := sample_size;
     peer_reviewed := true; impact_factor := None;
     conflicts_disclosed := false; funding_source := "";
     quality_score := 0.0 |}.

(** The object the secondary source builds from a title, an abstract,
    the authors' names, a date and a link. *)
Definition preprint_paper (title abstract : string) (authors : list text_or_none)
    (pub_date : string) (url : text_or_none) : AcademicPaper :=
  {| title := Some title; authors := authors; abstract := Some abstract;
     publication_date := Some pub_date; journal := "arXiv preprint";
     pmid := None; doi := None; url := url;
     study_type := "preprint"; sample_size := None;
     peer_reviewed := false; impact_factor := None;
     conflicts_disclosed := false; funding_source := "";
     quality_score := 0.3 |}.

(** ** The grading cascade in the words of the specification *)

Inductive rule : Type := R1 | R2 | R3 | R4 | R5 | R6 | R7.

Definition rule_index (r : rule) : nat :=
  match r with
  | R1 => 1 | R2 => 2 | R3 => 3 | R4 => 4 | R5 => 5 | R6 => 6 | R7 => 7
  end%nat.

Definition type_of (p : PaperDict.t) : string :=
  option_default (PaperDict.study_type p) "unknown".

Definition has_type (t : string) (papers : list PaperDict.t) : bool :=
  existsb (fun p => String.eqb t (type_of p)) papers.

Definition count_type (t : string) (papers : list PaperDict.t) : nat :=
  List.length (filter (fun p => String.eqb t (type_of p)) papers).

Definition count_above_0_8 (papers : list PaperDict.t) : nat :=
  List.length
    (filter (fun p => 0.8 <? option_default (PaperDict.quality_score p) 0) papers).

(** The condition each rule names, without the clause that the rules
    above it did not match. *)
Definition rule_condition (r : rule) (papers : list PaperDict.t) : bool :=
  match r with
  | R1 => is_empty papers
  | R2 => has_type "meta-analysis" papers && (2 <=? count_above_0_8 papers)%nat
  | R3 => has_type "meta-analysis" papers
  | R4 => has_type "rct" papers && (3 <=? count_type "rct" papers)%nat
  | R5 => has_type "rct" papers
  | R6 => has_type "cohort" papers || has_type "case-control" papers
  | R7 => true
  end.

Definition rule_grade (r : rule) : string :=
  match r with
  | R1 => "Very Low - No academic studies found"
  | R2 => "High - Multiple high-quality meta-analyses"
  | R3 => "Moderate - Meta-analysis available but limited quality"
  | R4 => "Moderate - Multiple randomized controlled trials"
  | R5 => "Low - Limited randomized controlled trials"
  | R6 => "Low - Observational studies only"
  | R7 => "Very Low - Limited study evidence"
  end.

(** A rule fires when its condition holds and no rule above it matches. *)
Definition fires (r : rule) (papers : list PaperDict.t) : Prop :=
  rule_condition r papers = true
  /\ forall r', (rule_index r' < rule_index r)%nat ->
                rule_condition r' papers = false.

(** A web result of a given credibility. *)
Definition web_source (url : string) (credibility : float) : WebSource.t :=
  {| WebSource.title := Some ""; WebSource.url := url;
     WebSource.content := Some "";
     WebSource.source_type := "news";
     WebSource.credibility_score := Some credibility |}.

(** ** The classifier in the words of the specification: an ordered list
    of rules, the first matching one wins. *)

Definition classifier_rules : list (list string * string) :=
  [ (["meta-analysis"; "meta analysis"; "systematic review"], "meta-analysis");
    (["randomized controlled trial"; "rct"; "randomized"], "rct");
    (["cohort study"; "longitudinal"; "prospective"], "cohort");
    (["case-control"; "case control"], "case-control");
    (["cross-sectional"; "survey"], "cross-sectional");
    (["review"; "narrative review"], "review") ].

Fixpoint first_match (rules : list (list string * string)) (text default : string)
  : string :=
  match rules with
  | [] => default
  | (terms, label) :: rest =>
      if PyStr.any_in terms text then label else first_match rest text default
  end.

Definition study_labels : list string :=
  [ "meta-analysis"; "rct"; "cohort"; "case-control"; "cross-sectional";
    "review"; "observational" ].

(** ** Requests, failures, and what a computation guarantees *)

Definition is_pubmed_request (rq : request) : bool :=
  match rq with
  | esearch _ _ _ | efetch _ _ => true
  | _ => false
  end.

Definition is_arxiv_request (rq : request) : bool :=
  match rq with
  | arxiv_query _ _ => true
  | _ => false
  end.

Definition is_tavily_request (rq : request) : bool :=
  match rq with
  | tavily_post _ _ => true
  | _ => false
  end.

Definition any_request (rq : request) : bool := true.

(** A failed call of an XML source: the request raised (time-out,
    connection error), the status is not 200, or the body does not parse. *)
Definition xml_failure (reply : option response) : Prop :=
  match reply with
  | None => True
  | Some r => status_code r <> 200%Z \/ xml r = None
  end.

(** The same for the web search, whose body is JSON. *)
Definition json_failure (reply : option response) : Prop :=
  match reply with
  | None => True
  | Some r => status_code r <> 200%Z \/ json r = None
  end.

(** [m] returns (it does not raise) from every log, issues only requests
    that satisfy [P], and its result satisfies [Q]. *)
Definition ensures {A : Type} (P : request -> bool) (Q : A -> Prop) (m : M A) : Prop :=
  forall log, exists a reqs,
    m log = (Returns a, log ++ reqs) /\ forallb P reqs = true /\ Q a.

(** [m] may raise; it issues only requests that satisfy [P], and when it
    returns its result satisfies [Q]. *)
Definition attempts {A : Type} (P : request -> bool) (Q : A -> Prop) (m : M A) : Prop :=
  forall log, exists o reqs,
    m log = (o, log ++ reqs) /\ forallb P reqs = true
    /\ forall a, o = Returns a -> Q a.

(** A list of papers in descending order of quality score: no paper has
    a paper of strictly higher score after it. *)
Definition descending (papers : list AcademicPaper) : Prop :=
  forall i j p q,
    (i < j)%nat -> nth_error papers i = Some p -> nth_error papers j = Some q ->
    (quality_score q <=? quality_score p) = true.

(** [p] scores at least as high as [q]. *)
Definition ge_quality (p q : AcademicPaper) : Prop :=
  (quality_score q <=? quality_score p) = true.

(** A record as the secondary source produces it. *)
Definition is_preprint_record (p : AcademicPaper) : Prop :=
  peer_reviewed p = false /\ quality_score p = 0.3 /\ study_type p = "preprint"
  /\ journal p = "arXiv preprint" /\ sample_size p = None
  /\ conflicts_disclosed p = false.

(** A world in which every call fails: whatever the request, it raises,
    answers with a status other than 200, or sends a body that does not
    parse. *)
Definition unavailable (w : world) : Prop :=
  forall log rq,
    xml_failure (server w log rq) /\ json_failure (server w log rq).

(** The state of a query for which nothing was found. *)
Definition nothing_found : ResearchState :=
  {| academic_papers := []; web_sources := [];
     evidence_grade := "Very Low - No academic studies found";
     confidence_score := 0.2 |}.

(** The queries [academic_search] sends to the primary source: the first
    two items of the reply, stripped of white space and then of quotes. *)
Definition clean_query (query : string) : string :=
  PyStr.strip_quotes (PyStr.strip query).

Definition clean_queries (llm_reply : string) : list string :=
  map clean_query (firstn 2 (PyStr.split_on "|" llm_reply)).

(** The calls [PubMedSearcher.search_papers w query 3] for the queries of
    a list, one after the other from the log [log]: the results of the
    calls, in call order, and the log after the last one. *)
Inductive primary_calls (w : world)
  : list string -> list request -> list (list AcademicPaper) -> list request -> Prop :=
  | no_call (log : list request) : primary_calls w [] log [] log
  | one_more_call (query : string) (queries : list string)
      (log log' log'' : list request)
      (run : list AcademicPaper) (runs : list (list AcademicPaper)) :
      PubMedSearcher.search_papers w query 3 log = (Returns run, log') ->
      primary_calls w queries log' runs log'' ->
      primary_calls w (query :: queries) log (run :: runs) log''.

(** The value is a text, not [None]. *)
Definition has_text (t : text_or_none) : bool :=
  match t with
  | Some _ => true
  | None => false
  end.

(** What [content_analysis] slices has a text: the abstracts of the
    first three papers and the contents of the first three web sources. *)
Definition quotable (papers : list PaperDict.t) (sources : list WebSource.t) : bool :=
  forallb (fun paper => has_text (PaperDict.abstract paper)) (firstn 3 papers)
  && forallb (fun src => has_text (WebSource.content src)) (firstn 3 sources).

(** The request a fetch of the identifiers [pmids] issues: none for an
    empty list or a list with a [None]. *)
Definition fetch_requests (w : world) (pmids : list text_or_none) : list request :=
  if is_empty pmids then []
  else match join_texts "," pmids with
       | Returns id => [efetch id (pubmed_email w)]
       | Raises _ => []
       end.

(** ** Concrete worlds *)

(** One [PubmedArticle] with a title, an empty abstract and nothing else. *)
Definition article_titled (id title : string) : article :=
  {| a_pmid := Some (Some id); a_title := Some (Some title);
     a_abstract := Some (Some "");
     a_authors := []; a_journal := None; a_year := None; a_month := None;
     a_article_ids := []; a_grants := []; a_abstract_labels := [] |}.

Definition xml_response (root : xml_root) : response :=
  {| status_code := 200; xml := Some root; json := None |}.

(** A primary source that knows one paper on "aspartame safety" and two
    on "aspartame cancer"; the other services raise. *)
Definition two_query_server (log : list request) (rq : request) : option response :=
  match rq with
  | esearch term _ _ =>
      if String.eqb term "aspartame safety"
      then Some (xml_response (mkRoot [Some "101"] [] []))
      else if String.eqb term "aspartame cancer"
      then Some (xml_response (mkRoot [Some "201"; Some "202"] [] []))
      else Some (xml_response (mkRoot [] [] []))
  | efetch id _ =>
      if String.eqb id "101"
      then Some (xml_response
                   (mkRoot [] [article_titled "101" "Aspartame intake in adults"] []))
      else if String.eqb id "201,202"
      then Some (xml_response
                   (mkRoot []
                      [article_titled "201" "A randomized trial of aspartame";
                       article_titled "202" "Aspartame and cancer: a meta-analysis"]
                      []))
      else None
  | _ => None
  end.

Definition two_query_world : world :=
  {| server := two_query_server; current_year := 2025;
     pubmed_email := "research@example.com"; tavily_key := None;
     re_sample_size := fun _ => None |}.

(** A primary source whose identifier search answers with one Id element
    without text; the other services raise. *)
Definition id_without_text_world : world :=
  {| server := fun _ rq =>
                 match rq with
                 | esearch _ _ _ => Some (xml_response (mkRoot [None] [] []))
                 | _ => None
                 end;
     current_year := 2025;
     pubmed_email := "research@example.com"; tavily_key := None;
     re_sample_size := fun _ => None |}.

(** A primary source that knows one paper, whose AbstractText element
    has no text of its own (it starts with a child element); the other
    services raise. *)
Definition abstract_without_text_world : world :=
  {| server := fun _ rq =>
                 match rq with
                 | esearch _ _ _ => Some (xml_response (mkRoot [Some "101"] [] []))
                 | efetch _ _ =>
                     Some (xml_response
                             (mkRoot []
                                [ {| a_pmid := Some (Some "101");
                                     a_title := Some (Some "Aspartame intake in adults");
                                     a_abstract := Some None;
                                     a_authors := []; a_journal := None;
                                     a_year := None; a_month := None;
                                     a_article_ids := []; a_grants := [];
                                     a_abstract_labels := [] |} ]
                                []))
                 | _ => None
                 end;
     current_year := 2025;
     pubmed_email := "research@example.com"; tavily_key := None;
     re_sample_size := fun _ => None |}.

(** A world without network: every request raises. *)
Definition offline_world : world :=
  {| server := fun _ _ => None; current_year := 2025;
     pubmed_email := "research@example.com"; tavily_key := Some "key";
     re_sample_size := fun _ => None |}.

(** ** Vocabulary of the further properties *)

(** The classifier's rules without the keywords that another keyword of
    the same rule already covers. *)
Definition classifier_rules_minimal : list (list string * string) :=
  [ (["meta-analysis"; "meta analysis"; "systematic review"], "meta-analysis");
    (["rct"; "randomized"], "rct");
    (["cohort study"; "longitudinal"; "prospective"], "cohort");
    (["case-control"; "case control"], "case-control");
    (["cross-sectional"; "survey"], "cross-sectional");
    (["review"], "review") ].

(** [paper] with another sample size. *)
Definition with_sample_size (paper : AcademicPaper) (n : option Z) : AcademicPaper :=
  {| title := title paper; authors := authors paper;
     abstract := abstract paper;
     publication_date := publication_date paper;
     journal := journal paper; pmid := pmid paper; doi := doi paper;
     url := url paper; study_type := study_type paper;
     sample_size := n;
     peer_reviewed := peer_reviewed paper;
     impact_factor := impact_factor paper;
     conflicts_disclosed := conflicts_disclosed paper;
     funding_source := funding_source paper;
     quality_score := quality_score paper |}.

(** The objects [_fetch_paper_details] builds from the articles of a
    document, and the scoring step of [search_papers] over them. *)
Definition parsed_articles (w : world) (arts : list article) : list parsed_paper :=
  flat_map (fun a => match PubMedSearcher._parse_paper_xml w a with
                     | Some paper => [paper]
                     | None => []
                     end) arts.

Definition scored_articles (w : world) (arts : list article)
  : outcome (list AcademicPaper) :=
  for_each (PubMedSearcher.assess_and_store w) (parsed_articles w arts).

(** The Journal/Title element of an article is missing or has a text. *)
Definition journal_has_text (a : article) : Prop := a_journal a <> Some None.

(** [m] returns from every log, with at most [k] requests, all of which
    satisfy [P], and a result that satisfies [Q]. *)
Definition within {A : Type} (k : nat) (P : request -> bool) (Q : A -> Prop)
    (m : M A) : Prop :=
  forall log, exists a reqs,
    m log = (Returns a, log ++ reqs)
    /\ (List.length reqs <= k)%nat /\ forallb P reqs = true /\ Q a.

Definition is_academic_request (rq : request) : bool :=
  is_pubmed_request rq || is_arxiv_request rq.

(** The pairs of source type and credibility the two URL classifiers
    give together. *)
Definition source_levels : list (string * float) :=
  [ ("academic", 0.95); ("medical_authority", 0.9);
    ("medical_authority", 0.85); ("medical_site", 0.7); ("news", 0.5) ].

(** A web result as the pipeline builds it. *)
Definition web_source_ok (s : WebSource.t) : Prop :=
  exists c,
    WebSource.credibility_score s = Some c
    /\ In (WebSource.source_type s, c) source_levels
    /\ (0.5 <=? c) = true /\ (c <=? 0.95) = true.

(** A record of the primary source after scoring, for the current year
    [cy]. *)
Definition primary_record (cy : Z) (p : AcademicPaper) : Prop :=
  peer_reviewed p = true
  /\ In (study_type p) study_labels
  /\ quality_score p = PubMedSearcher._assess_paper_quality cy p.

(** A dictionary of the combined list: a scored record of the primary
    source, or a record of the secondary source with its fixed score. *)
Definition record_ok (d : PaperDict.t) : Prop :=
  exists t q,
    PaperDict.study_type d = Some t
    /\ PaperDict.quality_score d = Some q
    /\ (0.12 <=? q) = true /\ (q <=? 1.0) = true
    /\ ((In t study_labels /\ PaperDict.peer_reviewed d = true)
        \/ (t = "preprint" /\ PaperDict.peer_reviewed d = false /\ q = 0.3)).

(** The colours of the banner for the rule that fired: green for "High",
    yellow for the two "Moderate" grades, red for the others. *)
Definition banner_of_rule (r : rule) (grade : string) : string :=
  match r with
  | R2 => App.evidence_banner "#d4edda" "#c3e6cb" "#155724" grade
  | R3 | R4 => App.evidence_banner "#fff3cd" "#ffeaa7" "#856404" grade
  | R1 | R5 | R6 | R7 => App.evidence_banner "#f8d7da" "#f5c6cb" "#721c24" grade
  end.

(** * Properties *)

(** ** Examples: the helpers on Python strings, and the scenarios of the
    specification *)

Section Examples.

Import PubMedSearcher AspartameAgent.

Example int_of_year : PyStr.int "2023" = Some 2023%Z.
Proof. reflexivity. Qed.

Example int_strips_space : PyStr.int " 202" = Some 202%Z.
Proof. reflexivity. Qed.

Example int_rejects_date_tail : PyStr.int "1-15" = None.
Proof. reflexivity. Qed.

Example int_single_underscore : PyStr.int "2_23" = Some 223%Z.
Proof. reflexivity. Qed.

Example int_double_underscore : PyStr.int "2__3" = None.
Proof. reflexivity. Qed.

Example last4_of_date : PyStr.last4 "June 2023" = "2023".
Proof. reflexivity. Qed.

Example split_on_bar : PyStr.split_on "|" "a b|c" = ["a b"; "c"].
Proof. reflexivity. Qed.

Example split_on_bar_trailing : PyStr.split_on "|" "a|" = ["a"; ""].
Proof. reflexivity. Qed.

Example split_words : PyStr.split "  a b  cd " = ["a"; "b"; "cd"].
Proof. reflexivity. Qed.

Example strip_then_quotes :
  PyStr.strip_quotes
    (PyStr.strip (String " " (String (ascii_of_nat 34)
                                ("a b" ++ String (ascii_of_nat 34) " ")%string)))
  = "a b".
Proof. reflexivity. Qed.

Example contains_is_case_sensitive :
  PyStr.contains "rct" "an RCT of" = false
  /\ PyStr.contains "rct" (PyStr.lower "an RCT of") = true.
Proof. split; reflexivity. Qed.

(** A meta-analysis of 1200 subjects in The Lancet, 2023, with conflicts
    disclosed: the sum passes the cap and the score is 1.0. *)
Example score_at_cap :
  _assess_paper_quality 2025
    {| title := Some "t"; authors := []; abstract := Some "a";
       publication_date := Some "2023"; journal := "The Lancet";
       pmid := None; doi := None; url := Some "";
       study_type := "meta-analysis"; sample_size := Some 1200%Z;
       peer_reviewed := true; impact_factor := None;
       conflicts_disclosed := true; funding_source := "";
       quality_score := 0.0 |}
  = 1.0.
Proof. vm_compute. reflexivity. Qed.

(** A record with only defaults scores the default weight: 0.3 * 0.4. *)
Example score_of_defaults :
  _assess_paper_quality 2025 (plain_paper "unknown" None) = 0.12.
Proof. vm_compute. reflexivity. Qed.

(** Three randomized trials and no meta-analysis. *)
Example grade_three_rcts :
  let rct := paper_dict (plain_paper "rct" None) in
  _assess_evidence_grade [rct; rct; rct]
  = "Moderate - Multiple randomized controlled trials".
Proof. reflexivity. Qed.

(** The two sums agree on the lists the statements below compute with. *)
Example sums_agree :
  PyFloat.sum [0.9; 0.7] = PyFloat.sum_compensated [0.9; 0.7]
  /\ PyFloat.sum [0.7; 0.9] = PyFloat.sum_compensated [0.7; 0.9]
  /\ PyFloat.sum [0.3] = PyFloat.sum_compensated [0.3].
Proof. repeat split; vm_compute; reflexivity. Qed.

End Examples.

(** ** Order facts on binary64 numbers

    The comparison of two primitive floats is the comparison of their
    specifications ([ltb_spec], [leb_spec]); the facts below are proved on
    the specification. *)

Section FloatOrder.

Lemma SFltb_SFleb (x y : spec_float) :
  SFltb x y = true -> SFleb x y = true.
Proof.
  unfold SFltb, SFleb.
  destruct (SFcompare x y) as [[ | | ] | ]; congruence.
Qed.

Lemma SFcompare_antisym (x y : spec_float) :
  SFcompare y x = option_map CompOpp (SFcompare x y).
Proof.
  destruct x as [sx | sx | | sx mx ex], y as [sy | sy | | sy my ey];
    simpl; try reflexivity;
    repeat match goal with s : bool |- _ => destruct s end;
    simpl; try reflexivity.
  all: rewrite (Z.compare_antisym ex ey);
    change (Pos.compare_cont Eq my mx) with (Pos.compare my mx);
    change (Pos.compare_cont Eq mx my) with (Pos.compare mx my);
    rewrite (Pos.compare_antisym mx my);
    destruct (ex ?= ey)%Z; simpl; try reflexivity;
    destruct (mx ?= my)%positive; reflexivity.
Qed.

(** Two numbers that compare at all compare both ways round. *)
Lemma SFleb_total (x y : spec_float) :
  SFcompare x y <> None -> SFltb x y = false -> SFleb y x = true.
Proof.
  unfold SFltb, SFleb. rewrite (SFcompare_antisym x y).
  destruct (SFcompare x y) as [[ | | ] | ]; simpl; congruence.
Qed.

Lemma SFleb_trans (x y z : spec_float) :
  SFleb x y = true -> SFleb y z = true -> SFleb x z = true.
Proof.
  unfold SFleb.
  destruct x as [sx | sx | | sx mx ex], y as [sy | sy | | sy my ey],
           z as [sz | sz | | sz mz ez];
    simpl; try discriminate; try reflexivity;
    repeat match goal with s : bool |- _ => destruct s end;
    simpl; try discriminate; try reflexivity;
    change (Pos.compare_cont Eq mx my) with (Pos.compare mx my);
    change (Pos.compare_cont Eq my mz) with (Pos.compare my mz);
    change (Pos.compare_cont Eq mx mz) with (Pos.compare mx mz);
    destruct (Z.compare_spec ex ey), (Z.compare_spec ey ez),
             (Z.compare_spec ex ez);
    try lia; try discriminate; try reflexivity;
    destruct (Pos.compare_spec mx my), (Pos.compare_spec my mz),
             (Pos.compare_spec mx mz);
    simpl; try lia; try discriminate; try reflexivity.
Qed.

Lemma ltb_leb (x y : float) : (x <? y) = true -> (x <=? y) = true.
Proof.
  rewrite ltb_spec, leb_spec. apply SFltb_SFleb.
Qed.

Lemma leb_trans (x y z : float) :
  (x <=? y) = true -> (y <=? z) = true -> (x <=? z) = true.
Proof.
  rewrite !leb_spec. apply SFleb_trans.
Qed.

Lemma comparable_SFcompare (x y : float) :
  comparable x -> comparable y ->
  SFcompare (Prim2SF x) (Prim2SF y) <> None.
Proof.
  unfold comparable. rewrite !leb_spec. unfold SFleb.
  destruct (Prim2SF x), (Prim2SF y); simpl; congruence.
Qed.

Lemma not_ltb_leb (x y : float) :
  comparable x -> comparable y -> (x <? y) = false -> (y <=? x) = true.
Proof.
  intros Hx Hy. rewrite ltb_spec, leb_spec.
  apply SFleb_total. now apply comparable_SFcompare.
Qed.

Lemma SFleb_refl (y : spec_float) : y <> S754_nan -> SFleb y y = true.
Proof.
  unfold SFleb. destruct y as [ [ | ] | [ | ] | | [ | ] my ey ];
    simpl; try congruence;
    rewrite Z.compare_refl;
    change (Pos.compare_cont Eq my my) with (Pos.compare my my);
    rewrite Pos.compare_refl; reflexivity.
Qed.

Lemma leb_comparable_r (x y : float) : (x <=? y) = true -> comparable y.
Proof.
  unfold comparable. rewrite !leb_spec. intros H.
  apply SFleb_refl. intros Hy. rewrite Hy in H.
  unfold SFleb in H. destruct (Prim2SF x); discriminate.
Qed.

End FloatOrder.

(** ** The quality scorer *)

Section QualityScorer.

Import PubMedSearcher.

Lemma add_sample_size_band (ss : option Z) (score : float) :
  add_sample_size ss score = add_band (band ss) score.
Proof.
  unfold add_sample_size, band. destruct ss as [n | ]; [ | reflexivity ].
  destruct (n =? 0)%Z; [ reflexivity | ].
  destruct (1000 <=? n)%Z; [ reflexivity | ].
  destruct (100 <=? n)%Z; [ reflexivity | ].
  destruct (50 <=? n)%Z; reflexivity.
Qed.

Lemma band_le_3 (ss : option Z) : (band ss <= 3)%nat.
Proof.
  unfold band. destruct ss as [n | ]; [ | lia ].
  destruct (n =? 0)%Z; [ lia | ].
  destruct (1000 <=? n)%Z; [ lia | ].
  destruct (100 <=? n)%Z; [ lia | ].
  destruct (50 <=? n)%Z; lia.
Qed.

Lemma band_monotone (n1 n2 : Z) :
  (n1 <= n2)%Z -> (band (Some n1) <= band (Some n2))%nat.
Proof.
  intros Hle. unfold band.
  destruct (Z.eqb_spec n1 0), (Z.eqb_spec n2 0);
    destruct (Z.leb_spec 1000 n1), (Z.leb_spec 1000 n2);
    destruct (Z.leb_spec 100 n1), (Z.leb_spec 100 n2);
    destruct (Z.leb_spec 50 n1), (Z.leb_spec 50 n2); lia.
Qed.

Lemma type_weight_cases (st : string) :
  In (dict_get type_scores st 0.3) type_weights.
Proof.
  unfold type_scores, type_weights. cbn [dict_get].
  repeat match goal with
         | |- context [String.eqb ?a st] => destruct (String.eqb a st)
         end; simpl; auto 10.
Qed.

Lemma score_before_clamp_table (cy : Z) (p : AcademicPaper) :
  score_before_clamp cy p
  = score_table (dict_get type_scores (study_type p) 0.3)
                (band (sample_size p))
                (journal_is_high_impact (journal p))
                (is_recent cy (publication_date p))
                (conflicts_disclosed p).
Proof.
  unfold score_before_clamp, score_table.
  now rewrite add_sample_size_band.
Qed.

Lemma score_table_range (w : float) (b : nat) (j r c : bool) :
  In w type_weights -> (b <= 3)%nat ->
  (0.0 <=? PyFloat.min 1.0 (score_table w b j r c)) = true
  /\ (PyFloat.min 1.0 (score_table w b j r c) <=? 1.0) = true.
Proof.
  intros Hw Hb.
  assert (Hb' : b = 0%nat \/ b = 1%nat \/ b = 2%nat \/ b = 3%nat) by lia.
  unfold type_weights in Hw. simpl in Hw.
  destruct Hw as [<- | [<- | [<- | [<- | [<- | [<- | [<- | []]]]]]]];
    destruct Hb' as [-> | [-> | [-> | ->]]];
    destruct j, r, c; vm_compute; split; reflexivity.
Qed.

Lemma assess_paper_quality_range (cy : Z) (paper : AcademicPaper) :
  (0.0 <=? _assess_paper_quality cy paper) = true
  /\ (_assess_paper_quality cy paper <=? 1.0) = true.
Proof.
  unfold _assess_paper_quality. rewrite score_before_clamp_table.
  apply score_table_range; [ apply type_weight_cases | apply band_le_3 ].
Qed.

(** C5.  For every record (any study type, optional sample size,
    journal, publication date and disclosure flag) and whatever the
    current year, the quality score lies between 0.0 and 1.0. *)
Theorem quality_score_in_unit_interval (current_year : Z) (paper : AcademicPaper) :
  (0.0 <=? _assess_paper_quality current_year paper) = true
  /\ (_assess_paper_quality current_year paper <=? 1.0) = true.
Proof. apply assess_paper_quality_range. Qed.

Lemma score_table_monotone (w : float) (b1 b2 : nat) (j r c : bool) :
  In w type_weights -> (b1 <= b2)%nat -> (b2 <= 3)%nat ->
  (PyFloat.min 1.0 (score_table w b1 j r c)
   <=? PyFloat.min 1.0 (score_table w b2 j r c)) = true.
Proof.
  intros Hw H12 Hb.
  assert (Hb1 : b1 = 0%nat \/ b1 = 1%nat \/ b1 = 2%nat \/ b1 = 3%nat) by lia.
  assert (Hb2 : b2 = 0%nat \/ b2 = 1%nat \/ b2 = 2%nat \/ b2 = 3%nat) by lia.
  unfold type_weights in Hw. simpl in Hw.
  destruct Hb1 as [-> | [-> | [-> | ->]]];
    destruct Hb2 as [-> | [-> | [-> | ->]]]; try lia;
    destruct Hw as [<- | [<- | [<- | [<- | [<- | [<- | [<- | []]]]]]]];
    destruct j, r, c; vm_compute; reflexivity.
Qed.

Lemma score_table_step (w : float) (j r c : bool) :
  In w type_weights ->
  (score_table w 3 j r c <=? 1.0) = true ->
  (abs ((PyFloat.min 1.0 (score_table w 3 j r c)
         - PyFloat.min 1.0 (score_table w 2 j r c)) - 0.1)
   <=? 0x1p-52) = true.
Proof.
  intros Hw. unfold type_weights in Hw. simpl in Hw.
  destruct Hw as [<- | [<- | [<- | [<- | [<- | [<- | [<- | []]]]]]]];
    destruct j, r, c; vm_compute; intros H;
    first [ reflexivity | discriminate H ].
Qed.

(** In no case is the computed increase from band 2 to band 3 the
    number [0.1] itself. *)
Lemma score_table_step_never_exact (w : float) (j r c : bool) :
  In w type_weights ->
  (PyFloat.min 1.0 (score_table w 3 j r c)
   - PyFloat.min 1.0 (score_table w 2 j r c) =? 0.1) = false.
Proof.
  intros Hw. unfold type_weights in Hw. simpl in Hw.
  destruct Hw as [<- | [<- | [<- | [<- | [<- | [<- | [<- | []]]]]]]];
    destruct j, r, c; vm_compute; reflexivity.
Qed.

Lemma same_except_sample_size_table (cy : Z) (p1 p2 : AcademicPaper) :
  same_except_sample_size p1 p2 ->
  forall b,
    score_table (dict_get type_scores (study_type p1) 0.3) b
                (journal_is_high_impact (journal p1))
                (is_recent cy (publication_date p1)) (conflicts_disclosed p1)
    = score_table (dict_get type_scores (study_type p2) 0.3) b
                  (journal_is_high_impact (journal p2))
                  (is_recent cy (publication_date p2)) (conflicts_disclosed p2).
Proof.
  unfold same_except_sample_size.
  intros (_ & _ & _ & Hd & Hj & _ & _ & _ & Hs & _ & _ & Hc & _) b.
  now rewrite Hd, Hj, Hs, Hc.
Qed.

(** C6 (as amended).  For two records that agree on every attribute but
    [sample_size], a smaller or equal sample size gives a smaller or
    equal score.  From 999 to 1000 the bonus moves from the [+0.2] to
    the [+0.3] band, and when the sum with the higher bonus does not
    exceed the clamp the score rises by 0.1 up to binary64 rounding:
    the computed difference is within [2^-52] of [0.1]. *)
Theorem sample_size_monotone_and_step
    (current_year : Z) (p1 p2 : AcademicPaper) (n1 n2 : Z) :
  same_except_sample_size p1 p2 ->
  sample_size p1 = Some n1 -> sample_size p2 = Some n2 ->
  (n1 <= n2)%Z ->
  (_assess_paper_quality current_year p1
   <=? _assess_paper_quality current_year p2) = true
  /\ (n1 = 999%Z -> n2 = 1000%Z ->
      (score_before_clamp current_year p2 <=? 1.0) = true ->
      (abs ((_assess_paper_quality current_year p2
             - _assess_paper_quality current_year p1) - 0.1)
       <=? 0x1p-52) = true).
Proof.
  intros Hsame H1 H2 Hle.
  unfold _assess_paper_quality. rewrite !score_before_clamp_table.
  rewrite (same_except_sample_size_table current_year p1 p2 Hsame).
  rewrite H1, H2. split.
  - apply score_table_monotone;
      [ apply type_weight_cases | now apply band_monotone | apply band_le_3 ].
  - intros -> ->. change (band (Some 1000%Z)) with 3%nat.
    change (band (Some 999%Z)) with 2%nat.
    apply score_table_step, type_weight_cases.
Qed.

Lemma sample_size_monotone_and_step_witness :
  (_assess_paper_quality 2025 (plain_paper "cohort" (Some 999%Z))
   <=? _assess_paper_quality 2025 (plain_paper "cohort" (Some 1000%Z))) = true
  /\ (abs ((_assess_paper_quality 2025 (plain_paper "cohort" (Some 1000%Z))
            - _assess_paper_quality 2025 (plain_paper "cohort" (Some 999%Z)))
           - 0.1)
      <=? 0x1p-52) = true.
Proof.
  destruct (sample_size_monotone_and_step 2025
              (plain_paper "cohort" (Some 999%Z))
              (plain_paper "cohort" (Some 1000%Z)) 999 1000) as [Hm Hs].
  - unfold same_except_sample_size; simpl; repeat split; reflexivity.
  - reflexivity.
  - reflexivity.
  - lia.
  - split; [ exact Hm | apply Hs; reflexivity ].
Defined.

(** C6 as stated fails.  A meta-analysis with no other bonus scores
    [0.6000000000000001] at sample size 999 and [0.7] at 1000, far below
    the clamp; the increase is not [0.1], neither as the difference the
    program would compute, nor as the sum [score + 0.1], nor as the exact
    difference of the two binary64 numbers. *)
Lemma sample_size_step_not_exactly_a_tenth :
  let p999 := plain_paper "meta-analysis" (Some 999%Z) in
  let p1000 := plain_paper "meta-analysis" (Some 1000%Z) in
  same_except_sample_size p999 p1000
  /\ (score_before_clamp 2025 p1000 <? 1.0) = true
  /\ _assess_paper_quality 2025 p999 = 0.6000000000000001
  /\ _assess_paper_quality 2025 p1000 = 0.7
  /\ _assess_paper_quality 2025 p1000 - _assess_paper_quality 2025 p999
     <> 0.1
  /\ _assess_paper_quality 2025 p999 + 0.1
     <> _assess_paper_quality 2025 p1000
  /\ ~ (PyFloat.exact (_assess_paper_quality 2025 p1000)
        - PyFloat.exact (_assess_paper_quality 2025 p999) == 1 # 10)%Q.
Proof.
  cbv zeta. split.
  { unfold same_except_sample_size; simpl; repeat split; reflexivity. }
  repeat split; try (vm_compute; reflexivity).
  - intros H. apply (f_equal Prim2SF) in H. vm_compute in H. discriminate H.
  - intros H. apply (f_equal Prim2SF) in H. vm_compute in H. discriminate H.
  - vm_compute. intros H. discriminate H.
Qed.

End QualityScorer.

(** ** The evidence grader *)

Section EvidenceGrader.

Import AspartameAgent.

Lemma list_in_study_types (t : string) (papers : list PaperDict.t) :
  list_in t (map (fun paper => option_default (PaperDict.study_type paper) "unknown")
                 papers)
  = has_type t papers.
Proof.
  unfold list_in, has_type, type_of.
  induction papers as [ | p rest IH]; simpl; [ reflexivity | now rewrite IH ].
Qed.

Lemma list_count_study_types (t : string) (papers : list PaperDict.t) :
  list_count t (map (fun paper => option_default (PaperDict.study_type paper) "unknown")
                    papers)
  = count_type t papers.
Proof.
  unfold list_count, count_type, type_of.
  induction papers as [ | p rest IH]; simpl; [ reflexivity | ].
  destruct (String.eqb t _); simpl; now rewrite IH.
Qed.

(** The code is the cascade of the seven conditions, tried in order. *)
Lemma grade_cascade (papers : list PaperDict.t) :
  _assess_evidence_grade papers
  = if rule_condition R1 papers then rule_grade R1
    else if rule_condition R2 papers then rule_grade R2
    else if rule_condition R3 papers then rule_grade R3
    else if rule_condition R4 papers then rule_grade R4
    else if rule_condition R5 papers then rule_grade R5
    else if rule_condition R6 papers then rule_grade R6
    else rule_grade R7.
Proof.
  unfold _assess_evidence_grade, rule_condition, rule_grade.
  cbv zeta. rewrite !list_in_study_types, list_count_study_types.
  fold (count_above_0_8 papers).
  destruct (is_empty papers); [ reflexivity | ].
  destruct (has_type "meta-analysis" papers); simpl.
  - destruct (2 <=? count_above_0_8 papers)%nat; reflexivity.
  - destruct (has_type "rct" papers); simpl.
    + destruct (3 <=? count_type "rct" papers)%nat; reflexivity.
    + rewrite !list_in_study_types, orb_false_r. reflexivity.
Qed.

Lemma fires_unique (papers : list PaperDict.t) (r r' : rule) :
  fires r papers -> fires r' papers -> r = r'.
Proof.
  intros [Hc Hb] [Hc' Hb'].
  destruct (Nat.lt_trichotomy (rule_index r) (rule_index r')) as [Hlt | [Heq | Hgt]].
  - rewrite (Hb' r Hlt) in Hc. discriminate Hc.
  - destruct r, r'; simpl in Heq; congruence.
  - rewrite (Hb r' Hgt) in Hc'. discriminate Hc'.
Qed.

Lemma rule_grade_injective (r r' : rule) :
  rule_grade r = rule_grade r' -> r = r'.
Proof.
  destruct r, r'; simpl; intros H; first [ reflexivity | discriminate H ].
Qed.

(** C2.  The grader is total with first-match-wins semantics: for every
    list of records exactly one of the seven rules fires, and the grade
    returned is the label of that rule; the seven labels are pairwise
    distinct. *)
Theorem evidence_grader_total_first_match (papers : list PaperDict.t) :
  exists r : rule,
    fires r papers
    /\ _assess_evidence_grade papers = rule_grade r
    /\ (forall r', fires r' papers -> r' = r)
    /\ (forall r', _assess_evidence_grade papers = rule_grade r' -> r' = r).
Proof.
  assert (Hex : exists r, fires r papers
                          /\ _assess_evidence_grade papers = rule_grade r).
  { rewrite grade_cascade. unfold fires.
    destruct (rule_condition R1 papers) eqn:E1;
      [ exists R1 | destruct (rule_condition R2 papers) eqn:E2;
      [ exists R2 | destruct (rule_condition R3 papers) eqn:E3;
      [ exists R3 | destruct (rule_condition R4 papers) eqn:E4;
      [ exists R4 | destruct (rule_condition R5 papers) eqn:E5;
      [ exists R5 | destruct (rule_condition R6 papers) eqn:E6;
      [ exists R6 | exists R7 ] ] ] ] ] ];
      (split; [ split; [ assumption || reflexivity | ] | reflexivity ]);
      intros r' Hlt; destruct r'; simpl in Hlt; first [ assumption | lia ]. }
  destruct Hex as [r [Hf Hg]]. exists r. repeat split; try assumption.
  - apply Hf.
  - apply Hf.
  - intros r' Hf'. exact (fires_unique papers r' r Hf' Hf).
  - intros r' Hg'. apply rule_grade_injective. congruence.
Qed.

End EvidenceGrader.

(** ** The records of the secondary source *)

Section PreprintRecords.

(** When the loop body returns, the object is the preprint record of the
    texts it read. *)
Lemma entry_paper_returns (e : arxiv_entry) (paper : AcademicPaper) :
  ArXivSearcher.entry_paper e = Returns paper ->
  exists title abstract pub_date,
    paper = preprint_paper title abstract
              (flat_map (fun name => match name with
                                     | Some n => [n]
                                     | None => []
                                     end) (e_authors e))
              pub_date (option_default (e_id e) (Some "")).
Proof.
  unfold ArXivSearcher.entry_paper, preprint_paper.
  destruct (e_title e) as [[t|]|]; cbn [strip_text and_then];
    try discriminate;
    (destruct (e_summary e) as [[a|]|]; cbn [strip_text and_then];
     try discriminate;
     (destruct (e_published e) as [[d|]|]; cbn [slice_text and_then];
      try discriminate;
      intros H; injection H as <-; do 3 eexists; reflexivity)).
Qed.

(** The loop body raises exactly when a title, summary or date element is
    there without a text. *)
Lemma entry_paper_raises (e : arxiv_entry) :
  (exists x, ArXivSearcher.entry_paper e = Raises x)
  <-> (e_title e = Some None \/ e_summary e = Some None
       \/ e_published e = Some None).
Proof.
  unfold ArXivSearcher.entry_paper.
  destruct (e_title e) as [[t|]|]; cbn [strip_text and_then];
    (destruct (e_summary e) as [[a|]|]; cbn [strip_text and_then];
     (destruct (e_published e) as [[d|]|]; cbn [slice_text and_then];
      (split;
       [ intros (x & H); try discriminate; auto
       | intros [H | [H | H]]; try discriminate; eexists; reflexivity ]))).
Qed.

End PreprintRecords.

(** ** The confidence formula *)

Section ConfidenceCalculator.

Import AspartameAgent.

Lemma min_le_first (cap x : float) :
  comparable cap -> (PyFloat.min cap x <=? cap) = true.
Proof.
  intros Hcap. unfold PyFloat.min.
  destruct (x <? cap) eqn:E; [ now apply ltb_leb | exact Hcap ].
Qed.

Lemma confidence_with_capped (py_sum : list float -> float)
    (academic_papers : list PaperDict.t) (web_sources : list WebSource.t) :
  (_calculate_confidence_with py_sum academic_papers web_sources <=? 0.95) = true.
Proof.
  unfold _calculate_confidence_with.
  destruct (is_empty academic_papers && is_empty web_sources);
    [ reflexivity | apply min_le_first; reflexivity ].
Qed.

(** C3.  With no academic record and no web result the confidence is
    exactly 0.2, and for every pair of collections, whatever the scores
    in them, the confidence is at most 0.95.  Both hold for either
    implementation of the builtin [sum]. *)
Theorem confidence_floor_and_cap :
  _calculate_confidence [] [] = 0.2
  /\ _calculate_confidence_with PyFloat.sum_compensated [] [] = 0.2
  /\ (forall academic_papers web_sources,
        (_calculate_confidence academic_papers web_sources <=? 0.95) = true)
  /\ (forall academic_papers web_sources,
        (_calculate_confidence_with PyFloat.sum_compensated
           academic_papers web_sources <=? 0.95) = true).
Proof.
  repeat split; try reflexivity; intros; apply confidence_with_capped.
Qed.

(** C4.  With no academic record and two web results of credibility 0.9
    and 0.7, in either order, the confidence is 0.12: the formula
    applies, not the 0.2 baseline, since the web collection is not
    empty.  Both implementations of [sum] agree. *)
Theorem confidence_two_web_results (s1 s2 : WebSource.t) :
  WebSource.credibility_score s1 = Some 0.9 ->
  WebSource.credibility_score s2 = Some 0.7 ->
  _calculate_confidence [] [s1; s2] = 0.12
  /\ _calculate_confidence [] [s2; s1] = 0.12
  /\ _calculate_confidence_with PyFloat.sum_compensated [] [s1; s2] = 0.12
  /\ _calculate_confidence_with PyFloat.sum_compensated [] [s2; s1] = 0.12
  /\ _calculate_confidence [] [s1; s2] <> 0.2.
Proof.
  intros H1 H2.
  unfold _calculate_confidence, _calculate_confidence_with.
  simpl map. rewrite H1, H2.
  repeat split; try (vm_compute; reflexivity).
  intros H. apply (f_equal Prim2SF) in H. vm_compute in H. discriminate H.
Qed.

Lemma confidence_two_web_results_witness :
  _calculate_confidence []
    [web_source "https://www.cdc.gov/a" 0.9; web_source "https://www.webmd.com/b" 0.7]
  = 0.12.
Proof.
  apply (confidence_two_web_results
           (web_source "https://www.cdc.gov/a" 0.9)
           (web_source "https://www.webmd.com/b" 0.7));
    reflexivity.
Defined.

(** C10.  The 0.2 baseline is not a lower bound once evidence is
    present: for a single record of the secondary source (quality score
    0.3, one study type) and no web result, the confidence is
    [0.7 * (0.3 * 0.8 + 0.2 * 0.2) = 0.196], strictly below 0.2.  This
    holds for the record of every entry the parser makes a record of,
    which is every entry whose title, summary and date elements, where
    there, have a text. *)
Theorem confidence_below_baseline_with_evidence :
  (exists papers : list PaperDict.t,
      papers <> [] /\ (_calculate_confidence papers [] <? 0.2) = true)
  /\ (forall (e : arxiv_entry) (paper : AcademicPaper),
        ArXivSearcher.entry_paper e = Returns paper ->
        let papers := [paper_dict paper] in
        _calculate_confidence papers [] = 0.196
        /\ _calculate_confidence_with PyFloat.sum_compensated papers [] = 0.196
        /\ (_calculate_confidence papers [] <? 0.2) = true)
  /\ (forall e : arxiv_entry,
        e_title e <> Some None -> e_summary e <> Some None ->
        e_published e <> Some None ->
        exists paper : AcademicPaper, ArXivSearcher.entry_paper e = Returns paper).
Proof.
  split; [ | split ].
  - exists [paper_dict (preprint_paper "No title" "" [] "" (Some ""))].
    split; [ discriminate | vm_compute; reflexivity ].
  - intros e paper Hp papers. subst papers.
    destruct (entry_paper_returns e paper Hp) as (t & a & d & ->).
    repeat split; vm_compute; reflexivity.
  - intros e Ht Hs Hd.
    destruct (ArXivSearcher.entry_paper e) as [paper | x] eqn:E;
      [ now exists paper | ].
    exfalso. assert (H : exists x, ArXivSearcher.entry_paper e = Raises x)
      by now exists x.
    apply entry_paper_raises in H. tauto.
Qed.

Lemma confidence_below_baseline_with_evidence_witness :
  ArXivSearcher.entry_paper (mkEntry (Some (Some "A preprint")) None [] None None)
  = Returns (preprint_paper "A preprint" "" [] "" (Some ""))
  /\ _calculate_confidence
       [paper_dict (preprint_paper "A preprint" "" [] "" (Some ""))] [] = 0.196.
Proof.
  split; [ reflexivity | ].
  destruct confidence_below_baseline_with_evidence as (_ & H & _).
  apply (H (mkEntry (Some (Some "A preprint")) None [] None None)
           (preprint_paper "A preprint" "" [] "" (Some ""))).
  reflexivity.
Defined.

End ConfidenceCalculator.

(** ** The study classifier *)

Section StudyClassifier.

Import PubMedSearcher.

Lemma prefix_lower (n s : string) :
  String.prefix n s = true ->
  String.prefix (PyStr.lower n) (PyStr.lower s) = true.
Proof.
  revert s. induction n as [ | a n IH]; intros s;
    [ now destruct s | ].
  destruct s as [ | b s]; simpl; [ discriminate | ].
  destruct (ascii_dec a b) as [-> | Hne]; [ | discriminate ].
  intros H. destruct (ascii_dec (PyStr.lower_ascii b) (PyStr.lower_ascii b));
    [ now apply IH | congruence ].
Qed.

Lemma contains_lower (n s : string) :
  PyStr.contains n s = true ->
  PyStr.contains (PyStr.lower n) (PyStr.lower s) = true.
Proof.
  induction s as [ | b s IH].
  - cbn [PyStr.contains PyStr.lower].
    destruct (String.prefix n "") eqn:E; [ | discriminate ].
    intros _. apply prefix_lower in E. cbn [PyStr.lower] in E. now rewrite E.
  - cbn [PyStr.contains PyStr.lower].
    destruct (String.prefix n (String b s)) eqn:E.
    + intros _. apply prefix_lower in E. cbn [PyStr.lower] in E. now rewrite E.
    + intros H. rewrite (IH H).
      match goal with |- (if ?c then _ else _) = _ => destruct c end;
        reflexivity.
Qed.

Lemma classify_first_match (title abstract : string) :
  _classify_study_type title abstract
  = first_match classifier_rules
      (PyStr.lower (title ++ " " ++ abstract)%string) "observational".
Proof. reflexivity. Qed.

Lemma first_match_label (rules : list (list string * string)) (text default : string) :
  In (first_match rules text default) (map snd rules ++ [default]).
Proof.
  induction rules as [ | [terms label] rest IH]; simpl; [ now left | ].
  destruct (PyStr.any_in terms text); [ now left | now right ].
Qed.

Lemma classify_meta_analysis (title abstract : string) :
  PyStr.contains "meta-analysis"
    (PyStr.lower (title ++ " " ++ abstract)%string) = true ->
  _classify_study_type title abstract = "meta-analysis".
Proof.
  intros H. unfold _classify_study_type. cbv zeta.
  unfold PyStr.any_in at 1. cbn [existsb]. now rewrite H.
Qed.

(** C7.  The classifier is total and first-match-wins: it is the ordered
    rule list evaluated top to bottom, its result is one of the seven
    labels, and a text that contains both "meta-analysis" and
    "randomized controlled trial" (in the lower-cased text, or already
    in the title and abstract as given) is classified [meta-analysis],
    rule 1 being tried before rule 2. *)
Theorem classifier_total_first_match (title abstract : string) :
  let raw := (title ++ " " ++ abstract)%string in
  let text := PyStr.lower raw in
  _classify_study_type title abstract
  = first_match classifier_rules text "observational"
  /\ In (_classify_study_type title abstract) study_labels
  /\ (PyStr.contains "meta-analysis" text = true
      /\ PyStr.contains "randomized controlled trial" text = true ->
      _classify_study_type title abstract = "meta-analysis")
  /\ (PyStr.contains "meta-analysis" raw = true
      /\ PyStr.contains "randomized controlled trial" raw = true ->
      _classify_study_type title abstract = "meta-analysis").
Proof.
  intros raw text. repeat split.
  - rewrite classify_first_match.
    exact (first_match_label classifier_rules text "observational").
  - intros [H _]. now apply classify_meta_analysis.
  - intros [H _]. apply classify_meta_analysis.
    exact (contains_lower "meta-analysis" raw H).
Qed.

Lemma classifier_total_first_match_witness :
  _classify_study_type "Sweeteners: a Meta-Analysis"
    "We pooled every randomized controlled trial." = "meta-analysis".
Proof.
  destruct (classifier_total_first_match "Sweeteners: a Meta-Analysis"
              "We pooled every randomized controlled trial.")
    as (_ & _ & Hboth & _).
  apply Hboth. split; reflexivity.
Defined.

End StudyClassifier.

(** ** Rules for computations *)

Section Effects.

Context {A B : Type}.
Variable P : request -> bool.

Lemma ensures_ret (Q : A -> Prop) (a : A) : Q a -> ensures P Q (ret a).
Proof.
  intros H log. exists a, []. rewrite app_nil_r. repeat split; assumption.
Qed.

Lemma ensures_attempts (Q : A -> Prop) (m : M A) :
  ensures P Q m -> attempts P Q m.
Proof.
  intros H log. destruct (H log) as (a & reqs & E & F & HQ).
  exists (Returns a), reqs. repeat split; try assumption.
  intros a' [= <-]. exact HQ.
Qed.

Lemma attempts_raise (Q : A -> Prop) (e : exn) : attempts P Q (raise e).
Proof.
  intros log. exists (Raises e), []. rewrite app_nil_r.
  repeat split. intros a [=].
Qed.

Lemma ensures_bind (Q1 : A -> Prop) (Q2 : B -> Prop) (m : M A) (k : A -> M B) :
  ensures P Q1 m -> (forall a, Q1 a -> ensures P Q2 (k a)) ->
  ensures P Q2 (bind m k).
Proof.
  intros Hm Hk log.
  destruct (Hm log) as (a & r1 & E1 & F1 & HQ).
  destruct (Hk a HQ (log ++ r1)) as (b & r2 & E2 & F2 & HQ2).
  exists b, (r1 ++ r2). unfold bind. rewrite E1, E2, app_assoc.
  rewrite forallb_app, F1, F2. repeat split. exact HQ2.
Qed.

Lemma attempts_bind (Q1 : A -> Prop) (Q2 : B -> Prop) (m : M A) (k : A -> M B) :
  attempts P Q1 m -> (forall a, Q1 a -> attempts P Q2 (k a)) ->
  attempts P Q2 (bind m k).
Proof.
  intros Hm Hk log.
  destruct (Hm log) as ([a | e] & r1 & E1 & F1 & HQ).
  - destruct (Hk a (HQ a eq_refl) (log ++ r1)) as (o & r2 & E2 & F2 & HQ2).
    exists o, (r1 ++ r2). unfold bind. rewrite E1, E2, app_assoc.
    rewrite forallb_app, F1, F2. repeat split. exact HQ2.
  - exists (Raises e), r1. unfold bind. rewrite E1.
    repeat split; try assumption. intros b [=].
Qed.

Lemma ensures_try_except (Q : A -> Prop) (body : M A) (handler : exn -> M A) :
  attempts P Q body -> (forall e, ensures P Q (handler e)) ->
  ensures P Q (try_except body handler).
Proof.
  intros Hb Hh log.
  destruct (Hb log) as ([a | e] & r1 & E1 & F1 & HQ).
  - exists a, r1. unfold try_except. rewrite E1.
    repeat split; [ assumption | now apply HQ ].
  - destruct (Hh e (log ++ r1)) as (a & r2 & E2 & F2 & HQ2).
    exists a, (r1 ++ r2). unfold try_except. rewrite E1, E2, app_assoc.
    rewrite forallb_app, F1, F2. repeat split. exact HQ2.
Qed.

Lemma attempts_try_except (Q : A -> Prop) (body : M A) (handler : exn -> M A) :
  attempts P Q body -> (forall e, attempts P Q (handler e)) ->
  attempts P Q (try_except body handler).
Proof.
  intros Hb Hh log.
  destruct (Hb log) as ([a | e] & r1 & E1 & F1 & HQ).
  - exists (Returns a), r1. unfold try_except. rewrite E1.
    repeat split; [ assumption | intros a' [= <-]; now apply HQ ].
  - destruct (Hh e (log ++ r1)) as (o & r2 & E2 & F2 & HQ2).
    exists o, (r1 ++ r2). unfold try_except. rewrite E1, E2, app_assoc.
    rewrite forallb_app, F1, F2. repeat split. exact HQ2.
Qed.

Lemma ensures_consequence (Q Q' : A -> Prop) (m : M A) :
  (forall a, Q a -> Q' a) -> ensures P Q m -> ensures P Q' m.
Proof.
  intros HQ Hm log. destruct (Hm log) as (a & reqs & E & F & H).
  exists a, reqs. auto.
Qed.

Lemma attempts_lift (Q : A -> Prop) (o : outcome A) :
  (forall a, o = Returns a -> Q a) -> attempts P Q (lift o).
Proof.
  intros H log. exists o, []. rewrite app_nil_r. repeat split. exact H.
Qed.

End Effects.

(** Loops over a list whose body returns or raises. *)
Section ForEach.

Context {A B : Type}.
Variable f : A -> outcome B.

Lemma for_each_returns (xs : list A) (ys : list B) :
  for_each f xs = Returns ys -> Forall2 (fun x y => f x = Returns y) xs ys.
Proof.
  revert ys. induction xs as [ | x rest IH]; simpl; intros ys H.
  - injection H as <-. constructor.
  - destruct (f x) as [y | e] eqn:Ex; simpl in H; [ | discriminate ].
    destruct (for_each f rest) as [ys' | e]; simpl in H; [ | discriminate ].
    injection H as <-. constructor; [ assumption | now apply IH ].
Qed.

Lemma for_each_Forall (Q : B -> Prop) (xs : list A) (ys : list B) :
  (forall x y, f x = Returns y -> Q y) ->
  for_each f xs = Returns ys -> Forall Q ys.
Proof.
  intros HQ H. apply for_each_returns in H.
  induction H; constructor; eauto.
Qed.

Lemma for_each_raises (xs : list A) :
  Exists (fun x => exists e, f x = Raises e) xs ->
  exists e, for_each f xs = Raises e.
Proof.
  induction 1 as [x rest (e & He) | x rest _ (e & IH)]; simpl.
  - rewrite He. simpl. now eexists.
  - destruct (f x); simpl; [ rewrite IH; simpl | ]; now eexists.
Qed.

End ForEach.

Section JoinTexts.

Lemma join_texts_of_texts (sep : string) (items : list string) :
  join_texts sep (map Some items) = Returns (String.concat sep items).
Proof.
  unfold join_texts.
  match goal with
  | |- and_then ?o _ = _ => replace o with (Returns (A := list string) items)
  end; [ reflexivity | ].
  induction items as [ | i rest IH]; simpl; [ reflexivity | ].
  rewrite <- IH. reflexivity.
Qed.

(** [join] returns when every item is a text, and raises TypeError when
    one is [None]. *)
Lemma join_texts_cases (sep : string) (items : list text_or_none) :
  (exists texts, items = map Some texts
                 /\ join_texts sep items = Returns (String.concat sep texts))
  \/ (In None items /\ join_texts sep items = Raises TypeError).
Proof.
  induction items as [ | [i | ] rest IH].
  - left. exists []. split; reflexivity.
  - destruct IH as [(texts & -> & _) | (Hin & E)].
    + left. exists (i :: texts). split; [ reflexivity | ].
      apply (join_texts_of_texts sep (i :: texts)).
    + right. split; [ now right | ].
      unfold join_texts in *. simpl.
      match goal with
      | H : and_then ?o _ = _ |- _ => destruct o; simpl in *
      end; [ discriminate | exact E ].
  - right. split; [ now left | reflexivity ].
Qed.

End JoinTexts.

Section EffectsOfTheSources.

(** A response that [send] returns is an answer of the server. *)
Lemma attempts_send (P : request -> bool) (w : world) (rq : request) :
  P rq = true ->
  attempts P (fun r => exists log, server w log rq = Some r) (send w rq).
Proof.
  intros HP log. unfold send.
  destruct (server w log rq) as [r | ] eqn:E;
    [ exists (Returns r), [rq] | exists (Raises RequestException), [rq] ];
    simpl; rewrite HP; repeat split.
  - intros a [= <-]. now exists log.
  - intros a [=].
Qed.

Lemma attempts_fromstring (P : request -> bool) (r : response) :
  attempts P (fun _ => True) (fromstring r).
Proof.
  unfold fromstring. destruct (xml r);
    [ apply ensures_attempts, ensures_ret; exact I | apply attempts_raise ].
Qed.

Lemma attempts_response_json (P : request -> bool) (r : response) :
  attempts P (fun _ => True) (response_json r).
Proof.
  unfold response_json. destruct (json r);
    [ apply ensures_attempts, ensures_ret; exact I | apply attempts_raise ].
Qed.

Lemma ensures_weaken_requests {A : Type} (P P' : request -> bool)
    (Q : A -> Prop) (m : M A) :
  (forall rq, P rq = true -> P' rq = true) ->
  ensures P Q m -> ensures P' Q m.
Proof.
  intros HP Hm log. destruct (Hm log) as (a & reqs & E & F & H).
  exists a, reqs. repeat split; try assumption.
  rewrite forallb_forall in *. auto.
Qed.

(** The list a loop of [extend] calls builds is the concatenation of the
    results of the calls. *)
Lemma ensures_extend_each {A B : Type} (P : request -> bool)
    (Q : list B -> Prop) (f : A -> M (list B)) (xs : list A) :
  (forall x, ensures P Q (f x)) ->
  ensures P (fun l => exists segments,
                 l = List.concat segments
                 /\ List.length segments = List.length xs
                 /\ Forall Q segments)
          (extend_each f xs).
Proof.
  intros Hf. induction xs as [ | x rest IH]; simpl.
  - apply ensures_ret. exists []. repeat split. constructor.
  - eapply ensures_bind; [ apply Hf | ]. intros ys Hys.
    eapply ensures_bind; [ apply IH | ]. intros zs (segs & -> & Hlen & Hall).
    apply ensures_ret. exists (ys :: segs). simpl.
    repeat split; [ now rewrite Hlen | now constructor ].
Qed.

End EffectsOfTheSources.

(** ** The primary source *)

Section PrimarySource.

Import PubMedSearcher.

Lemma insert_by_quality_in (x y : AcademicPaper) (l : list AcademicPaper) :
  In y (insert_by_quality x l) -> y = x \/ In y l.
Proof.
  induction l as [ | a l IH]; simpl.
  - intros [-> | []]. now left.
  - destruct (quality_score x <? quality_score a); simpl.
    + intros [-> | H]; [ now right; left | ].
      destruct (IH H) as [-> | Hin]; [ now left | now right; right ].
    + intros [-> | H]; [ now left | now right ].
Qed.

Lemma sorted_by_quality_desc_in (y : AcademicPaper) (l : list AcademicPaper) :
  In y (sorted_by_quality_desc l) -> In y l.
Proof.
  induction l as [ | a l IH]; simpl; [ tauto | ].
  intros H. apply insert_by_quality_in in H. destruct H as [-> | H]; auto.
Qed.

Lemma insert_by_quality_sorted (x : AcademicPaper) (l : list AcademicPaper) :
  comparable (quality_score x) ->
  Forall (fun p => comparable (quality_score p)) l ->
  StronglySorted ge_quality l ->
  StronglySorted ge_quality (insert_by_quality x l).
Proof.
  intros Hx. induction l as [ | a l IH]; simpl; intros Hall Hs.
  - repeat constructor.
  - inversion Hall as [ | ? ? Ha Hl]; subst.
    inversion Hs as [ | ? ? Hs' Hge]; subst.
    destruct (quality_score x <? quality_score a) eqn:E.
    + constructor; [ now apply IH | ].
      rewrite Forall_forall in *. intros y Hy.
      apply insert_by_quality_in in Hy. destruct Hy as [-> | Hy].
      * unfold ge_quality. now apply ltb_leb.
      * now apply Hge.
    + assert (Hxa : ge_quality x a) by (now apply not_ltb_leb).
      constructor; [ assumption | ].
      constructor; [ assumption | ].
      rewrite Forall_forall in *. intros y Hy.
      unfold ge_quality in *.
      apply (leb_trans _ (quality_score a)); [ now apply Hge | assumption ].
Qed.

Lemma sorted_by_quality_desc_sorted (l : list AcademicPaper) :
  Forall (fun p => comparable (quality_score p)) l ->
  StronglySorted ge_quality (sorted_by_quality_desc l).
Proof.
  induction l as [ | a l IH]; simpl; intros Hall; [ constructor | ].
  inversion Hall as [ | ? ? Ha Hl]; subst.
  apply insert_by_quality_sorted; [ assumption | | now apply IH ].
  rewrite Forall_forall in *. intros y Hy.
  apply Hl. now apply sorted_by_quality_desc_in.
Qed.

Lemma strongly_sorted_descending (l : list AcademicPaper) :
  StronglySorted ge_quality l -> descending l.
Proof.
  induction 1 as [ | a l Hs IH Hge]; intros i j p q Hij Hi Hj.
  - destruct i; discriminate Hi.
  - destruct j as [ | j]; [ lia | ]. simpl in Hj.
    destruct i as [ | i]; simpl in Hi.
    + injection Hi as <-. rewrite Forall_forall in Hge.
      apply Hge. eapply nth_error_In; eassumption.
    + apply (IH i j); [ lia | assumption | assumption ].
Qed.

Lemma descending_nil : descending [].
Proof. intros i j p q _ Hi. destruct i; discriminate Hi. Qed.

Lemma assess_and_store_returns (w : world) (p : parsed_paper) (scored : AcademicPaper) :
  assess_and_store w p = Returns scored ->
  exists paper,
    p = Paper paper
    /\ scored = set_quality_score paper
                  (_assess_paper_quality (current_year w) paper).
Proof.
  destruct p as [paper | paper]; simpl; [ | discriminate ].
  intros [= <-]. now exists paper.
Qed.

Lemma scored_comparable (w : world) (papers : list parsed_paper)
    (scored : list AcademicPaper) :
  for_each (assess_and_store w) papers = Returns scored ->
  Forall (fun p => comparable (quality_score p)) scored.
Proof.
  apply for_each_Forall. intros p q H.
  apply assess_and_store_returns in H. destruct H as (paper & _ & ->). simpl.
  apply (leb_comparable_r 0.0), assess_paper_quality_range.
Qed.

Lemma search_pmids_ensures (w : world) (query : string) (max_results : Z) :
  ensures is_pubmed_request (fun _ => True) (_search_pmids w query max_results).
Proof.
  unfold _search_pmids. apply ensures_try_except.
  - eapply attempts_bind; [ now apply attempts_send | ]. intros r _.
    destruct (negb (status_code r =? 200)%Z).
    + apply ensures_attempts, ensures_ret. exact I.
    + eapply attempts_bind; [ apply attempts_fromstring | ]. intros root _.
      apply ensures_attempts, ensures_ret. exact I.
  - intros e. apply ensures_ret. exact I.
Qed.

(** The fetch may raise (the join comes before its [try]); it issues
    requests of the primary source only. *)
Lemma fetch_paper_details_attempts (w : world) (pmids : list text_or_none) :
  attempts is_pubmed_request (fun _ => True) (_fetch_paper_details w pmids).
Proof.
  unfold _fetch_paper_details.
  destruct (is_empty pmids); [ apply ensures_attempts, ensures_ret; exact I | ].
  eapply attempts_bind with (Q1 := fun _ => True);
    [ apply attempts_lift; auto | ]. intros id _.
  apply ensures_attempts, ensures_try_except.
  - eapply attempts_bind; [ now apply attempts_send | ]. intros r _.
    destruct (negb (status_code r =? 200)%Z).
    + apply ensures_attempts, ensures_ret. exact I.
    + eapply attempts_bind; [ apply attempts_fromstring | ]. intros root _.
      apply ensures_attempts, ensures_ret. exact I.
  - intros e. apply ensures_ret. exact I.
Qed.

(** A call of the primary source returns, and its list is in descending
    order of quality score. *)
Lemma search_papers_descending (w : world) (query : string) (max_results : Z) :
  ensures is_pubmed_request descending (search_papers w query max_results).
Proof.
  unfold search_papers. apply ensures_try_except.
  - eapply attempts_bind;
      [ apply ensures_attempts, search_pmids_ensures | ]. intros pmids _.
    eapply attempts_bind with (Q1 := fun _ => True).
    { apply ensures_attempts. destruct (is_empty pmids);
        [ apply search_pmids_ensures | apply ensures_ret; exact I ]. }
    intros pmids' _.
    destruct (is_empty pmids');
      [ apply ensures_attempts, ensures_ret, descending_nil | ].
    eapply attempts_bind; [ apply fetch_paper_details_attempts | ].
    intros papers _.
    eapply attempts_bind;
      [ apply attempts_lift; intros scored; apply scored_comparable | ].
    intros scored Hc. apply ensures_attempts, ensures_ret.
    now apply strongly_sorted_descending, sorted_by_quality_desc_sorted.
  - intros e. apply ensures_ret, descending_nil.
Qed.

End PrimarySource.

(** ** The secondary source *)

Section SecondarySource.

Import ArXivSearcher.

Lemma entry_paper_is_preprint (e : arxiv_entry) (paper : AcademicPaper) :
  entry_paper e = Returns paper -> is_preprint_record paper.
Proof.
  intros H. destruct (entry_paper_returns e paper H) as (t & a & d & ->).
  unfold is_preprint_record. simpl. repeat split.
Qed.

(** The loop body raises AttributeError or TypeError, nothing else. *)
Lemma entry_paper_raises_only (e : arxiv_entry) (x : exn) :
  entry_paper e = Raises x -> x = AttributeError \/ x = TypeError.
Proof.
  unfold entry_paper.
  destruct (e_title e) as [[t|]|]; cbn [strip_text and_then];
    try (intros [= <-]; now left);
    (destruct (e_summary e) as [[a|]|]; cbn [strip_text and_then];
     try (intros [= <-]; now left);
     (destruct (e_published e) as [[d|]|]; cbn [slice_text and_then];
      try (intros [= <-]; now right); discriminate)).
Qed.

(** What [search_papers] makes of the entries of a document: the records
    of the loop, or nothing when the loop raises. *)
Lemma parsed_or_nothing_preprints (es : list arxiv_entry) :
  Forall is_preprint_record
         match for_each entry_paper es with
         | Returns papers => papers
         | Raises _ => []
         end.
Proof.
  destruct (for_each entry_paper es) as [papers | x] eqn:E; [ | constructor ].
  eapply for_each_Forall; [ | exact E ].
  intros e p. apply entry_paper_is_preprint.
Qed.

(** What the scorer would give a record of the secondary source: less
    than the 0.3 the parser assigns. *)
Lemma preprint_score_below_fixed (cy : Z) (p : AcademicPaper) :
  is_preprint_record p ->
  (PubMedSearcher._assess_paper_quality cy p <? 0.3) = true.
Proof.
  intros (_ & _ & Hst & Hj & Hss & Hc).
  unfold PubMedSearcher._assess_paper_quality.
  rewrite score_before_clamp_table, Hst, Hj, Hss, Hc.
  destruct (PubMedSearcher.is_recent cy (publication_date p));
    vm_compute; reflexivity.
Qed.

(** One call issues exactly one request, returns, and yields only
    preprint records; a failed call yields none. *)
Lemma arxiv_search_papers_run (w : world) (query : string) (max_results : Z)
    (log : list request) :
  let rq := arxiv_query ("all:" ++ query)%string max_results in
  exists papers,
    search_papers w query max_results log = (Returns papers, log ++ [rq])
    /\ Forall is_preprint_record papers
    /\ (xml_failure (server w log rq) -> papers = []).
Proof.
  intros rq. unfold search_papers, try_except, bind, send. fold rq.
  destruct (server w log rq) as [r | ] eqn:E; simpl.
  - destruct (Z.eqb_spec (status_code r) 200) as [H200 | H200]; simpl.
    + unfold _parse_arxiv_response, try_except, bind, fromstring.
      destruct (xml r) as [root | ] eqn:Ex; simpl.
      * pose proof (parsed_or_nothing_preprints (entries root)) as Hall.
        unfold lift.
        destruct (for_each entry_paper (entries root)) as [papers | x] eqn:El.
        -- exists papers. repeat split; [ assumption | ].
           intros [Hs | Hx]; congruence.
        -- exists []. repeat split; [ | constructor ].
           destruct x; reflexivity.
      * exists []. repeat split. constructor.
    + exists []. repeat split. constructor.
  - exists []. repeat split. constructor.
Qed.

Lemma arxiv_search_papers_ensures (w : world) (query : string) (max_results : Z) :
  ensures is_arxiv_request (Forall is_preprint_record)
          (search_papers w query max_results).
Proof.
  intros log.
  destruct (arxiv_search_papers_run w query max_results log)
    as (papers & E & Hall & _).
  exists papers, [arxiv_query ("all:" ++ query)%string max_results].
  repeat split; assumption.
Qed.

End SecondarySource.

(** ** Runs of the retrieval operations *)

Section RetrievalRuns.

Import PubMedSearcher AspartameAgent.

Lemma search_pmids_run (w : world) (query : string) (max_results : Z)
    (log : list request) :
  let rq := esearch query max_results (pubmed_email w) in
  exists pmids,
    _search_pmids w query max_results log = (Returns pmids, log ++ [rq])
    /\ (xml_failure (server w log rq) -> pmids = []).
Proof.
  intros rq. unfold _search_pmids, try_except, bind, send. fold rq.
  destruct (server w log rq) as [r | ] eqn:E; simpl.
  - destruct (Z.eqb_spec (status_code r) 200) as [H200 | H200]; simpl.
    + unfold fromstring. destruct (xml r) as [root | ] eqn:Ex; simpl.
      * exists (ids root). split; [ reflexivity | ].
        intros [Hs | Hx]; congruence.
      * exists []. now split.
    + exists []. now split.
  - exists []. now split.
Qed.

(** A fetch whose identifiers all have a text issues one request and
    returns: the parsed articles of a reply that parses, nothing when the
    call fails. *)
Lemma fetch_paper_details_run (w : world) (pmids : list string)
    (log : list request) :
  pmids <> [] ->
  let rq := efetch (String.concat "," pmids) (pubmed_email w) in
  exists papers,
    _fetch_paper_details w (map Some pmids) log = (Returns papers, log ++ [rq])
    /\ (xml_failure (server w log rq) -> papers = [])
    /\ (forall r root,
          server w log rq = Some r -> status_code r = 200%Z ->
          xml r = Some root ->
          papers = parsed_articles w (articles root)).
Proof.
  intros Hne rq. unfold _fetch_paper_details.
  destruct pmids as [ | id rest]; [ congruence | ].
  cbn [is_empty map]. change (Some id :: map Some rest) with (map Some (id :: rest)).
  unfold bind at 1. unfold lift. rewrite join_texts_of_texts.
  unfold try_except, bind, send. fold rq.
  destruct (server w log rq) as [r | ] eqn:E; simpl.
  - destruct (Z.eqb_spec (status_code r) 200) as [H200 | H200]; simpl.
    + unfold fromstring. destruct (xml r) as [root | ] eqn:Ex; simpl.
      * eexists. split; [ reflexivity | ]. split.
        -- intros [Hs | Hx]; congruence.
        -- intros r' root' [= <-] _ Hx. rewrite Ex in Hx.
           injection Hx as <-. reflexivity.
      * exists []. repeat split. intros r' root' [= <-] _ Hx. congruence.
    + exists []. repeat split. intros r' root' [= <-] H200'. congruence.
  - exists []. repeat split. intros r' root' [=].
Qed.

(** A fetch with an identifier that is [None] raises TypeError, before
    any request. *)
Lemma fetch_paper_details_raises (w : world) (pmids : list text_or_none)
    (log : list request) :
  In None pmids ->
  _fetch_paper_details w pmids log = (Raises TypeError, log).
Proof.
  intros Hin. unfold _fetch_paper_details.
  destruct pmids as [ | id rest]; [ destruct Hin | ]. cbn [is_empty].
  destruct (join_texts_cases "," (id :: rest)) as [(texts & E & _) | (_ & E)].
  - exfalso. rewrite E in Hin. apply in_map_iff in Hin.
    destruct Hin as (x & Hx & _). discriminate.
  - unfold bind, lift. rewrite E. reflexivity.
Qed.

Lemma tavily_search_run (w : world) (query : string) (log : list request) :
  exists sources reqs,
    _tavily_search w query log = (Returns sources, log ++ reqs)
    /\ forallb is_tavily_request reqs = true
    /\ (forall key,
          tavily_key w = Some key ->
          json_failure
            (server w log (tavily_post key (query ++ " health medical")%string)) ->
          sources = [])
    /\ (tavily_key w = None \/ tavily_key w = Some "" ->
        sources = [] /\ reqs = []).
Proof.
  unfold _tavily_search.
  destruct (tavily_key w) as [key | ] eqn:Ek.
  2: { exists [], []. rewrite app_nil_r. now repeat split. }
  destruct (String.eqb_spec key "") as [-> | Hkey].
  { exists [], []. rewrite app_nil_r. now repeat split. }
  assert (Hno : Some key = None \/ Some key = Some "" -> False)
    by (intros [H | H]; congruence).
  unfold try_except, bind, send.
  set (rq := tavily_post key (query ++ " health medical")%string).
  destruct (server w log rq) as [r | ] eqn:E; simpl.
  - destruct (Z.eqb_spec (status_code r) 200) as [H200 | H200]; simpl.
    + unfold response_json. destruct (json r) as [reply | ] eqn:Ej; simpl.
      * destruct (is_empty (option_default (results reply) [])).
        -- exists [], [rq]. repeat split; tauto.
        -- unfold lift.
           destruct (for_each processed_result
                       (option_default (results reply) [])) as [sources | x];
             eexists; exists [rq]; (repeat split; try tauto);
             intros key' [= <-] Hf; fold rq in Hf; rewrite E in Hf;
             destruct Hf; congruence.
      * exists [], [rq]. repeat split; tauto.
    + exists [], [rq]. repeat split; tauto.
  - exists [], [rq]. repeat split; tauto.
Qed.

Lemma tavily_search_ensures (w : world) (query : string) :
  ensures is_tavily_request (fun _ => True) (_tavily_search w query).
Proof.
  intros log.
  destruct (tavily_search_run w query log) as (sources & reqs & E & F & _).
  exists sources, reqs. repeat split; assumption.
Qed.

Lemma split_on_nonempty (sep : ascii) (s : string) : PyStr.split_on sep s <> [].
Proof.
  destruct s as [ | c rest]; simpl; [ discriminate | ].
  destruct (Ascii.eqb c sep); [ discriminate | ].
  destruct (PyStr.split_on sep rest); discriminate.
Qed.

Lemma primary_retrieval_ensures (w : world) (llm_reply : string) :
  ensures is_pubmed_request
          (fun papers => exists segments,
               papers = List.concat segments
               /\ (List.length segments <= 2)%nat
               /\ Forall descending segments)
          (primary_retrieval w llm_reply).
Proof.
  unfold primary_retrieval. cbv zeta.
  eapply ensures_consequence;
    [ | apply ensures_extend_each with (Q := descending);
        intros query; apply search_papers_descending ].
  intros papers (segs & -> & Hlen & Hall). exists segs. repeat split.
  - rewrite Hlen. apply firstn_le_length.
  - assumption.
Qed.

(** The retrieval of [academic_search], step by step. *)
Lemma collect_academic_papers_run (w : world) (llm_reply : string)
    (log : list request) :
  exists primary reqs1 fallback reqs2,
    primary_retrieval w llm_reply log = (Returns primary, log ++ reqs1)
    /\ forallb is_pubmed_request reqs1 = true
    /\ (exists segments,
           primary = List.concat segments
           /\ (List.length segments <= 2)%nat
           /\ Forall descending segments)
    /\ collect_academic_papers w llm_reply log
       = (Returns (primary ++ fallback), log ++ reqs1 ++ reqs2)
    /\ Forall is_preprint_record fallback
    /\ ((List.length primary < 3)%nat ->
        exists query, reqs2 = [arxiv_query query 2])
    /\ (~ (List.length primary < 3)%nat -> reqs2 = [] /\ fallback = []).
Proof.
  destruct (primary_retrieval_ensures w llm_reply log)
    as (primary & reqs1 & E1 & F1 & Hsegs).
  unfold collect_academic_papers. cbv zeta. unfold bind at 1. rewrite E1.
  destruct (Nat.ltb_spec (List.length primary) 3) as [Hlt | Hge].
  - destruct (PyStr.split_on "|" llm_reply) as [ | query0 rest] eqn:Es;
      [ now apply split_on_nonempty in Es | ].
    cbn [first_item]. unfold bind at 1. unfold ret at 1.
    destruct (arxiv_search_papers_run w (PyStr.strip query0) 2
                (log ++ reqs1)) as (fallback & E2 & Hall & _).
    exists primary, reqs1, fallback,
      [arxiv_query ("all:" ++ PyStr.strip query0)%string 2].
    unfold bind. rewrite E2. unfold ret. rewrite app_assoc.
    repeat split; try assumption; try lia.
    now eexists.
  - exists primary, reqs1, [], []. unfold ret.
    rewrite !app_nil_r. repeat split; try assumption; try lia.
    constructor.
Qed.

End RetrievalRuns.

(** ** The pipeline *)

Section Pipeline.

Import PubMedSearcher AspartameAgent.

Lemma forallb_any_request (reqs : list request) :
  forallb any_request reqs = true.
Proof. induction reqs; simpl; auto. Qed.

Lemma concat_all_nil {A : Type} (segments : list (list A)) :
  Forall (fun l => l = []) segments -> List.concat segments = [].
Proof.
  induction 1 as [ | l segs -> _ IH]; simpl; [ reflexivity | exact IH ].
Qed.

Lemma descending_fixed_score (papers : list AcademicPaper) :
  Forall is_preprint_record papers -> descending papers.
Proof.
  intros Hall i j p q _ Hi Hj. rewrite Forall_forall in Hall.
  destruct (Hall p (nth_error_In _ _ Hi)) as (_ & -> & _).
  destruct (Hall q (nth_error_In _ _ Hj)) as (_ & -> & _).
  reflexivity.
Qed.

Lemma collect_academic_papers_ensures (w : world) (llm_reply : string) :
  ensures any_request (fun _ => True) (collect_academic_papers w llm_reply).
Proof.
  intros log.
  destruct (collect_academic_papers_run w llm_reply log)
    as (primary & reqs1 & fallback & reqs2 & _ & _ & _ & E & _).
  exists (primary ++ fallback), (reqs1 ++ reqs2).
  repeat split; [ exact E | apply forallb_any_request ].
Qed.

Lemma web_search_ensures (w : world) (llm_reply : string) :
  ensures any_request (fun _ => True) (web_search w llm_reply).
Proof.
  unfold web_search. cbv zeta.
  eapply ensures_consequence; [ intros ? _; exact I | ].
  apply ensures_extend_each with (Q := fun _ => True).
  intros query. eapply ensures_weaken_requests; [ | apply tavily_search_ensures ].
  reflexivity.
Qed.

Lemma academic_search_ensures (w : world) (llm_reply : string) :
  ensures any_request (fun _ => True) (academic_search w llm_reply).
Proof.
  unfold academic_search.
  eapply ensures_bind; [ apply collect_academic_papers_ensures | ].
  intros papers _. apply ensures_ret. exact I.
Qed.

(** Slicing the texts of a list returns when each is a text and raises
    TypeError otherwise. *)
Lemma slice_each {A : Type} (n : nat) (g : A -> text_or_none) (xs : list A) :
  if forallb (fun x => has_text (g x)) xs
  then exists slices, for_each (fun x => slice_text n (g x)) xs = Returns slices
  else for_each (fun x => slice_text n (g x)) xs = Raises TypeError.
Proof.
  induction xs as [ | x rest IH]; simpl; [ now eexists | ].
  destruct (g x) as [t | ]; simpl; [ | reflexivity ].
  destruct (forallb (fun x => has_text (g x)) rest).
  - destruct IH as (slices & ->). simpl. now eexists.
  - rewrite IH. reflexivity.
Qed.

(** [content_analysis] issues no request; it returns the grade when what
    it slices has a text, and raises TypeError otherwise. *)
Lemma content_analysis_run (papers : list PaperDict.t) (sources : list WebSource.t)
    (log : list request) :
  content_analysis papers sources log
  = (if quotable papers sources
     then Returns (_assess_evidence_grade papers)
     else Raises TypeError, log).
Proof.
  unfold content_analysis, quotable, bind, lift, ret.
  pose proof (slice_each 300 PaperDict.abstract (firstn 3 papers)) as Hp.
  pose proof (slice_each 300 WebSource.content (firstn 3 sources)) as Hs.
  destruct (forallb (fun paper => has_text (PaperDict.abstract paper))
                    (firstn 3 papers)).
  - destruct Hp as (slices & ->).
    destruct (forallb (fun src => has_text (WebSource.content src))
                      (firstn 3 sources)).
    + destruct Hs as (slices' & ->). reflexivity.
    + rewrite Hs. reflexivity.
  - rewrite Hp. reflexivity.
Qed.

(** The pipeline, step by step: the two searches return, and the state is
    returned unless [content_analysis] raises. *)
Lemma research_run (w : world) (academic_reply web_reply : string)
    (log : list request) :
  exists papers reqs1 sources reqs2,
    academic_search w academic_reply log = (Returns papers, log ++ reqs1)
    /\ web_search w web_reply (log ++ reqs1)
       = (Returns sources, (log ++ reqs1) ++ reqs2)
    /\ research w academic_reply web_reply log
       = (if quotable papers sources
          then Returns {| academic_papers := papers;
                          web_sources := sources;
                          evidence_grade := _assess_evidence_grade papers;
                          confidence_score := _calculate_confidence papers sources |}
          else Raises TypeError,
          (log ++ reqs1) ++ reqs2).
Proof.
  destruct (academic_search_ensures w academic_reply log)
    as (papers & reqs1 & E1 & _).
  destruct (web_search_ensures w web_reply (log ++ reqs1))
    as (sources & reqs2 & E2 & _).
  exists papers, reqs1, sources, reqs2. repeat split; try assumption.
  unfold research, bind. rewrite E1, E2, content_analysis_run.
  destruct (quotable papers sources); reflexivity.
Qed.

(** *** When every call fails *)

Lemma search_pmids_unavailable (w : world) (query : string) (max_results : Z) :
  unavailable w ->
  ensures is_pubmed_request (fun pmids => pmids = [])
          (_search_pmids w query max_results).
Proof.
  intros Hu log.
  destruct (search_pmids_run w query max_results log) as (pmids & E & Hf).
  exists pmids, [esearch query max_results (pubmed_email w)].
  repeat split; [ exact E | apply Hf, Hu ].
Qed.

Lemma search_papers_unavailable (w : world) (query : string) (max_results : Z) :
  unavailable w ->
  ensures is_pubmed_request (fun papers => papers = [])
          (search_papers w query max_results).
Proof.
  intros Hu. unfold search_papers. apply ensures_try_except.
  - apply ensures_attempts.
    eapply ensures_bind; [ now apply search_pmids_unavailable | ].
    intros pmids ->. cbn [is_empty].
    eapply ensures_bind; [ now apply search_pmids_unavailable | ].
    intros pmids ->. cbn [is_empty]. now apply ensures_ret.
  - intros e. now apply ensures_ret.
Qed.

Lemma arxiv_search_papers_unavailable (w : world) (query : string)
    (max_results : Z) :
  unavailable w ->
  ensures is_arxiv_request (fun papers => papers = [])
          (ArXivSearcher.search_papers w query max_results).
Proof.
  intros Hu log.
  destruct (arxiv_search_papers_run w query max_results log)
    as (papers & E & _ & Hf).
  exists papers, [arxiv_query ("all:" ++ query)%string max_results].
  repeat split; [ exact E | apply Hf, Hu ].
Qed.

Lemma tavily_search_unavailable (w : world) (query : string) :
  unavailable w ->
  ensures is_tavily_request (fun sources => sources = [])
          (_tavily_search w query).
Proof.
  intros Hu log.
  destruct (tavily_search_run w query log)
    as (sources & reqs & E & F & Hfail & Hnokey).
  exists sources, reqs. repeat split; try assumption.
  destruct (tavily_key w) as [key | ] eqn:Ek.
  - apply (Hfail key eq_refl), Hu.
  - now apply Hnokey; left.
Qed.

Lemma research_unavailable (w : world) (academic_reply web_reply : string) :
  unavailable w ->
  ensures any_request (fun state => state = nothing_found)
          (research w academic_reply web_reply).
Proof.
  intros Hu. unfold research, academic_search, collect_academic_papers,
    primary_retrieval, web_search. cbv zeta.
  eapply ensures_bind with (Q1 := fun papers => papers = []).
  { eapply ensures_bind with (Q1 := fun papers => papers = []).
    - eapply ensures_bind with (Q1 := fun papers => papers = []).
      + eapply ensures_consequence;
          [ | apply ensures_extend_each with (Q := fun l => l = []);
              intros query;
              eapply ensures_weaken_requests;
              [ | now apply search_papers_unavailable ]; reflexivity ].
        intros papers (segs & -> & _ & Hall). now apply concat_all_nil.
      + intros papers ->. cbn [List.length Nat.ltb Nat.leb].
        destruct (PyStr.split_on "|" academic_reply) as [ | query0 rest] eqn:Es;
          [ now apply split_on_nonempty in Es | ].
        cbn [first_item].
        eapply ensures_bind with (Q1 := fun _ => True);
          [ now apply ensures_ret | ].
        intros q0 _.
        eapply ensures_bind;
          [ eapply ensures_weaken_requests;
            [ | now apply arxiv_search_papers_unavailable ]; reflexivity | ].
        intros arxiv_papers ->. now apply ensures_ret.
    - intros papers ->. now apply ensures_ret. }
  intros papers ->.
  eapply ensures_bind with (Q1 := fun sources => sources = []).
  { eapply ensures_consequence;
      [ | apply ensures_extend_each with (Q := fun l => l = []);
          intros query;
          eapply ensures_weaken_requests;
          [ | now apply tavily_search_unavailable ]; reflexivity ].
    intros sources (segs & -> & _ & Hall). now apply concat_all_nil. }
  intros sources ->.
  eapply ensures_bind with (Q1 := fun grade =>
                                    grade = "Very Low - No academic studies found").
  { intros log. exists "Very Low - No academic studies found", [].
    rewrite app_nil_r. repeat split. }
  intros grade ->. apply ensures_ret. reflexivity.
Qed.

Lemma offline_world_unavailable : unavailable offline_world.
Proof. intros log rq. simpl. split; exact I. Qed.

End Pipeline.

(** ** Ordering, fallback and failure handling of the pipeline *)

Section PipelineClaims.

Import PubMedSearcher AspartameAgent.

(** The loop of [academic_search] over a list of raw queries is the
    sequence of the calls on the cleaned queries, and its list the
    concatenation of their results. *)
Lemma primary_calls_run (w : world) (queries : list string) (log : list request) :
  exists runs reqs,
    primary_calls w (map clean_query queries) log runs (log ++ reqs)
    /\ extend_each (fun query => search_papers w (clean_query query) 3) queries log
       = (Returns (List.concat runs), log ++ reqs)
    /\ List.length runs = List.length queries
    /\ Forall descending runs
    /\ forallb is_pubmed_request reqs = true.
Proof.
  revert log. induction queries as [ | query rest IH]; intros log.
  - exists [], []. rewrite app_nil_r. repeat split; constructor.
  - destruct (search_papers_descending w (clean_query query) 3 log)
      as (run & reqs1 & E1 & F1 & Hd).
    destruct (IH (log ++ reqs1)) as (runs & reqs2 & Hcalls & E2 & Hlen & Hall & F2).
    exists (run :: runs), (reqs1 ++ reqs2). rewrite app_assoc.
    repeat split.
    + cbn [map]. econstructor; eassumption.
    + cbn [extend_each]. unfold bind. rewrite E1, E2. reflexivity.
    + simpl. now rewrite Hlen.
    + now constructor.
    + now rewrite forallb_app, F1, F2.
Qed.

(** C1 (as amended).  For every query invocation the combined list
    handed onward is the concatenation, in call order, of the result
    lists of the calls of the primary source on the first two cleaned
    queries, each list in descending order of quality score, followed by
    the result of the call of the secondary source, which is made when
    the primary calls returned fewer than three records together and
    whose records all score 0.3; the dictionaries carry the scores of the
    records unchanged.  The combined list is not sorted again. *)
Theorem combined_list_concatenates_descending_runs
    (w : world) (llm_reply : string) (log : list request) :
  exists (runs : list (list AcademicPaper)) (log1 : list request)
         (fallback : list AcademicPaper) (log2 : list request),
    primary_calls w (clean_queries llm_reply) log runs log1
    /\ (List.length runs <= 2)%nat
    /\ Forall descending runs
    /\ (if (List.length (List.concat runs) <? 3)%nat
        then ArXivSearcher.search_papers w
               (PyStr.strip (hd "" (PyStr.split_on "|" llm_reply))) 2 log1
             = (Returns fallback, log2)
        else fallback = [] /\ log2 = log1)
    /\ Forall (fun p => quality_score p = 0.3) fallback
    /\ descending fallback
    /\ academic_search w llm_reply log
       = (Returns (map paper_dict (List.concat runs ++ fallback)), log2)
    /\ (forall p, PaperDict.quality_score (paper_dict p) = Some (quality_score p)).
Proof.
  destruct (primary_calls_run w (firstn 2 (PyStr.split_on "|" llm_reply)) log)
    as (runs & reqs1 & Hcalls & E1 & Hlen & Hdesc & _).
  unfold academic_search, collect_academic_papers, primary_retrieval,
    clean_queries.
  cbv zeta. unfold clean_query in E1. unfold bind at 1 2. rewrite E1.
  destruct (PyStr.split_on "|" llm_reply) as [ | query0 rest] eqn:Es;
    [ now apply split_on_nonempty in Es | ].
  assert (Hlen2 : (List.length runs <= 2)%nat).
  { rewrite Hlen. rewrite length_firstn. lia. }
  destruct (List.length (List.concat runs) <? 3)%nat eqn:Hlt.
  - destruct (arxiv_search_papers_run w (PyStr.strip query0) 2 (log ++ reqs1))
      as (fallback & E2 & Hpre & _).
    exists runs, (log ++ reqs1), fallback,
      ((log ++ reqs1) ++ [arxiv_query ("all:" ++ PyStr.strip query0)%string 2]).
    rewrite Hlt. cbn [first_item hd]. unfold bind, ret. rewrite E2.
    repeat split; try assumption.
    + rewrite Forall_forall in *. intros p Hp.
      now destruct (Hpre p Hp) as (_ & ? & _).
    + now apply descending_fixed_score.
  - exists runs, (log ++ reqs1), [], (log ++ reqs1).
    rewrite Hlt. unfold bind, ret.
    repeat split; try assumption; try constructor.
    all: try apply descending_nil.
    now rewrite app_nil_r.
Qed.

(** C1 as stated fails.  With the queries "aspartame safety" and
    "aspartame cancer", the first call finds one observational study
    (score 0.2) and the second a meta-analysis (0.4) and a randomized
    trial (0.36): the list handed onward has the scores 0.2, 0.4, 0.36,
    and the record at position 0 scores less than the one at position 1. *)
Lemma combined_list_not_descending :
  exists papers reqs,
    academic_search two_query_world "aspartame safety|aspartame cancer" []
    = (Returns papers, reqs)
    /\ map PaperDict.quality_score papers
       = [Some 0.2; Some 0.4; Some 0.36000000000000004]
    /\ exists qi qj,
         nth_error (map PaperDict.quality_score papers) 0 = Some (Some qi)
         /\ nth_error (map PaperDict.quality_score papers) 1 = Some (Some qj)
         /\ (qj <=? qi) = false.
Proof.
  pose (r := academic_search two_query_world
               "aspartame safety|aspartame cancer" []).
  exists (match fst r with Returns l => l | Raises _ => [] end), (snd r).
  split; [ vm_compute; reflexivity | ].
  split; [ vm_compute; reflexivity | ].
  exists 0.2, 0.4. repeat split; vm_compute; reflexivity.
Qed.

(** The loop over the entries raises exactly when an entry has a title,
    summary or date element without a text. *)
Lemma for_each_entry_raises (es : list arxiv_entry) :
  (exists x, for_each ArXivSearcher.entry_paper es = Raises x)
  <-> Exists (fun e => e_title e = Some None \/ e_summary e = Some None
                       \/ e_published e = Some None) es.
Proof.
  split.
  - intros (x & H). revert x H.
    induction es as [ | e rest IH]; intros x H; [ discriminate | ].
    simpl in H. destruct (ArXivSearcher.entry_paper e) as [p | y] eqn:Ee; simpl in H.
    + right.
      destruct (for_each ArXivSearcher.entry_paper rest) as [ps | y] eqn:Er;
        simpl in H; [ discriminate | ].
      now apply (IH y).
    + left. apply entry_paper_raises. exists y. exact Ee.
  - intros H. apply for_each_raises.
    induction H as [e rest H | e rest _ IH]; [ left | right; exact IH ].
    now apply entry_paper_raises.
Qed.

(** C8.  Every record the secondary-source parser produces has
    [peer_reviewed = False] and the fixed quality score 0.3, which is
    not the scorer's value: the scorer would give it less than 0.3.  The
    parser issues no request; it returns such records, or raises
    AttributeError or TypeError, which it does exactly when the document
    parses and an entry has a title, summary or date element without a
    text.  The search of the secondary source always returns, and only
    such records.  For every query invocation [academic_search] issues a
    request to the secondary source if and only if the primary-source
    calls returned fewer than three records together (and then exactly
    one); the records it adds reach the result with their 0.3
    unchanged. *)
Theorem secondary_source_fixed_score_and_fallback :
  (forall (r : response) (log : list request),
      exists o,
        ArXivSearcher._parse_arxiv_response r log = (o, log)
        /\ match o with
           | Returns papers =>
               Forall (fun p => peer_reviewed p = false
                                /\ quality_score p = 0.3
                                /\ forall cy,
                                     (_assess_paper_quality cy p <? 0.3) = true)
                      papers
           | Raises x => x = AttributeError \/ x = TypeError
           end
        /\ ((exists x, o = Raises x)
            <-> exists root,
                  xml r = Some root
                  /\ Exists (fun e => e_title e = Some None
                                      \/ e_summary e = Some None
                                      \/ e_published e = Some None)
                            (entries root)))
  /\ (forall (w : world) (query : string) (max_results : Z) (log : list request),
        exists papers,
          ArXivSearcher.search_papers w query max_results log
          = (Returns papers,
             log ++ [arxiv_query ("all:" ++ query)%string max_results])
          /\ Forall (fun p => peer_reviewed p = false
                              /\ quality_score p = 0.3
                              /\ forall cy,
                                   (_assess_paper_quality cy p <? 0.3) = true)
                    papers)
  /\ (forall (w : world) (llm_reply : string) (log : list request),
        exists primary reqs1 fallback reqs2,
          primary_retrieval w llm_reply log = (Returns primary, log ++ reqs1)
          /\ academic_search w llm_reply log
             = (Returns (map paper_dict primary ++ map paper_dict fallback),
                log ++ reqs1 ++ reqs2)
          /\ (existsb is_arxiv_request (reqs1 ++ reqs2) = true
              <-> (List.length primary < 3)%nat)
          /\ (List.length (filter is_arxiv_request (reqs1 ++ reqs2)) <= 1)%nat
          /\ Forall (fun d => PaperDict.peer_reviewed d = false
                              /\ PaperDict.quality_score d = Some 0.3)
                    (map paper_dict fallback)).
Proof.
  assert (Hinv : forall papers, Forall is_preprint_record papers ->
            Forall (fun p => peer_reviewed p = false
                             /\ quality_score p = 0.3
                             /\ forall cy,
                                  (_assess_paper_quality cy p <? 0.3) = true)
                   papers).
  { intros papers Hall. rewrite Forall_forall in *. intros p Hp.
    pose proof (Hall p Hp) as Hpre.
    destruct Hpre as (Hpr & Hq & Hrest). repeat split; try assumption.
    intros cy. apply preprint_score_below_fixed. repeat split; tauto. }
  split; [ | split ].
  - intros r log.
    unfold ArXivSearcher._parse_arxiv_response, try_except, bind, fromstring, lift.
    destruct (xml r) as [root | ] eqn:Ex; simpl.
    + pose proof (for_each_entry_raises (entries root)) as Hiff.
      destruct (for_each ArXivSearcher.entry_paper (entries root))
        as [papers | x] eqn:El.
      * exists (Returns papers). split; [ reflexivity | ]. split.
        -- apply Hinv. eapply for_each_Forall; [ | exact El ].
           intros e p. apply entry_paper_is_preprint.
        -- split.
           ++ intros (x & [=]).
           ++ intros (root' & [= <-] & Hex). apply Hiff in Hex.
              destruct Hex as (x & [=]).
      * assert (Hx : x = AttributeError \/ x = TypeError).
        { clear - El. induction (entries root) as [ | e rest IH];
            [ discriminate | ].
          simpl in El.
          destruct (ArXivSearcher.entry_paper e) as [p | y] eqn:Ee; simpl in El.
          - destruct (for_each ArXivSearcher.entry_paper rest); simpl in El;
              [ discriminate | ].
            injection El as <-. now apply IH.
          - injection El as <-. eapply entry_paper_raises_only. eassumption. }
        exists (Raises x). split; [ destruct Hx as [-> | ->]; reflexivity | ].
        split; [ exact Hx | ].
        split.
        -- intros _. exists root. split; [ reflexivity | ].
           apply Hiff. now eexists.
        -- intros _. now eexists.
    + exists (Returns []). split; [ reflexivity | ]. split; [ constructor | ].
      split.
      * intros (x & [=]).
      * intros (root & [=] & _).
  - intros w query max_results log.
    destruct (arxiv_search_papers_run w query max_results log)
      as (papers & E & Hall & _).
    exists papers. split; [ exact E | now apply Hinv ].
  - intros w llm_reply log.
    destruct (collect_academic_papers_run w llm_reply log)
      as (primary & reqs1 & fallback & reqs2 & E1 & F1 & _ & E & Hpre & Hlt & Hge).
    exists primary, reqs1, fallback, reqs2.
    assert (Hnone : existsb is_arxiv_request reqs1 = false).
    { clear - F1. induction reqs1 as [ | rq rest IH]; [ reflexivity | ].
      simpl in *. apply andb_true_iff in F1. destruct F1 as [Hrq Hrest].
      rewrite (IH Hrest). now destruct rq. }
    assert (Hfilter : filter is_arxiv_request reqs1 = []).
    { clear - F1. induction reqs1 as [ | rq rest IH]; [ reflexivity | ].
      simpl in *. apply andb_true_iff in F1. destruct F1 as [Hrq Hrest].
      rewrite (IH Hrest). now destruct rq. }
    split; [ exact E1 | ].
    split.
    { unfold academic_search, bind. rewrite E. unfold ret.
      now rewrite map_app. }
    rewrite existsb_app, Hnone, filter_app, Hfilter. simpl.
    destruct (Nat.lt_ge_cases (List.length primary) 3) as [H3 | H3].
    + destruct (Hlt H3) as (query & ->). simpl. repeat split; auto.
      rewrite Forall_forall. intros d Hd. apply in_map_iff in Hd.
      destruct Hd as (p & <- & Hp). rewrite Forall_forall in Hpre.
      destruct (Hpre p Hp) as (Hpr & Hq & _). simpl. now rewrite Hpr, Hq.
    + destruct (Hge ltac:(lia)) as [-> ->]. simpl.
      repeat split; try lia; try discriminate. constructor.
Qed.

(** C9.  The code does not keep the claim.  An identifier search that is
    answered with an Id element without text returns a list that holds
    [None]; the detail fetch then raises TypeError to its caller, before
    its [try] and before any request ([search_papers] catches it and
    returns the empty list).  And a reply of the primary source with an
    abstract element without text gives a record whose abstract is
    [None], on which [content_analysis] raises TypeError: the pipeline
    raises instead of returning a result. *)
Theorem fetch_and_pipeline_raise_on_missing_texts :
  (exists log,
      _search_pmids id_without_text_world "aspartame" 3 [] = (Returns [None], log)
      /\ _fetch_paper_details id_without_text_world [None] log
         = (Raises TypeError, log)
      /\ search_papers id_without_text_world "aspartame" 3 []
         = (Returns [], log))
  /\ (exists papers log,
        academic_search abstract_without_text_world "aspartame" []
        = (Returns papers, log)
        /\ map PaperDict.abstract papers = [None]
        /\ exists log',
             research abstract_without_text_world "aspartame" "aspartame" []
             = (Raises TypeError, log')).
Proof.
  split.
  - eexists. repeat split; vm_compute; reflexivity.
  - pose (r := academic_search abstract_without_text_world "aspartame" []).
    exists (match fst r with Returns l => l | Raises _ => [] end), (snd r).
    split; [ vm_compute; reflexivity | ].
    split; [ vm_compute; reflexivity | ].
    eexists. vm_compute. reflexivity.
Qed.

End PipelineClaims.

(** * Further properties of the code *)

(** ** Strings *)

Section StringFacts.

Lemma lower_ascii_idempotent (c : ascii) :
  PyStr.lower_ascii (PyStr.lower_ascii c) = PyStr.lower_ascii c.
Proof. destruct c as [[] [] [] [] [] [] [] []]; reflexivity. Qed.

Lemma lower_idempotent (s : string) : PyStr.lower (PyStr.lower s) = PyStr.lower s.
Proof.
  induction s as [ | c s IH]; simpl; [ reflexivity | ].
  now rewrite lower_ascii_idempotent, IH.
Qed.

Lemma lower_app (s t : string) :
  PyStr.lower (s ++ t)%string = (PyStr.lower s ++ PyStr.lower t)%string.
Proof.
  induction s as [ | c s IH]; simpl; [ reflexivity | now rewrite IH ].
Qed.

Lemma prefix_spec (n h : string) :
  String.prefix n h = true <-> exists q, h = (n ++ q)%string.
Proof.
  revert h. induction n as [ | a n IH]; intros h.
  - split; [ intros _; now exists h | intros _; now destruct h ].
  - destruct h as [ | b h]; simpl.
    + split; [ discriminate | intros [q Hq]; discriminate Hq ].
    + destruct (ascii_dec a b) as [-> | Hne].
      * rewrite IH. split; intros [q Hq]; exists q; congruence.
      * split; [ discriminate | intros [q Hq]; congruence ].
Qed.

(** [contains] is the substring relation. *)
Lemma contains_spec (n h : string) :
  PyStr.contains n h = true <-> exists p q, h = (p ++ n ++ q)%string.
Proof.
  induction h as [ | b h IH]; cbn [PyStr.contains].
  - destruct (String.prefix n "") eqn:E.
    + split; [ intros _ | reflexivity ].
      apply prefix_spec in E. destruct E as [q Hq]. now exists ""%string, q.
    + split; [ discriminate | ]. intros (p & q & H).
      destruct p as [ | c p]; [ | discriminate H ].
      assert (String.prefix n "" = true) by (apply prefix_spec; now exists q).
      congruence.
  - destruct (String.prefix n (String b h)) eqn:E.
    + split; [ intros _ | reflexivity ].
      apply prefix_spec in E. destruct E as [q Hq]. now exists ""%string, q.
    + rewrite IH. split.
      * intros (p & q & ->). now exists (String b p), q.
      * intros (p & q & H). destruct p as [ | c p].
        -- assert (String.prefix n (String b h) = true)
             by (apply prefix_spec; now exists q).
           congruence.
        -- injection H as _ ->. now exists p, q.
Qed.

Lemma string_app_assoc (a b c : string) :
  ((a ++ b) ++ c = a ++ (b ++ c))%string.
Proof. induction a as [ | x a IH]; simpl; [ reflexivity | now rewrite IH ]. Qed.

Lemma contains_trans (a b c : string) :
  PyStr.contains a b = true -> PyStr.contains b c = true ->
  PyStr.contains a c = true.
Proof.
  rewrite !contains_spec. intros (p & q & ->) (p' & q' & ->).
  exists (p' ++ p)%string, (q ++ q')%string.
  now rewrite !string_app_assoc.
Qed.

End StringFacts.

(** ** More on the study classifier *)

Section ClassifierFacts.

Import PubMedSearcher.

(** X1.  The classifier ignores the case of its inputs: lower-casing the
    title and the abstract beforehand does not change the label. *)
Theorem classify_ignores_case (title abstract : string) :
  _classify_study_type (PyStr.lower title) (PyStr.lower abstract)
  = _classify_study_type title abstract.
Proof.
  unfold _classify_study_type.
  now rewrite !lower_app, !lower_idempotent.
Qed.

Lemma any_in_covered (covered keep : string) (text : string) :
  PyStr.contains keep covered = true ->
  (PyStr.contains covered text || PyStr.contains keep text)%bool
  = PyStr.contains keep text.
Proof.
  intros Hc. destruct (PyStr.contains covered text) eqn:E; [ | reflexivity ].
  simpl. symmetry. exact (contains_trans keep covered text Hc E).
Qed.

(** X2.  Two keywords never decide anything: a text that contains
    "randomized controlled trial" contains "randomized", and one that
    contains "narrative review" contains "review".  The classifier is the
    first-match evaluation of the rules without these two keywords. *)
Theorem classify_redundant_keywords (title abstract : string) :
  _classify_study_type title abstract
  = first_match classifier_rules_minimal
      (PyStr.lower (title ++ " " ++ abstract)%string) "observational".
Proof.
  unfold _classify_study_type, classifier_rules_minimal. cbv zeta.
  set (text := PyStr.lower (title ++ " " ++ abstract)%string).
  cbn [first_match]. unfold PyStr.any_in. cbn [existsb].
  rewrite !orb_false_r.
  assert (H2 : (PyStr.contains "randomized controlled trial" text
                || (PyStr.contains "rct" text || PyStr.contains "randomized" text))%bool
               = (PyStr.contains "rct" text || PyStr.contains "randomized" text)%bool).
  { destruct (PyStr.contains "randomized controlled trial" text) eqn:E;
      [ | reflexivity ].
    rewrite (contains_trans "randomized" "randomized controlled trial" text
               eq_refl E).
    now rewrite orb_true_r. }
  assert (H6 : (PyStr.contains "review" text
                || PyStr.contains "narrative review" text)%bool
               = PyStr.contains "review" text).
  { rewrite orb_comm. now apply any_in_covered. }
  rewrite H2, H6. reflexivity.
Qed.

End ClassifierFacts.

(** ** More on the evidence grader *)

Section GraderFacts.

Import AspartameAgent.

Lemma existsb_permutation {A : Type} (f : A -> bool) (l l' : list A) :
  Permutation l l' -> existsb f l = existsb f l'.
Proof.
  induction 1 as [ | x l l' _ IH | x y l | l l' l'' _ IH1 _ IH2 ]; simpl.
  - reflexivity.
  - now rewrite IH.
  - destruct (f x), (f y); reflexivity.
  - congruence.
Qed.

Lemma filter_length_permutation {A : Type} (f : A -> bool) (l l' : list A) :
  Permutation l l' ->
  List.length (filter f l) = List.length (filter f l').
Proof.
  induction 1 as [ | x l l' _ IH | x y l | l l' l'' _ IH1 _ IH2 ]; simpl.
  - reflexivity.
  - destruct (f x); simpl; now rewrite IH.
  - destruct (f x), (f y); reflexivity.
  - congruence.
Qed.

Lemma is_empty_permutation {A : Type} (l l' : list A) :
  Permutation l l' -> is_empty l = is_empty l'.
Proof.
  intros H. destruct l as [ | x l], l' as [ | y l']; try reflexivity.
  - now apply Permutation_nil_cons in H.
  - apply Permutation_sym in H. now apply Permutation_nil_cons in H.
Qed.

Lemma rule_condition_permutation (r : rule) (papers papers' : list PaperDict.t) :
  Permutation papers papers' ->
  rule_condition r papers = rule_condition r papers'.
Proof.
  intros H. destruct r; simpl; unfold has_type, count_above_0_8, count_type;
    rewrite ?(is_empty_permutation _ _ H);
    rewrite ?(existsb_permutation _ _ _ H);
    rewrite ?(filter_length_permutation _ _ _ H); reflexivity.
Qed.

(** X3.  The grade does not depend on the order of the records: any
    reordering of the list gets the same grade. *)
Theorem grade_ignores_order (papers papers' : list PaperDict.t) :
  Permutation papers papers' ->
  _assess_evidence_grade papers = _assess_evidence_grade papers'.
Proof.
  intros H. rewrite !grade_cascade.
  now rewrite !(rule_condition_permutation _ _ _ H).
Qed.

Lemma grade_ignores_order_witness :
  let meta := paper_dict (plain_paper "meta-analysis" None) in
  let rct := paper_dict (plain_paper "rct" None) in
  _assess_evidence_grade [meta; rct] = _assess_evidence_grade [rct; meta].
Proof.
  cbv zeta. apply grade_ignores_order. apply perm_swap.
Defined.

Lemma filter_length_le {A : Type} (f : A -> bool) (l : list A) :
  (List.length (filter f l) <= List.length l)%nat.
Proof.
  induction l as [ | x l IH]; simpl; [ lia | ].
  destruct (f x); simpl; lia.
Qed.

(** X4.  The grade is "High" exactly when some record is a meta-analysis
    and at least two records, of any study type, score above 0.8; so a
    list of fewer than two records is never graded "High". *)
Theorem grade_high_iff (papers : list PaperDict.t) :
  (_assess_evidence_grade papers = "High - Multiple high-quality meta-analyses"
   <-> has_type "meta-analysis" papers = true
       /\ (2 <= count_above_0_8 papers)%nat)
  /\ ((List.length papers < 2)%nat ->
      _assess_evidence_grade papers
      <> "High - Multiple high-quality meta-analyses").
Proof.
  assert (Hiff : _assess_evidence_grade papers
                 = "High - Multiple high-quality meta-analyses"
                 <-> has_type "meta-analysis" papers = true
                     /\ (2 <= count_above_0_8 papers)%nat).
  { rewrite grade_cascade. unfold rule_condition, rule_grade.
    destruct papers as [ | p rest]; cbn [is_empty].
    - split; [ discriminate | intros [H _]; discriminate H ].
    - destruct (has_type "meta-analysis" (p :: rest)); cbn [andb].
      + destruct (Nat.leb_spec 2 (count_above_0_8 (p :: rest))).
        * split; [ intros _; split; [ reflexivity | assumption ] | reflexivity ].
        * split; [ discriminate | intros [_ H']; lia ].
      + split; [ | intros [H _]; discriminate H ].
        destruct (has_type "rct" (p :: rest)); cbn [andb];
          [ destruct (3 <=? count_type "rct" (p :: rest))%nat | ];
          try discriminate.
        destruct (has_type "cohort" (p :: rest) || has_type "case-control" (p :: rest));
          discriminate. }
  split; [ exact Hiff | ].
  intros Hlen Hhigh. apply Hiff in Hhigh. destruct Hhigh as [_ Hcount].
  pose proof (filter_length_le
                (fun p => 0.8 <? option_default (PaperDict.quality_score p) 0)
                papers) as Hle.
  unfold count_above_0_8 in Hcount. lia.
Qed.

Lemma has_type_preprints (t : string) (papers : list AcademicPaper) :
  Forall is_preprint_record papers ->
  String.eqb t "preprint" = false ->
  has_type t (map paper_dict papers) = false.
Proof.
  intros Hall Ht. unfold has_type.
  induction Hall as [ | p rest Hp _ IH]; cbn [map existsb]; [ reflexivity | ].
  destruct Hp as (_ & _ & Hst & _).
  change (type_of (paper_dict p)) with (study_type p).
  now rewrite Hst, Ht, IH.
Qed.

(** X5.  When all the records come from the secondary source (and there
    is at least one), the grade is "Very Low - Limited study evidence". *)
Theorem grade_of_preprints_only (papers : list AcademicPaper) :
  papers <> [] ->
  Forall is_preprint_record papers ->
  _assess_evidence_grade (map paper_dict papers)
  = "Very Low - Limited study evidence".
Proof.
  intros Hne Hall. rewrite grade_cascade. unfold rule_condition, rule_grade.
  destruct papers as [ | p rest]; [ congruence | ].
  cbn [map is_empty].
  change (paper_dict p :: map paper_dict rest) with (map paper_dict (p :: rest)).
  rewrite !(has_type_preprints _ _ Hall) by reflexivity.
  reflexivity.
Qed.

Lemma grade_of_preprints_only_witness :
  ArXivSearcher.entry_paper (mkEntry None None [] None None)
  = Returns (preprint_paper "No title" "" [] "" (Some ""))
  /\ _assess_evidence_grade
       (map paper_dict [preprint_paper "No title" "" [] "" (Some "")])
     = "Very Low - Limited study evidence".
Proof.
  split; [ reflexivity | ].
  apply grade_of_preprints_only.
  - discriminate.
  - constructor; [ unfold is_preprint_record; simpl; repeat split | constructor ].
Defined.

End GraderFacts.

(** ** More on the quality scorer *)

Section ScorerFacts.

Import PubMedSearcher.

Lemma band_below_50 (n : Z) : (n < 50)%Z -> band (Some n) = 0%nat.
Proof.
  intros H. unfold band.
  destruct (Z.eqb_spec n 0); [ reflexivity | ].
  destruct (Z.leb_spec 1000 n); [ lia | ].
  destruct (Z.leb_spec 100 n); [ lia | ].
  destruct (Z.leb_spec 50 n); [ lia | reflexivity ].
Qed.

(** X6.  A sample size below 50, zero and negative numbers included,
    earns nothing: the score is the one of the same record without a
    sample size. *)
Theorem small_sample_scores_as_missing
    (current_year : Z) (paper : AcademicPaper) (n : Z) :
  (n < 50)%Z ->
  _assess_paper_quality current_year (with_sample_size paper (Some n))
  = _assess_paper_quality current_year (with_sample_size paper None).
Proof.
  intros H. unfold _assess_paper_quality.
  rewrite !score_before_clamp_table.
  cbn [with_sample_size sample_size study_type journal publication_date
       conflicts_disclosed].
  now rewrite (band_below_50 n H).
Qed.

Lemma small_sample_scores_as_missing_witness :
  _assess_paper_quality 2025 (with_sample_size (plain_paper "rct" None) (Some 49%Z))
  = _assess_paper_quality 2025 (with_sample_size (plain_paper "rct" None) None).
Proof.
  apply small_sample_scores_as_missing. lia.
Defined.

Lemma score_table_at_least (w : float) (b : nat) (j r c : bool) :
  In w type_weights -> (b <= 3)%nat ->
  (0.12 <=? PyFloat.min 1.0 (score_table w b j r c)) = true.
Proof.
  intros Hw Hb.
  assert (Hb' : b = 0%nat \/ b = 1%nat \/ b = 2%nat \/ b = 3%nat) by lia.
  unfold type_weights in Hw. simpl in Hw.
  destruct Hw as [<- | [<- | [<- | [<- | [<- | [<- | [<- | []]]]]]]];
    destruct Hb' as [-> | [-> | [-> | ->]]];
    destruct j, r, c; vm_compute; reflexivity.
Qed.

(** X7.  No record scores below 0.12, the share of the lowest study-type
    weight ([0.3 * 0.4]); the bound is reached by a record of unknown
    study type without any bonus. *)
Theorem quality_score_at_least_0_12 :
  (forall current_year paper,
      (0.12 <=? _assess_paper_quality current_year paper) = true)
  /\ (forall current_year,
        _assess_paper_quality current_year (plain_paper "unknown" None) = 0.12).
Proof.
  split.
  - intros cy paper. unfold _assess_paper_quality.
    rewrite score_before_clamp_table.
    apply score_table_at_least; [ apply type_weight_cases | apply band_le_3 ].
  - intros cy. vm_compute. reflexivity.
Qed.

Lemma string_length_app (s t : string) :
  String.length (s ++ t)%string = (String.length s + String.length t)%nat.
Proof. induction s as [ | c s IH]; simpl; [ reflexivity | now rewrite IH ]. Qed.

Lemma substring_all (s : string) : substring 0 (String.length s) s = s.
Proof. induction s as [ | c s IH]; simpl; [ reflexivity | now rewrite IH ]. Qed.

Lemma substring_after (p s : string) :
  substring (String.length p) (String.length s) (p ++ s)%string = s.
Proof.
  induction p as [ | c p IH]; simpl; [ apply substring_all | exact IH ].
Qed.

Lemma last4_app (p y : string) :
  String.length y = 4%nat -> PyStr.last4 (p ++ y)%string = y.
Proof.
  intros Hy. unfold PyStr.last4. rewrite string_length_app, Hy.
  replace (String.length p + 4 - 4)%nat with (String.length p) by lia.
  rewrite <- Hy. apply substring_after.
Qed.

Lemma is_recent_of_tail (cy : Z) (p y : string) :
  String.length y = 4%nat ->
  is_recent cy (Some (p ++ y)%string)
  = match PyStr.int y with
    | Some year => (cy - year <=? 5)%Z
    | None => false
    end.
Proof.
  intros Hy. unfold is_recent. rewrite (last4_app p y Hy).
  assert (Hlen : (4 <=? String.length (p ++ y)%string)%nat = true).
  { apply Nat.leb_le. rewrite string_length_app. lia. }
  assert (Hne : String.eqb (p ++ y)%string "" = false).
  { apply String.eqb_neq. intros H. apply (f_equal String.length) in H.
    rewrite string_length_app, Hy in H. simpl in H. lia. }
  now rewrite Hne, Hlen.
Qed.

(** X8.  For an article whose [PubDate/Year] has four characters, the
    recency bonus depends on the year alone: whether or not a month is
    given, the parsed record is recent exactly when the year parses to a
    number at most five years before the current year. *)
Theorem recency_depends_on_year_only (w : world) (a : article) (y : string) :
  a_year a = Some (Some y) ->
  String.length y = 4%nat ->
  exists paper,
    _parse_paper_xml w a = Some paper
    /\ is_recent (current_year w) (publication_date (attributes paper))
       = match PyStr.int y with
         | Some year => (current_year w - year <=? 5)%Z
         | None => false
         end.
Proof.
  intros Hyear Hlen. unfold _parse_paper_xml. cbv zeta.
  eexists. split; [ reflexivity | ].
  destruct (option_default (a_journal a) (Some "Unknown Journal"));
    cbn [attributes publication_date];
    rewrite Hyear; (destruct (a_month a) as [month | ];
    [ cbn [format_text];
      rewrite <- (is_recent_of_tail (current_year w)
                    (format_text month ++ " ")%string y Hlen);
      now rewrite string_app_assoc
    | exact (is_recent_of_tail (current_year w) "" y Hlen) ]).
Qed.

Lemma recency_depends_on_year_only_witness :
  exists paper,
    _parse_paper_xml two_query_world
      (mkArticle (Some (Some "7")) (Some (Some "T")) None [] None
                 (Some (Some "2023")) (Some (Some "Jun")) [] [] [])
    = Some paper
    /\ is_recent 2025 (publication_date (attributes paper)) = true.
Proof.
  destruct (recency_depends_on_year_only two_query_world
              (mkArticle (Some (Some "7")) (Some (Some "T")) None [] None
                         (Some (Some "2023")) (Some (Some "Jun")) [] [] [])
              "2023" eq_refl eq_refl) as (paper & Hp & Hr).
  exists paper. split; [ exact Hp | exact Hr ].
Defined.

End ScorerFacts.

(** ** More on the primary source: sorting and the shape of a call *)

Section PrimarySourceFacts.

Import PubMedSearcher.

Lemma SFleb_not_SFltb (x y : spec_float) :
  SFleb y x = true -> SFltb x y = false.
Proof.
  unfold SFleb, SFltb. rewrite (SFcompare_antisym y x).
  destruct (SFcompare y x) as [[ | | ] | ]; simpl; congruence.
Qed.

Lemma leb_not_ltb (x y : float) : (y <=? x) = true -> (x <? y) = false.
Proof. rewrite leb_spec, ltb_spec. apply SFleb_not_SFltb. Qed.

Lemma descending_tail (a : AcademicPaper) (l : list AcademicPaper) :
  descending (a :: l) -> descending l.
Proof.
  intros H i j p q Hij Hi Hj. apply (H (S i) (S j) p q); [ lia | exact Hi | exact Hj ].
Qed.

(** X9.  The sort is stable on sorted input: a list that is already in
    descending order of score is returned unchanged, so papers of equal
    score keep the order in which they were retrieved. *)
Theorem sort_keeps_descending_list (papers : list AcademicPaper) :
  descending papers -> sorted_by_quality_desc papers = papers.
Proof.
  induction papers as [ | a l IH]; intros H; [ reflexivity | ].
  simpl. rewrite (IH (descending_tail a l H)).
  destruct l as [ | y l']; [ reflexivity | ]. simpl.
  rewrite (leb_not_ltb (quality_score a) (quality_score y)); [ reflexivity | ].
  apply (H 0%nat 1%nat a y); [ lia | reflexivity | reflexivity ].
Qed.

Lemma sort_keeps_descending_list_witness :
  let first := set_quality_score (plain_paper "rct" (Some 10%Z)) 0.36 in
  let second := set_quality_score (plain_paper "rct" (Some 20%Z)) 0.36 in
  sorted_by_quality_desc [first; second] = [first; second].
Proof.
  cbv zeta. apply sort_keeps_descending_list.
  intros i j p q Hij Hi Hj.
  destruct i as [ | [ | i]], j as [ | [ | j]]; simpl in Hi, Hj;
    try lia; try discriminate;
    try (destruct i; discriminate); try (destruct j; discriminate).
  injection Hi as <-. injection Hj as <-. reflexivity.
Defined.

Lemma insert_by_quality_permutation (x : AcademicPaper) (l : list AcademicPaper) :
  Permutation (insert_by_quality x l) (x :: l).
Proof.
  induction l as [ | y l IH]; simpl; [ apply Permutation_refl | ].
  destruct (quality_score x <? quality_score y).
  - eapply Permutation_trans; [ apply perm_skip, IH | apply perm_swap ].
  - apply Permutation_refl.
Qed.

Lemma sorted_by_quality_desc_permutation (l : list AcademicPaper) :
  Permutation (sorted_by_quality_desc l) l.
Proof.
  induction l as [ | x l IH]; simpl; [ apply perm_nil | ].
  eapply Permutation_trans; [ apply insert_by_quality_permutation | ].
  now apply perm_skip.
Qed.

(** The parser builds an object with a journal unless the Journal/Title
    element is there without a text. *)
Lemma parse_paper_xml_cases (w : world) (a : article) :
  (journal_has_text a /\ exists paper, _parse_paper_xml w a = Some (Paper paper))
  \/ (a_journal a = Some None
      /\ exists paper, _parse_paper_xml w a = Some (PaperWithoutJournal paper)).
Proof.
  unfold _parse_paper_xml, journal_has_text. cbv zeta.
  destruct (a_journal a) as [[j | ] | ]; cbn [option_default].
  - left. split; [ discriminate | now eexists ].
  - right. split; [ reflexivity | now eexists ].
  - left. split; [ discriminate | now eexists ].
Qed.

(** The scoring step over the articles of a document returns one record
    per article when every journal has a text, and raises AttributeError
    otherwise. *)
Lemma scored_articles_cases (w : world) (arts : list article) :
  (Forall journal_has_text arts
   /\ exists scored,
        scored_articles w arts = Returns scored
        /\ List.length scored = List.length arts)
  \/ (~ Forall journal_has_text arts
      /\ scored_articles w arts = Raises AttributeError).
Proof.
  unfold scored_articles, parsed_articles.
  induction arts as [ | a arts IH]; cbn [flat_map].
  - left. split; [ constructor | ]. now exists [].
  - destruct (parse_paper_xml_cases w a) as [(Hj & p & ->) | (Hj & p & ->)];
      cbn [app for_each assess_and_store and_then].
    + destruct IH as [(Hall & scored & -> & Hlen) | (Hnot & ->)];
        cbn [and_then].
      * left. split; [ now constructor | ].
        eexists. split; [ reflexivity | ]. simpl. now rewrite Hlen.
      * right. split; [ | reflexivity ].
        intros Hall. apply Hnot. now inversion Hall.
    + right. split; [ | reflexivity ].
      intros Hall. inversion Hall as [ | ? ? Hhas _]; subst.
      now apply Hhas.
Qed.

Lemma fetch_requests_of_texts (w : world) (texts : list string) :
  texts <> [] ->
  fetch_requests w (map Some texts)
  = [efetch (String.concat "," texts) (pubmed_email w)].
Proof.
  intros Hne. unfold fetch_requests.
  destruct texts as [ | t rest]; [ congruence | ]. cbn [map is_empty].
  change (Some t :: map Some rest) with (map Some (t :: rest)).
  now rewrite join_texts_of_texts.
Qed.

Lemma fetch_requests_nil (w : world) (pmids : list text_or_none) :
  fetch_requests w pmids = [] <-> pmids = [] \/ In None pmids.
Proof.
  unfold fetch_requests. destruct pmids as [ | id rest]; cbn [is_empty].
  - split; [ now left | reflexivity ].
  - destruct (join_texts_cases "," (id :: rest)) as [(texts & E & ->) | (Hin & ->)].
    + split; [ discriminate | ].
      intros [H | H]; [ discriminate | ].
      rewrite E in H. apply in_map_iff in H. destruct H as (x & Hx & _).
      discriminate.
    + split; [ now right | reflexivity ].
Qed.

(** The steps of [search_papers] after the searches, for identifiers that
    were found: the fetch (one request when every identifier has a text,
    a TypeError without request otherwise), the scoring and the sort. *)
Lemma fetch_and_score_run (w : world) (pmids : list text_or_none)
    (log : list request) :
  pmids <> [] ->
  exists o,
    (papers <- _fetch_paper_details w pmids ;;
     papers <- lift (for_each (assess_and_store w) papers) ;;
     ret (sorted_by_quality_desc papers)) log
    = (o, log ++ fetch_requests w pmids)
    /\ (fetch_requests w pmids = [] -> o = Raises TypeError)
    /\ (forall texts,
          pmids = map Some texts ->
          xml_failure
            (server w log (efetch (String.concat "," texts) (pubmed_email w))) ->
          o = Returns [])
    /\ (forall texts r root,
          pmids = map Some texts ->
          server w log (efetch (String.concat "," texts) (pubmed_email w)) = Some r ->
          status_code r = 200%Z -> xml r = Some root ->
          o = match scored_articles w (articles root) with
              | Returns scored => Returns (sorted_by_quality_desc scored)
              | Raises e => Raises e
              end).
Proof.
  intros Hne.
  destruct (join_texts_cases "," pmids) as [(texts & -> & _) | (Hin & _)].
  - assert (Hne' : texts <> []) by (intros ->; now apply Hne).
    destruct (fetch_paper_details_run w texts log Hne')
      as (papers & E & Hfail & Hok).
    rewrite (fetch_requests_of_texts w texts Hne').
    unfold bind at 1. rewrite E. unfold bind, lift, ret.
    exists (match for_each (assess_and_store w) papers with
            | Returns scored => Returns (sorted_by_quality_desc scored)
            | Raises e => Raises e
            end).
    split; [ destruct (for_each (assess_and_store w) papers); reflexivity | ].
    split; [ discriminate | ].
    split.
    + intros texts' Heq Hf.
      apply (f_equal (map (fun t => option_default t ""))) in Heq.
      rewrite !map_map in Heq. cbn [option_default] in Heq.
      rewrite !map_id in Heq. subst texts'.
      rewrite (Hfail Hf). reflexivity.
    + intros texts' r root Heq Hs H200 Hx.
      apply (f_equal (map (fun t => option_default t ""))) in Heq.
      rewrite !map_map in Heq. cbn [option_default] in Heq.
      rewrite !map_id in Heq. subst texts'.
      rewrite (Hok r root Hs H200 Hx). reflexivity.
  - assert (Hnil : fetch_requests w pmids = []).
    { apply fetch_requests_nil. now right. }
    rewrite Hnil, app_nil_r.
    exists (Raises TypeError). unfold bind at 1.
    rewrite (fetch_paper_details_raises w pmids log Hin).
    split; [ reflexivity | ]. split; [ reflexivity | ].
    split.
    + intros texts ->. apply in_map_iff in Hin.
      destruct Hin as (x & Hx & _). discriminate.
    + intros texts r root ->. apply in_map_iff in Hin.
      destruct Hin as (x & Hx & _). discriminate.
Qed.

(** One call of [search_papers], step by step. *)
Lemma search_papers_steps (w : world) (query : string) (max_results : Z)
    (log : list request) :
  let es1 := esearch query max_results (pubmed_email w) in
  let es2 := esearch (simple_query query) max_results (pubmed_email w) in
  exists pmids1 pmids papers,
    _search_pmids w query max_results log = (Returns pmids1, log ++ [es1])
    /\ (if is_empty pmids1
        then _search_pmids w (simple_query query) max_results (log ++ [es1])
             = (Returns pmids, (log ++ [es1]) ++ [es2])
        else pmids = pmids1)
    /\ search_papers w query max_results log
       = (Returns papers,
          (log ++ es1 :: (if is_empty pmids1 then [es2] else []))
          ++ fetch_requests w pmids)
    /\ (fetch_requests w pmids = [] -> papers = [])
    /\ (forall texts,
          pmids = map Some texts ->
          xml_failure
            (server w (log ++ es1 :: (if is_empty pmids1 then [es2] else []))
                    (efetch (String.concat "," texts) (pubmed_email w))) ->
          papers = [])
    /\ (forall texts r root,
          pmids = map Some texts -> texts <> [] ->
          server w (log ++ es1 :: (if is_empty pmids1 then [es2] else []))
                 (efetch (String.concat "," texts) (pubmed_email w)) = Some r ->
          status_code r = 200%Z -> xml r = Some root ->
          papers = match scored_articles w (articles root) with
                   | Returns scored => sorted_by_quality_desc scored
                   | Raises _ => []
                   end).
Proof.
  intros es1 es2.
  destruct (search_pmids_run w query max_results log) as (pmids1 & E1 & _).
  fold es1 in E1.
  assert (Hstep : exists pmids,
             (if is_empty pmids1
              then _search_pmids w (simple_query query) max_results (log ++ [es1])
                   = (Returns pmids, (log ++ [es1]) ++ [es2])
              else pmids = pmids1)
             /\ (if is_empty pmids1
                 then _search_pmids w (simple_query query) max_results
                 else ret pmids1) (log ++ [es1])
                = (Returns pmids,
                   log ++ es1 :: (if is_empty pmids1 then [es2] else []))).
  { destruct pmids1 as [ | id1 rest1]; cbn [is_empty].
    - destruct (search_pmids_run w (simple_query query) max_results (log ++ [es1]))
        as (pmids2 & E2 & _).
      fold es2 in E2. exists pmids2. split; [ exact E2 | ].
      rewrite E2, <- app_assoc. reflexivity.
    - exists (id1 :: rest1). split; reflexivity. }
  destruct Hstep as (pmids & Hsecond & E2).
  set (log2 := log ++ es1 :: (if is_empty pmids1 then [es2] else [])) in *.
  unfold search_papers, try_except. unfold bind at 1. rewrite E1.
  unfold bind at 1. rewrite E2.
  destruct pmids as [ | id rest] eqn:Epm.
  - exists pmids1, [], []. cbn [is_empty fetch_requests]. unfold ret.
    rewrite app_nil_r. repeat split; try assumption.
    intros texts r root Heq Hne. destruct texts; [ congruence | discriminate ].
  - cbn [is_empty]. rewrite <- Epm.
    destruct (fetch_and_score_run w pmids log2 ltac:(rewrite Epm; discriminate))
      as (o & E3 & Hnone & Hfail & Hok).
    rewrite E3.
    exists pmids1, pmids,
      (match o with Returns papers => papers | Raises _ => [] end).
    split; [ reflexivity | ]. split; [ now rewrite Epm | ].
    split; [ destruct o; reflexivity | ].
    split; [ intros Hnil; now rewrite (Hnone Hnil) | ].
    split.
    + intros texts Heq Hf. now rewrite (Hfail texts Heq Hf).
    + intros texts r root Heq _ Hs H200 Hx.
      rewrite (Hok texts r root Heq Hs H200 Hx).
      destruct (scored_articles w (articles root)); reflexivity.
Qed.

(** X10.  When the identifier search answers with identifiers that all
    have a text and the fetch answers with a parsable document,
    [search_papers] issues these two requests.  If every Journal/Title
    element of the document has a text (or is missing), it returns every
    article of the document exactly once, parsed and scored: the sort
    only reorders.  If one has no text, the scoring step raises and the
    result is empty. *)
Theorem search_papers_returns_every_article
    (w : world) (query : string) (max_results : Z) (log : list request)
    (r1 r2 : response) (root1 root2 : xml_root) (texts : list string) :
  let rq1 := esearch query max_results (pubmed_email w) in
  let rq2 := efetch (String.concat "," texts) (pubmed_email w) in
  server w log rq1 = Some r1 -> status_code r1 = 200%Z -> xml r1 = Some root1 ->
  ids root1 = map Some texts -> texts <> [] ->
  server w (log ++ [rq1]) rq2 = Some r2 -> status_code r2 = 200%Z ->
  xml r2 = Some root2 ->
  exists papers,
    search_papers w query max_results log = (Returns papers, log ++ [rq1; rq2])
    /\ match scored_articles w (articles root2) with
       | Returns scored =>
           Permutation papers scored
           /\ List.length papers = List.length (articles root2)
       | Raises _ => papers = []
       end
    /\ ((exists scored, scored_articles w (articles root2) = Returns scored)
        <-> Forall journal_has_text (articles root2)).
Proof.
  intros rq1 rq2 E1 S1 X1 Hids Hne E2 S2 X2.
  destruct (search_papers_steps w query max_results log)
    as (pmids1 & pmids & papers & Es & Hsecond & Erun & _ & _ & Hok).
  fold rq1 in Es, Erun, Hok, Hsecond.
  assert (Hp1 : pmids1 = map Some texts).
  { revert Es. unfold _search_pmids, try_except, bind, send. fold rq1.
    rewrite E1, S1. cbn [Z.eqb Pos.eqb negb]. unfold fromstring.
    rewrite X1. unfold ret. intros [= <-]. exact Hids. }
  assert (Hnonempty : is_empty pmids1 = false).
  { rewrite Hp1. destruct texts; [ congruence | reflexivity ]. }
  rewrite Hnonempty in *. subst pmids. subst pmids1.
  rewrite (fetch_requests_of_texts w texts Hne) in Erun. fold rq2 in Erun.
  rewrite <- app_assoc in Erun. cbn [app] in Erun.
  exists papers. split; [ exact Erun | ].
  pose proof (Hok texts r2 root2 eq_refl Hne E2 S2 X2) as Hpapers.
  split.
  - destruct (scored_articles_cases w (articles root2))
      as [(_ & scored & Esc & Hlen) | (_ & Esc)];
      rewrite Esc in *; [ | exact Hpapers ].
    subst papers. split; [ apply sorted_by_quality_desc_permutation | ].
    rewrite (Permutation_length (sorted_by_quality_desc_permutation _)).
    exact Hlen.
  - destruct (scored_articles_cases w (articles root2))
      as [(Hall & scored & Esc & _) | (Hnot & Esc)]; rewrite Esc.
    + split; [ intros _; exact Hall | intros _; now eexists ].
    + split; [ intros (scored & [=]) | intros Hall; now destruct (Hnot Hall) ].
Qed.

Lemma search_papers_returns_every_article_witness :
  exists papers,
    search_papers two_query_world "aspartame cancer" 3 []
    = (Returns papers,
       [] ++ [esearch "aspartame cancer" 3 "research@example.com";
              efetch "201,202" "research@example.com"])
    /\ List.length papers = 2%nat.
Proof.
  destruct (search_papers_returns_every_article two_query_world
              "aspartame cancer" 3 []
              (xml_response (mkRoot [Some "201"; Some "202"] [] []))
              (xml_response
                 (mkRoot []
                    [article_titled "201" "A randomized trial of aspartame";
                     article_titled "202" "Aspartame and cancer: a meta-analysis"]
                    []))
              (mkRoot [Some "201"; Some "202"] [] [])
              (mkRoot []
                 [article_titled "201" "A randomized trial of aspartame";
                  article_titled "202" "Aspartame and cancer: a meta-analysis"]
                 [])
              ["201"; "202"])
    as (papers & Hrun & Hscored & _);
    try reflexivity; try discriminate.
  exists papers. split; [ exact Hrun | ].
  vm_compute in Hscored. destruct Hscored as [_ Hlen]. exact Hlen.
Defined.

(** X11.  One call of [search_papers] issues the identifier search for
    the query; the search for the simplified query if and only if the
    first one found nothing; and then one fetch if and only if the search
    that counts found identifiers and each of them has a text.  Without
    a fetch the result is empty. *)
Theorem search_papers_request_shape (w : world) (query : string)
    (max_results : Z) (log : list request) :
  let es1 := esearch query max_results (pubmed_email w) in
  let es2 := esearch (simple_query query) max_results (pubmed_email w) in
  exists pmids1 pmids papers,
    _search_pmids w query max_results log = (Returns pmids1, log ++ [es1])
    /\ (if is_empty pmids1
        then _search_pmids w (simple_query query) max_results (log ++ [es1])
             = (Returns pmids, (log ++ [es1]) ++ [es2])
        else pmids = pmids1)
    /\ search_papers w query max_results log
       = (Returns papers,
          (log ++ es1 :: (if is_empty pmids1 then [es2] else []))
          ++ (if is_empty pmids || existsb (fun id => negb (has_text id)) pmids
              then []
              else [efetch (String.concat ","
                              (map (fun id => option_default id "") pmids))
                           (pubmed_email w)]))
    /\ (is_empty pmids || existsb (fun id => negb (has_text id)) pmids = true ->
        papers = []).
Proof.
  intros es1 es2.
  destruct (search_papers_steps w query max_results log)
    as (pmids1 & pmids & papers & Es & Hsecond & Erun & Hnone & _).
  fold es1 in Es, Erun, Hsecond. fold es2 in Erun, Hsecond.
  exists pmids1, pmids, papers.
  assert (Hshape : fetch_requests w pmids
                   = if is_empty pmids
                        || existsb (fun id => negb (has_text id)) pmids
                     then []
                     else [efetch (String.concat ","
                                     (map (fun id => option_default id "") pmids))
                                  (pubmed_email w)]).
  { destruct pmids as [ | id rest]; [ reflexivity | ].
    destruct (join_texts_cases "," (id :: rest)) as [(texts & E & _) | (Hin & _)].
    - rewrite E. rewrite fetch_requests_of_texts
        by (destruct texts; [ discriminate | discriminate ]).
      assert (Hex : existsb (fun id => negb (has_text id)) (map Some texts) = false).
      { clear. induction texts; simpl; auto. }
      rewrite Hex, map_map. cbn [option_default]. rewrite map_id.
      destruct texts; [ discriminate | reflexivity ].
    - assert (Hex : existsb (fun id => negb (has_text id)) (id :: rest) = true).
      { apply existsb_exists. exists None. now split. }
      rewrite Hex, orb_true_r.
      apply fetch_requests_nil. now right. }
  repeat split; try assumption.
  - now rewrite <- Hshape.
  - intros H. apply Hnone. now rewrite Hshape, H.
Qed.

Lemma words_from_no_space (cs cur : list ascii) :
  forallb (fun c => negb (PyStr.is_space c)) cs = true ->
  PyStr.words_from cs cur
  = match rev cur ++ cs with
    | [] => []
    | _ :: _ => [string_of_list_ascii (rev cur ++ cs)]
    end.
Proof.
  revert cur. induction cs as [ | c rest IH]; intros cur H.
  - cbn [PyStr.words_from]. rewrite app_nil_r.
    destruct cur as [ | x cur']; [ reflexivity | ].
    destruct (rev (x :: cur')) as [ | y ys] eqn:E; [ | reflexivity ].
    simpl in E. now apply app_eq_nil in E.
  - cbn [forallb] in H. apply andb_true_iff in H. destruct H as [Hc Hrest].
    cbn [PyStr.words_from]. apply negb_true_iff in Hc. rewrite Hc.
    rewrite (IH (c :: cur) Hrest). cbn [rev]. rewrite <- app_assoc. reflexivity.
Qed.

(** X12.  For a query without white space the simplified query is the
    query itself, so the second identifier search repeats the request
    that has just found nothing. *)
Theorem simple_query_of_single_word (query : string) :
  forallb (fun c => negb (PyStr.is_space c)) (list_ascii_of_string query) = true ->
  simple_query query = query.
Proof.
  intros H. unfold simple_query, PyStr.split.
  rewrite (words_from_no_space _ [] H). cbn [rev app].
  destruct (list_ascii_of_string query) eqn:E; [ reflexivity | ].
  now rewrite <- E, string_of_list_ascii_of_string.
Qed.

Lemma simple_query_of_single_word_witness :
  simple_query "aspartame" = "aspartame".
Proof. apply simple_query_of_single_word. reflexivity. Defined.

End PrimarySourceFacts.

(** ** Budgets and invariants of the pipeline *)

Section PipelineFacts.

Import PubMedSearcher AspartameAgent.

Lemma within_ret {A : Type} (P : request -> bool) (Q : A -> Prop) (a : A) :
  Q a -> within 0 P Q (ret a).
Proof.
  intros H log. exists a, []. rewrite app_nil_r. repeat split; auto.
Qed.

Lemma within_ret_any {A : Type} (k : nat) (P : request -> bool)
    (Q : A -> Prop) (a : A) :
  Q a -> within k P Q (ret a).
Proof.
  intros H log. exists a, []. rewrite app_nil_r. repeat split; simpl; auto; lia.
Qed.

Lemma within_bind {A B : Type} (k1 k2 : nat) (P : request -> bool)
    (Q1 : A -> Prop) (Q2 : B -> Prop) (m : M A) (f : A -> M B) :
  within k1 P Q1 m -> (forall a, Q1 a -> within k2 P Q2 (f a)) ->
  within (k1 + k2) P Q2 (bind m f).
Proof.
  intros Hm Hf log.
  destruct (Hm log) as (a & r1 & E1 & L1 & F1 & HQ).
  destruct (Hf a HQ (log ++ r1)) as (b & r2 & E2 & L2 & F2 & HQ2).
  exists b, (r1 ++ r2). unfold bind. rewrite E1, E2, app_assoc.
  rewrite forallb_app, F1, F2, length_app. repeat split; [ lia | exact HQ2 ].
Qed.

Lemma within_weaken {A : Type} (k k' : nat) (P P' : request -> bool)
    (Q Q' : A -> Prop) (m : M A) :
  (k <= k')%nat -> (forall rq, P rq = true -> P' rq = true) ->
  (forall a, Q a -> Q' a) ->
  within k P Q m -> within k' P' Q' m.
Proof.
  intros Hk HP HQ Hm log. destruct (Hm log) as (a & reqs & E & L & F & H).
  exists a, reqs. repeat split; [ exact E | lia | | now apply HQ ].
  rewrite forallb_forall in *. auto.
Qed.

Lemma within_try_except {A : Type} (k : nat) (P : request -> bool)
    (Q : A -> Prop) (body : M A) (handler : exn -> M A) :
  within k P Q body -> within k P Q (try_except body handler).
Proof.
  intros Hb log. destruct (Hb log) as (a & reqs & E & L & F & H).
  exists a, reqs. unfold try_except. rewrite E. auto.
Qed.

Lemma within_extend_each {A B : Type} (k : nat) (P : request -> bool)
    (R : B -> Prop) (f : A -> M (list B)) (xs : list A) :
  (forall x, within k P (Forall R) (f x)) ->
  within (k * List.length xs) P (Forall R) (extend_each f xs).
Proof.
  intros Hf. induction xs as [ | x rest IH]; cbn [extend_each List.length].
  - rewrite Nat.mul_0_r. apply within_ret. constructor.
  - apply (within_weaken (k + (k * List.length rest + 0)) _ P P
             (Forall R) (Forall R)); [ lia | auto | auto | ].
    apply (within_bind k (k * List.length rest + 0) P (Forall R) (Forall R));
      [ apply Hf | intros ys Hys ].
    apply (within_bind (k * List.length rest) 0 P (Forall R) (Forall R));
      [ apply IH | intros zs Hzs ].
    apply within_ret. apply Forall_app. now split.
Qed.

Lemma assess_ignores_stored_score (cy : Z) (p : AcademicPaper) (q : float) :
  _assess_paper_quality cy (set_quality_score p q) = _assess_paper_quality cy p.
Proof. reflexivity. Qed.

Lemma classify_label (title abstract : string) :
  In (_classify_study_type title abstract) study_labels.
Proof.
  rewrite classify_first_match.
  exact (first_match_label classifier_rules _ "observational").
Qed.

Lemma search_pmids_within (w : world) (query : string) (max_results : Z) :
  within 1 is_pubmed_request (fun _ => True) (_search_pmids w query max_results).
Proof.
  intros log. destruct (search_pmids_run w query max_results log) as (ids & E & _).
  exists ids, [esearch query max_results (pubmed_email w)].
  repeat split; [ exact E | simpl; lia ].
Qed.

(** Every object the fetch returns is peer-reviewed and carries one of
    the seven labels of the classifier. *)
Lemma fetch_paper_details_records (w : world) (pmids : list text_or_none) :
  attempts is_pubmed_request
           (Forall (fun p => peer_reviewed (attributes p) = true
                             /\ In (study_type (attributes p)) study_labels))
           (_fetch_paper_details w pmids).
Proof.
  unfold _fetch_paper_details.
  destruct (is_empty pmids);
    [ apply ensures_attempts, ensures_ret; constructor | ].
  eapply attempts_bind with (Q1 := fun _ => True);
    [ apply attempts_lift; auto | ]. intros id _.
  apply ensures_attempts, ensures_try_except.
  - eapply attempts_bind; [ now apply attempts_send | ]. intros r _.
    destruct (negb (status_code r =? 200)%Z).
    + apply ensures_attempts, ensures_ret. constructor.
    + eapply attempts_bind; [ apply attempts_fromstring | ]. intros root _.
      apply ensures_attempts, ensures_ret.
      rewrite Forall_forall. intros p Hp. apply in_flat_map in Hp.
      destruct Hp as (a & _ & Hp). unfold _parse_paper_xml in Hp.
      cbv zeta in Hp.
      destruct (option_default (a_journal a) (Some "Unknown Journal"));
        destruct Hp as [<- | []]; cbn [attributes peer_reviewed study_type];
        (split; [ reflexivity | apply classify_label ]).
  - intros e. apply ensures_ret. constructor.
Qed.

Lemma search_papers_records (w : world) (query : string) (max_results : Z) :
  ensures is_pubmed_request (Forall (primary_record (current_year w)))
          (search_papers w query max_results).
Proof.
  unfold search_papers. apply ensures_try_except.
  - eapply attempts_bind;
      [ apply ensures_attempts, search_pmids_ensures | ]. intros pmids _.
    eapply attempts_bind with (Q1 := fun _ => True).
    { apply ensures_attempts. destruct (is_empty pmids);
        [ apply search_pmids_ensures | apply ensures_ret; exact I ]. }
    intros pmids' _.
    destruct (is_empty pmids');
      [ apply ensures_attempts, ensures_ret; constructor | ].
    eapply attempts_bind; [ apply fetch_paper_details_records | ].
    intros papers Hall.
    eapply attempts_bind with (Q1 := Forall (primary_record (current_year w))).
    { apply attempts_lift. intros scored Hs.
      apply for_each_returns in Hs.
      induction Hs as [ | pp q pps qs Hq _ IH]; [ constructor | ].
      inversion Hall as [ | ? ? (Hpr & Hst) Hrest]; subst.
      constructor; [ | now apply IH ].
      apply assess_and_store_returns in Hq. destruct Hq as (paper & -> & ->).
      unfold primary_record.
      cbn [peer_reviewed study_type quality_score set_quality_score attributes] in *.
      repeat split; assumption. }
    intros scored Hs. apply ensures_attempts, ensures_ret.
    rewrite Forall_forall in *. intros p Hp.
    apply sorted_by_quality_desc_in in Hp. now apply Hs.
  - intros e. apply ensures_ret. constructor.
Qed.

Lemma fetch_requests_length (w : world) (pmids : list text_or_none) :
  (List.length (fetch_requests w pmids) <= 1)%nat.
Proof.
  unfold fetch_requests. destruct (is_empty pmids); [ simpl; lia | ].
  destruct (join_texts "," pmids); simpl; lia.
Qed.

Lemma search_papers_within (w : world) (query : string) (max_results : Z) :
  within 3 is_pubmed_request (Forall (primary_record (current_year w)))
         (search_papers w query max_results).
Proof.
  intros log.
  destruct (search_papers_records w query max_results log)
    as (papers & reqs & E & F & Hall).
  exists papers, reqs. repeat split; try assumption.
  destruct (search_papers_steps w query max_results log)
    as (pmids1 & pmids & papers' & _ & _ & E' & _).
  rewrite E in E'. injection E' as _ Hlog.
  rewrite <- app_assoc in Hlog. apply app_inv_head in Hlog. subst reqs.
  pose proof (fetch_requests_length w pmids).
  rewrite length_app. destruct (is_empty pmids1); simpl; lia.
Qed.

Lemma arxiv_search_papers_within (w : world) (query : string) (max_results : Z) :
  within 1 is_arxiv_request (Forall is_preprint_record)
         (ArXivSearcher.search_papers w query max_results).
Proof.
  intros log.
  destruct (arxiv_search_papers_run w query max_results log) as (papers & E & Hall & _).
  exists papers, [arxiv_query ("all:" ++ query)%string max_results].
  repeat split; [ exact E | simpl; lia | exact Hall ].
Qed.

Lemma source_level_of_url (url : string) :
  In (_classify_source url, _score_credibility url) source_levels.
Proof.
  unfold _classify_source, _score_credibility, source_levels, PyStr.any_in.
  cbn [existsb].
  destruct (PyStr.contains "pubmed" url), (PyStr.contains "ncbi" url),
    (PyStr.contains "mayoclinic" url), (PyStr.contains "nih.gov" url),
    (PyStr.contains "cdc.gov" url), (PyStr.contains "webmd" url),
    (PyStr.contains "healthline" url); simpl; auto 10.
Qed.

Lemma source_level_bounds (t : string) (c : float) :
  In (t, c) source_levels -> (0.5 <=? c) = true /\ (c <=? 0.95) = true.
Proof.
  unfold source_levels. simpl.
  intros [H | [H | [H | [H | [H | []]]]]]; injection H as _ <-;
    split; reflexivity.
Qed.

(** X13.  The two URL classifiers agree: for every URL the source type
    and the credibility form one of the five pairs academic/0.95,
    medical_authority/0.9, medical_authority/0.85, medical_site/0.7 and
    news/0.5; so the credibility lies between 0.5 and 0.95, and a source
    is "news" exactly when its credibility is 0.5. *)
Theorem source_type_and_credibility_agree (url : string) :
  In (_classify_source url, _score_credibility url) source_levels
  /\ (0.5 <=? _score_credibility url) = true
  /\ (_score_credibility url <=? 0.95) = true
  /\ (_classify_source url = "news" <-> _score_credibility url = 0.5).
Proof.
  pose proof (source_level_of_url url) as H.
  split; [ exact H | ].
  destruct (source_level_bounds _ _ H) as [Hlo Hhi].
  split; [ exact Hlo | split; [ exact Hhi | ] ].
  unfold source_levels in H. simpl in H.
  destruct H as [H | [H | [H | [H | [H | []]]]]];
    injection H as Ht Hc; rewrite <- Ht, <- Hc;
    (split; intros E; [ try discriminate E; try reflexivity | ]);
    try reflexivity;
    try (apply (f_equal Prim2SF) in E; vm_compute in E; discriminate E).
Qed.

Lemma processed_result_ok (r : tavily_item) (src : WebSource.t) :
  processed_result r = Returns src -> web_source_ok src.
Proof.
  unfold web_source_ok, processed_result.
  destruct (option_default (r_url r) (Some "")) as [url | ]; [ | discriminate ].
  intros [= <-]. cbn.
  eexists. split; [ reflexivity | ].
  pose proof (source_level_of_url url) as H.
  split; [ exact H | exact (source_level_bounds _ _ H) ].
Qed.

Lemma tavily_search_within (w : world) (query : string) :
  within 1 is_tavily_request (Forall web_source_ok) (_tavily_search w query).
Proof.
  unfold _tavily_search.
  destruct (tavily_key w) as [key | ];
    [ destruct (String.eqb key "") | ];
    try (apply within_ret_any; constructor).
  intros log. unfold try_except, bind, send.
  set (rq := tavily_post key (query ++ " health medical")%string).
  destruct (server w log rq) as [r | ]; simpl.
  - destruct (status_code r =? 200)%Z.
    + unfold response_json. destruct (json r) as [reply | ]; simpl.
      * destruct (is_empty (option_default (results reply) [])).
        -- exists [], [rq]. repeat split; [ simpl; lia | constructor ].
        -- unfold lift.
           destruct (for_each processed_result
                       (option_default (results reply) [])) as [sources | x] eqn:El.
           ++ exists sources, [rq]. repeat split; [ simpl; lia | ].
              eapply for_each_Forall; [ | exact El ].
              intros item src. apply processed_result_ok.
           ++ exists [], [rq]. repeat split; [ simpl; lia | constructor ].
      * exists [], [rq]. repeat split; [ simpl; lia | constructor ].
    + exists [], [rq]. repeat split; [ simpl; lia | constructor ].
  - exists [], [rq]. repeat split; [ simpl; lia | constructor ].
Qed.

Lemma firstn_2_length {A : Type} (l : list A) : (List.length (firstn 2 l) <= 2)%nat.
Proof. rewrite length_firstn. lia. Qed.

Lemma web_search_within (w : world) (llm_reply : string) :
  within 2 is_tavily_request (Forall web_source_ok) (web_search w llm_reply).
Proof.
  unfold web_search. cbv zeta.
  eapply within_weaken;
    [ | | | apply within_extend_each with (R := web_source_ok);
            intros query; apply tavily_search_within ];
    [ | auto | auto ].
  pose proof (firstn_2_length (PyStr.split_on "|" llm_reply)). lia.
Qed.

Lemma primary_retrieval_within (w : world) (llm_reply : string) :
  within 6 is_pubmed_request (Forall (primary_record (current_year w)))
         (primary_retrieval w llm_reply).
Proof.
  unfold primary_retrieval. cbv zeta.
  eapply within_weaken;
    [ | | | apply within_extend_each with (R := primary_record (current_year w));
            intros query; apply search_papers_within ];
    [ | auto | auto ].
  pose proof (firstn_2_length (PyStr.split_on "|" llm_reply)). lia.
Qed.

Lemma assess_paper_quality_at_least (cy : Z) (paper : AcademicPaper) :
  (0.12 <=? _assess_paper_quality cy paper) = true.
Proof.
  unfold _assess_paper_quality. rewrite score_before_clamp_table.
  apply score_table_at_least; [ apply type_weight_cases | apply band_le_3 ].
Qed.

Lemma primary_record_ok (cy : Z) (p : AcademicPaper) :
  primary_record cy p -> record_ok (paper_dict p).
Proof.
  intros (Hpr & Hst & Hq). unfold record_ok. cbn.
  exists (study_type p), (quality_score p). repeat split.
  - rewrite Hq. apply assess_paper_quality_at_least.
  - rewrite Hq. apply assess_paper_quality_range.
  - left. now split.
Qed.

Lemma preprint_record_ok (p : AcademicPaper) :
  is_preprint_record p -> record_ok (paper_dict p).
Proof.
  intros (Hpr & Hq & Hst & _). unfold record_ok. cbn.
  exists (study_type p), (quality_score p). rewrite Hq.
  repeat split. right. now repeat split.
Qed.

Lemma academic_search_within (w : world) (llm_reply : string) :
  within 7 is_academic_request (Forall record_ok) (academic_search w llm_reply).
Proof.
  unfold academic_search, collect_academic_papers. cbv zeta.
  change 7%nat with (7 + 0)%nat.
  apply (within_bind 7 0 is_academic_request
           (Forall (fun p => record_ok (paper_dict p))) (Forall record_ok)).
  2: { intros papers Hall. apply within_ret.
       rewrite Forall_forall in *. intros d Hd. apply in_map_iff in Hd.
       destruct Hd as (p & <- & Hp). now apply Hall. }
  change 7%nat with (6 + 1)%nat.
  apply (within_bind 6 1 is_academic_request
           (Forall (primary_record (current_year w)))
           (Forall (fun p => record_ok (paper_dict p)))).
  { eapply within_weaken; [ | | | apply primary_retrieval_within ];
      [ lia | | auto ].
    intros rq H. unfold is_academic_request. now rewrite H. }
  intros primary Hprim.
  assert (Hok : Forall (fun p => record_ok (paper_dict p)) primary).
  { rewrite Forall_forall in *. intros p Hp.
    exact (primary_record_ok _ p (Hprim p Hp)). }
  destruct (List.length primary <? 3)%nat; [ | now apply within_ret_any ].
  destruct (PyStr.split_on "|" llm_reply) as [ | query0 rest] eqn:Es;
    [ now apply split_on_nonempty in Es | ].
  cbn [first_item].
  change 1%nat with (0 + (1 + 0))%nat.
  apply (within_bind 0 (1 + 0) is_academic_request (fun _ => True) _);
    [ now apply within_ret | intros q0 _ ].
  apply (within_bind 1 0 is_academic_request (Forall is_preprint_record) _).
  { eapply within_weaken; [ | | | apply arxiv_search_papers_within ];
      [ lia | | auto ].
    intros rq H. unfold is_academic_request. rewrite H. apply orb_true_r. }
  intros arxiv_papers Hpre. apply within_ret. apply Forall_app. split;
    [ exact Hok | ].
  rewrite Forall_forall in *. intros p Hp.
  exact (preprint_record_ok p (Hpre p Hp)).
Qed.

(** X14.  The request budget of one query: [academic_search] returns
    after at most seven requests (three for each of at most two
    primary-source calls and one for the secondary source), none of them
    to the web search; [web_search] returns after at most two requests,
    all to the web search; the whole pipeline issues at most nine
    requests, those of the two searches, whether it returns a state or
    raises in [content_analysis]. *)
Theorem request_budget (w : world) (academic_reply web_reply : string)
    (log : list request) :
  (exists papers reqs,
      academic_search w academic_reply log = (Returns papers, log ++ reqs)
      /\ (List.length reqs <= 7)%nat
      /\ forallb is_academic_request reqs = true)
  /\ (exists sources reqs,
        web_search w web_reply log = (Returns sources, log ++ reqs)
        /\ (List.length reqs <= 2)%nat
        /\ forallb is_tavily_request reqs = true)
  /\ (exists outcome reqs1 reqs2,
        research w academic_reply web_reply log
        = (outcome, (log ++ reqs1) ++ reqs2)
        /\ (List.length reqs1 <= 7)%nat
        /\ forallb is_academic_request reqs1 = true
        /\ (List.length reqs2 <= 2)%nat
        /\ forallb is_tavily_request reqs2 = true
        /\ (List.length (reqs1 ++ reqs2) <= 9)%nat).
Proof.
  split; [ | split ].
  - destruct (academic_search_within w academic_reply log)
      as (papers & reqs & E & L & F & _).
    now exists papers, reqs.
  - destruct (web_search_within w web_reply log)
      as (sources & reqs & E & L & F & _).
    now exists sources, reqs.
  - destruct (research_run w academic_reply web_reply log)
      as (papers & reqs1 & sources & reqs2 & E1 & E2 & E).
    destruct (academic_search_within w academic_reply log)
      as (papers' & reqs1' & E1' & L1 & F1 & _).
    rewrite E1 in E1'. injection E1' as _ H1. apply app_inv_head in H1.
    subst reqs1'.
    destruct (web_search_within w web_reply (log ++ reqs1))
      as (sources' & reqs2' & E2' & L2 & F2 & _).
    rewrite E2 in E2'. injection E2' as _ H2. apply app_inv_head in H2.
    subst reqs2'.
    eexists; exists reqs1, reqs2. split; [ exact E | ].
    rewrite length_app. repeat split; try assumption; lia.
Qed.

(** X15.  Every record of the combined list carries a study type and a
    quality score between 0.12 and 1.0, and is either a peer-reviewed
    record with one of the seven study types of the classifier or a
    record of the secondary source: type "preprint", not peer-reviewed,
    score 0.3.  The defaults of the [.get] calls that read the list are
    therefore never used. *)
Theorem combined_records_well_formed (w : world) (llm_reply : string)
    (log : list request) :
  exists papers reqs,
    academic_search w llm_reply log = (Returns papers, log ++ reqs)
    /\ Forall record_ok papers.
Proof.
  destruct (academic_search_within w llm_reply log)
    as (papers & reqs & E & _ & _ & H).
  now exists papers, reqs.
Qed.

(** X16.  Every web result the pipeline collects carries a credibility
    score between 0.5 and 0.95 that matches its source type (one of the
    five pairs of the URL classifiers). *)
Theorem web_results_well_formed (w : world) (llm_reply : string)
    (log : list request) :
  exists sources reqs,
    web_search w llm_reply log = (Returns sources, log ++ reqs)
    /\ Forall web_source_ok sources.
Proof.
  destruct (web_search_within w llm_reply log)
    as (sources & reqs & E & _ & _ & H).
  now exists sources, reqs.
Qed.

(** X17.  Only the first two queries of the language model's reply are
    used: two replies whose first two queries agree give the same
    academic search and the same web search, requests included. *)
Theorem only_first_two_queries_matter (w : world) (reply1 reply2 : string) :
  firstn 2 (PyStr.split_on "|" reply1) = firstn 2 (PyStr.split_on "|" reply2) ->
  (forall log, academic_search w reply1 log = academic_search w reply2 log)
  /\ (forall log, web_search w reply1 log = web_search w reply2 log).
Proof.
  intros H. split; intros log.
  - unfold academic_search, collect_academic_papers, primary_retrieval.
    cbv zeta. rewrite H.
    destruct (PyStr.split_on "|" reply1) as [ | a la] eqn:E1;
      [ now apply split_on_nonempty in E1 | ].
    destruct (PyStr.split_on "|" reply2) as [ | b lb] eqn:E2;
      [ now apply split_on_nonempty in E2 | ].
    cbn [firstn] in H. injection H as -> _. reflexivity.
  - unfold web_search. cbv zeta. now rewrite H.
Qed.

Lemma only_first_two_queries_matter_witness :
  academic_search two_query_world "aspartame safety|aspartame cancer|diet soda" []
  = academic_search two_query_world "aspartame safety|aspartame cancer" [].
Proof.
  apply (only_first_two_queries_matter two_query_world
           "aspartame safety|aspartame cancer|diet soda"
           "aspartame safety|aspartame cancer").
  reflexivity.
Defined.

(** X18.  Without an API key (none, or the empty string) the web search
    issues no request at all and returns no result. *)
Theorem web_search_without_key (w : world) (llm_reply : string)
    (log : list request) :
  tavily_key w = None \/ tavily_key w = Some "" ->
  web_search w llm_reply log = (Returns [], log).
Proof.
  intros Hkey. unfold web_search. cbv zeta.
  generalize (firstn 2 (PyStr.split_on "|" llm_reply)). intros queries.
  assert (Hone : forall query, _tavily_search w query = ret []).
  { intros query. unfold _tavily_search.
    destruct Hkey as [-> | ->]; reflexivity. }
  revert log. induction queries as [ | q rest IH]; intros log; [ reflexivity | ].
  cbn [extend_each]. rewrite Hone. unfold bind, ret in *. now rewrite IH.
Qed.

Lemma web_search_without_key_witness :
  web_search two_query_world "aspartame guidance|sweeteners" []
  = (Returns [], []).
Proof. apply web_search_without_key. now left. Defined.

End PipelineFacts.

(** ** More on the record parser *)

Section ParserFacts.

Import PubMedSearcher.

Lemma concat_nonempty (sep : string) (l : list string) :
  l <> [] -> Forall (fun s => s <> ""%string) l -> String.concat sep l <> ""%string.
Proof.
  intros Hne Hall. destruct l as [ | x xs]; [ congruence | ].
  inversion Hall as [ | ? ? Hx _]; subst.
  destruct x as [ | c x]; [ congruence | ].
  destruct xs; simpl; discriminate.
Qed.

Lemma named_agencies_nonempty (grants : list (option text_or_none)) :
  Forall (fun s => s <> ""%string)
         (flat_map (fun agency =>
                      match agency with
                      | Some (Some text) => if String.eqb text "" then [] else [text]
                      | _ => []
                      end) grants).
Proof.
  induction grants as [ | g rest IH]; simpl; [ constructor | ].
  destruct g as [[text | ] | ]; try exact IH.
  destruct (String.eqb_spec text ""); [ exact IH | ].
  simpl. now constructor.
Qed.

(** X19.  The funding text of a parsed article is empty exactly when the
    article has no [Grant] element; with grants of which none names an
    agency (no Agency element, or one without text or with an empty
    text) it is the placeholder "Grant funded". *)
Theorem funding_empty_iff_no_grant (a : article) :
  (_extract_funding a = ""%string <-> a_grants a = [])
  /\ (a_grants a <> [] ->
      Forall (fun g => g = None \/ g = Some None \/ g = Some (Some ""%string))
             (a_grants a) ->
      _extract_funding a = "Grant funded").
Proof.
  unfold _extract_funding. split.
  - destruct (a_grants a) as [ | g rest] eqn:E; cbn [is_empty].
    + split; reflexivity.
    + split; [ | discriminate ]. intros H. exfalso.
      pose proof (named_agencies_nonempty (g :: rest)) as Hall.
      match type of Hall with
      | Forall _ ?l => destruct l as [ | x xs] eqn:Ef
      end; cbn [is_empty] in H.
      * discriminate H.
      * revert H. apply concat_nonempty; [ discriminate | exact Hall ].
  - intros Hne Hall.
    destruct (a_grants a) as [ | g rest]; [ congruence | ]. cbn [is_empty].
    match goal with
    | |- (if is_empty ?l then _ else _) = _ => assert (Hnil : l = [])
    end.
    { clear Hne. induction Hall as [ | x l Hx _ IH]; [ reflexivity | ].
      cbn [flat_map]. rewrite IH. destruct Hx as [-> | [-> | ->]]; reflexivity. }
    now rewrite Hnil.
Qed.

End ParserFacts.

(** ** Journal matching, the fallback request and the banner *)

Section FurtherFacts.

Import PubMedSearcher AspartameAgent.

Lemma contains_lower_inside (name j p q : string) :
  PyStr.contains name (PyStr.lower j) = true ->
  PyStr.contains name (PyStr.lower (p ++ j ++ q)%string) = true.
Proof.
  rewrite !contains_spec. intros (a & b & E).
  exists (PyStr.lower p ++ a)%string, (b ++ PyStr.lower q)%string.
  rewrite !lower_app, E, !string_app_assoc. reflexivity.
Qed.

(** X20.  The journal bonus is matched without regard to case and
    anywhere in the name: lower-casing the journal changes nothing, and a
    journal name that earns the bonus still earns it with any text before
    and after it. *)
Theorem journal_match_ignores_case_and_context (journal before after : string) :
  journal_is_high_impact (PyStr.lower journal) = journal_is_high_impact journal
  /\ (journal_is_high_impact journal = true ->
      journal_is_high_impact (before ++ journal ++ after)%string = true).
Proof.
  unfold journal_is_high_impact. split.
  - now rewrite lower_idempotent.
  - rewrite !existsb_exists. intros (name & Hin & Hc).
    exists name. split; [ exact Hin | ].
    now apply contains_lower_inside.
Qed.

(** X21.  The fallback request asks the secondary source for the first
    query of the reply, with surrounding white space removed and double
    quotes kept, and for two results; it is the last request of the
    academic search, and without it the retrieval issues nothing beyond
    the primary-source requests. *)
Theorem fallback_request_shape (w : world) (llm_reply : string)
    (log : list request) :
  exists primary reqs1 first_query other_queries,
    PyStr.split_on "|" llm_reply = first_query :: other_queries
    /\ primary_retrieval w llm_reply log = (Returns primary, log ++ reqs1)
    /\ ((List.length primary < 3)%nat ->
        exists fallback,
          collect_academic_papers w llm_reply log
          = (Returns (primary ++ fallback),
             log ++ reqs1
                 ++ [arxiv_query ("all:" ++ PyStr.strip first_query)%string 2]))
    /\ ((3 <= List.length primary)%nat ->
        collect_academic_papers w llm_reply log = (Returns primary, log ++ reqs1)).
Proof.
  destruct (primary_retrieval_ensures w llm_reply log)
    as (primary & reqs1 & E1 & _ & _).
  destruct (PyStr.split_on "|" llm_reply) as [ | query0 rest] eqn:Es;
    [ now apply split_on_nonempty in Es | ].
  exists primary, reqs1, query0, rest.
  split; [ reflexivity | split; [ exact E1 | ] ].
  assert (Hrun : collect_academic_papers w llm_reply log
                 = (if (List.length primary <? 3)%nat
                    then
                      query0' <- first_item (query0 :: rest) ;;
                      arxiv_papers <-
                        ArXivSearcher.search_papers w (PyStr.strip query0') 2 ;;
                      ret (primary ++ arxiv_papers)
                    else ret primary) (log ++ reqs1)).
  { unfold collect_academic_papers. cbv zeta. unfold bind at 1.
    rewrite E1, Es. reflexivity. }
  rewrite Hrun. split.
  - intros Hlt. apply Nat.ltb_lt in Hlt. rewrite Hlt.
    destruct (arxiv_search_papers_run w (PyStr.strip query0) 2 (log ++ reqs1))
      as (fallback & E2 & _).
    exists fallback. cbn [first_item]. unfold bind, ret at 1.
    rewrite E2. unfold ret. now rewrite app_assoc.
  - intros Hge. apply Nat.ltb_ge in Hge. now rewrite Hge.
Qed.

(** X22.  The banner [app.py] shows for the grade has the colours of the
    rule that fired in the grader: green for "High", yellow for the two
    "Moderate" grades, red for the "Low" and "Very Low" ones, with the
    grade text inside; no label of the grader is coloured by a word of
    another level. *)
Theorem banner_follows_grade (papers : list PaperDict.t) :
  exists r : rule,
    fires r papers
    /\ App.format_evidence_grade (_assess_evidence_grade papers)
       = banner_of_rule r (_assess_evidence_grade papers).
Proof.
  rewrite grade_cascade. unfold fires.
  destruct (rule_condition R1 papers) eqn:E1;
    [ exists R1 | destruct (rule_condition R2 papers) eqn:E2;
    [ exists R2 | destruct (rule_condition R3 papers) eqn:E3;
    [ exists R3 | destruct (rule_condition R4 papers) eqn:E4;
    [ exists R4 | destruct (rule_condition R5 papers) eqn:E5;
    [ exists R5 | destruct (rule_condition R6 papers) eqn:E6;
    [ exists R6 | exists R7 ] ] ] ] ] ];
    (split; [ split; [ assumption || reflexivity | ] | reflexivity ]);
    intros r' Hlt; destruct r'; simpl in Hlt; first [ assumption | lia ].
Qed.

End FurtherFacts.

(** ** Failures of the services, and texts that are missing *)

Section FailureFacts.

Import PubMedSearcher AspartameAgent.

Lemma search_papers_last_request (w : world) (query : string) (max_results : Z)
    (log : list request) :
  exists papers reqs,
    search_papers w query max_results log = (Returns papers, log ++ reqs)
    /\ (List.length reqs <= 3)%nat
    /\ forall sent rq,
         reqs = sent ++ [rq] ->
         xml_failure (server w (log ++ sent) rq) -> papers = [].
Proof.
  destruct (search_papers_steps w query max_results log)
    as (pmids1 & pmids & papers & _ & _ & E & Hnone & Hfail & _).
  set (searches := esearch query max_results (pubmed_email w)
                   :: (if is_empty pmids1
                       then [esearch (simple_query query) max_results
                                     (pubmed_email w)]
                       else [])) in *.
  exists papers, (searches ++ fetch_requests w pmids).
  split; [ now rewrite app_assoc | ].
  split.
  { pose proof (fetch_requests_length w pmids). rewrite length_app.
    subst searches. destruct (is_empty pmids1); simpl; lia. }
  intros sent rq Hreqs Hf.
  destruct (fetch_requests w pmids) as [ | ef more] eqn:Ef;
    [ now apply Hnone | ].
  destruct (join_texts_cases "," pmids) as [(texts & Hp & _) | (Hin & _)].
  - subst pmids.
    assert (Hne : texts <> []).
    { intros ->. discriminate Ef. }
    rewrite (fetch_requests_of_texts w texts Hne) in Ef.
    injection Ef as <- <-.
    apply app_inj_tail in Hreqs. destruct Hreqs as [<- <-].
    now apply (Hfail texts eq_refl).
  - assert (Hnil : fetch_requests w pmids = []).
    { apply fetch_requests_nil. now right. }
    congruence.
Qed.

(** X23.  Failed requests give empty lists.  The identifier search, the
    search of the primary source, the search of the secondary source
    and the web search return in every world, and so does the detail
    fetch when every identifier has a text.  A call whose request (for
    [search_papers], whose last request) raises, is answered with a
    status other than 200, or carries a body that does not parse returns
    the empty list.  When every call fails the pipeline returns the state
    with no record, no web result, the grade for no studies and
    confidence 0.2. *)
Theorem failed_requests_give_empty_lists (w : world) :
  (forall query max_results log,
      exists pmids,
        _search_pmids w query max_results log
        = (Returns pmids, log ++ [esearch query max_results (pubmed_email w)])
        /\ (xml_failure
              (server w log (esearch query max_results (pubmed_email w))) ->
            pmids = []))
  /\ (forall texts log,
        texts <> [] ->
        exists papers,
          _fetch_paper_details w (map Some texts) log
          = (Returns papers,
             log ++ [efetch (String.concat "," texts) (pubmed_email w)])
          /\ (xml_failure
                (server w log (efetch (String.concat "," texts) (pubmed_email w))) ->
              papers = []))
  /\ (forall query max_results log,
        exists papers reqs,
          search_papers w query max_results log = (Returns papers, log ++ reqs)
          /\ (List.length reqs <= 3)%nat
          /\ forall sent rq,
               reqs = sent ++ [rq] ->
               xml_failure (server w (log ++ sent) rq) -> papers = [])
  /\ (forall query max_results log,
        exists papers,
          ArXivSearcher.search_papers w query max_results log
          = (Returns papers,
             log ++ [arxiv_query ("all:" ++ query)%string max_results])
          /\ (xml_failure
                (server w log
                   (arxiv_query ("all:" ++ query)%string max_results)) ->
              papers = []))
  /\ (forall query log,
        exists sources reqs,
          _tavily_search w query log = (Returns sources, log ++ reqs)
          /\ (forall key,
                tavily_key w = Some key ->
                json_failure
                  (server w log
                     (tavily_post key (query ++ " health medical")%string)) ->
                sources = []))
  /\ (unavailable w ->
      forall academic_reply web_reply log,
        exists reqs,
          research w academic_reply web_reply log
          = (Returns nothing_found, log ++ reqs)).
Proof.
  repeat split.
  - intros query max_results log. apply search_pmids_run.
  - intros texts log Hne.
    destruct (fetch_paper_details_run w texts log Hne) as (papers & E & Hf & _).
    now exists papers.
  - intros query max_results log. apply search_papers_last_request.
  - intros query max_results log.
    destruct (arxiv_search_papers_run w query max_results log)
      as (papers & E & _ & Hf).
    now exists papers.
  - intros query log.
    destruct (tavily_search_run w query log) as (sources & reqs & E & _ & Hf & _).
    now exists sources, reqs.
  - intros Hu academic_reply web_reply log.
    destruct (research_unavailable w academic_reply web_reply Hu log)
      as (state & reqs & E & _ & ->).
    now exists reqs.
Qed.

Lemma failed_requests_give_empty_lists_witness :
  exists reqs,
    research offline_world "aspartame safety|aspartame cancer"
             "aspartame guidance" []
    = (Returns nothing_found, [] ++ reqs).
Proof.
  destruct (failed_requests_give_empty_lists offline_world)
    as (_ & _ & _ & _ & _ & Hall).
  apply Hall. intros log rq. simpl. split; exact I.
Defined.

(** X24.  The pipeline raises only in [content_analysis].  The academic
    search and the web search return in every world; the pipeline then
    returns the state with their lists, the grade and the confidence if
    the abstracts of the first three papers and the contents of the
    first three web sources are texts, and raises TypeError if one of
    them is [None]. *)
Theorem pipeline_returns_unless_text_missing
    (w : world) (academic_reply web_reply : string) (log : list request) :
  exists papers reqs1 sources reqs2,
    academic_search w academic_reply log = (Returns papers, log ++ reqs1)
    /\ web_search w web_reply (log ++ reqs1)
       = (Returns sources, (log ++ reqs1) ++ reqs2)
    /\ research w academic_reply web_reply log
       = (if quotable papers sources
          then Returns {| academic_papers := papers;
                          web_sources := sources;
                          evidence_grade := _assess_evidence_grade papers;
                          confidence_score := _calculate_confidence papers sources |}
          else Raises TypeError,
          (log ++ reqs1) ++ reqs2).
Proof. apply research_run. Qed.

(** X25.  The detail fetch raises exactly when an identifier is [None]:
    then it raises TypeError and issues no request.  Otherwise it
    returns, after one request for a non-empty list and none for the
    empty list. *)
Theorem fetch_raises_iff_identifier_without_text
    (w : world) (pmids : list text_or_none) (log : list request) :
  if existsb (fun id => negb (has_text id)) pmids
  then _fetch_paper_details w pmids log = (Raises TypeError, log)
  else exists papers,
         _fetch_paper_details w pmids log
         = (Returns papers,
            log ++ (if is_empty pmids then []
                    else [efetch (String.concat ","
                                    (map (fun id => option_default id "") pmids))
                                 (pubmed_email w)])).
Proof.
  destruct (existsb (fun id => negb (has_text id)) pmids) eqn:Hex.
  - apply fetch_paper_details_raises.
    apply existsb_exists in Hex. destruct Hex as ([t | ] & Hin & Ht);
      [ discriminate | exact Hin ].
  - set (texts := map (fun id => option_default id "") pmids).
    assert (Htexts : pmids = map Some texts).
    { subst texts. clear - Hex. induction pmids as [ | [t | ] rest IH]; simpl in *;
        [ reflexivity | now rewrite <- IH | discriminate ]. }
    destruct (is_empty pmids) eqn:Hem.
    + destruct pmids; [ | discriminate ]. exists []. now rewrite app_nil_r.
    + assert (Hne : texts <> []).
      { subst texts. destruct pmids; discriminate. }
      destruct (fetch_paper_details_run w texts log Hne) as (papers & E & _).
      rewrite <- Htexts in E. now exists papers.
Qed.

End FailureFacts.
